(** * VRFullScreenUserWidget: a shallow embedding of the widget compositor

    The development follows
    [Plugins/VRExpansionPlugin/.../Private/Misc/VRFullScreenUserWidget.cpp].
    The engine is not part of the program: every query into it is a field of
    the host snapshot [Env], every call that only has an effect inside the
    engine is recorded as a [HostCall] in the trace an operation returns, and
    the objects this file creates and writes to directly live in the object
    store [Engine], together with the one piece of engine state the file
    writes and reads back: the hit-test path installed on a viewport widget.
    A null dereference or a failed [check] is the outcome [None]. *)

From Stdlib Require Import ZArith QArith Qround Lia.
From stdpp Require Import base option list strings gmap.

Local Open Scope Z_scope.

(** ** Engine value types *)

(** [float] values are modelled by the rationals they denote.  The file does
    no floating-point arithmetic: it stores such values, hands them to the
    engine, and compares one of them against [SMALL_NUMBER]. *)
Definition float : Type := Q.

Definition float_lt (a b : float) : bool := negb (Qle_bool b a).

(** [SMALL_NUMBER] is [1.e-8f], the single-precision number
    11258999 * 2^-50. *)
Definition SMALL_NUMBER : float := (11258999 # 1125899906842624)%Q.

Module FIntPoint.
Record t : Type := mk { X : Z; Y : Z }.

Definition ZeroValue : t := mk 0 0.

(** [operator!=] *)
Definition neq (a b : t) : bool := negb ((X a =? X b) && (Y a =? Y b)).
End FIntPoint.

Module FVector2D.
Record t : Type := mk { X : float; Y : float }.

Definition ZeroVector : t := mk 0%Q 0%Q.
End FVector2D.

Record FLinearColor : Type :=
  { R : float; G : float; B : float; A : float }.

Definition FLinearColor_White : FLinearColor :=
  {| R := 1%Q; G := 1%Q; B := 1%Q; A := 1%Q |}.

Definition set_A (a : float) (c : FLinearColor) : FLinearColor :=
  {| R := R c; G := G c; B := B c; A := a |}.

Module EWorldType.
(** The engine's [EWorldType::Type]; the file tests for [Game], [PIE] and
    [Editor]. *)
Inductive t : Type :=
  | NoWorld | Game | Editor | PIE | EditorPreview | GamePreview | GameRPC
  | InactiveWorld.

Definition is_Game (w : t) : bool :=
  match w with Game => true | _ => false end.
Definition is_PIE (w : t) : bool :=
  match w with PIE => true | _ => false end.
Definition is_Editor (w : t) : bool :=
  match w with Editor => true | _ => false end.
End EWorldType.

Module EVRWidgetDisplayType.
(** The values the file names; [Composure] is commented out throughout. *)
Inductive t : Type := Inactive | Viewport | PostProcess.

Definition eqb (a b : t) : bool :=
  match a, b with
  | Inactive, Inactive | Viewport, Viewport | PostProcess, PostProcess => true
  | _, _ => false
  end.

End EVRWidgetDisplayType.

Inductive EWindowVisibility : Type :=
  | WV_Visible | WV_SelfHitTestInvisible.

Inductive EVisibility : Type :=
  | Visible | SelfHitTestInvisible.

Inductive EWidgetBlendMode : Type := Opaque | Masked | Transparent.

Inductive EPixelFormat : Type := PF_B8G8R8A8.

(** Objects are named by the address the engine gave them. *)
Definition ObjectPtr : Type := nat.

(** ** The host snapshot *)

Record FSceneViewport : Type := { GetSize : FIntPoint.t }.

(** An engine [SViewport], by its identity.  The hit-test path installed on
    it is written and read back by the program: it is part of the store. *)
Record SViewport : Type :=
  { ViewportWidgetId : ObjectPtr }.

Record SLevelViewport : Type :=
  { LevelViewportId : ObjectPtr;
    GetSharedActiveViewport : option FSceneViewport;
    (** [GetViewportWidget().Pin()] *)
    GetViewportWidget : option SViewport }.

(** [GetViewportSize] writes through its out-parameter, or leaves it as it
    was: it is a function of the vector handed in. *)
Record UGameViewportClient : Type :=
  { GameViewportClientId : ObjectPtr;
    GetViewportSize : FVector2D.t -> FVector2D.t;
    GetGameViewportWidget : option ObjectPtr }.

Record UGameInstance : Type :=
  { GetGameViewportClient : option UGameViewportClient }.

(** A live [UWorld].  [UWorld*] parameters are [option UWorld]: null, or an
    object with its identity. *)
Record UWorld : Type :=
  { WorldId : ObjectPtr;
    WorldType : EWorldType.t;
    IsGameWorld : bool;
    GetGameViewport : option UGameViewportClient;
    GetGameInstance : option UGameInstance;
    GetWorldSettings : ObjectPtr }.

Record UUserWidget : Type :=
  { UserWidgetId : ObjectPtr;
    IsDesignTime : bool }.

(** One entry of a bubble path: the arranged widget and the virtual pointer
    position attached to it, a shared pointer. *)
Record FWidgetAndPointer : Type :=
  { Widget_of : ObjectPtr;
    PointerPosition : option ObjectPtr }.

Record FVirtualPointerPosition : Type :=
  { CurrentCursorPosition : FVector2D.t;
    LastCursorPosition : FVector2D.t }.

(** [FHittestGrid::GetBubblePath(Coordinate, CursorRadius,
    bIgnoreEnabledStatus)] *)
Record FHittestGrid : Type :=
  { GetBubblePath : FVector2D.t -> float -> bool -> list FWidgetAndPointer }.

(** A live [SVirtualWindow] as the engine sees it. *)
Record SVirtualWindow : Type :=
  { VirtualWindowId : ObjectPtr;
    GetHittestGrid : FHittestGrid }.

Record FGeometry : Type :=
  { AbsoluteToLocal : FVector2D.t -> FVector2D.t }.

(** ** Objects whose members the program writes *)

Record UTextureRenderTarget2D : Type :=
  { ClearColor : FLinearColor }.

Record FWeightedBlendable : Type :=
  { Weight : float;
    Object : option ObjectPtr }.

Record UPostProcessComponent : Type :=
  { bEnabled : bool;
    bUnbound : bool;
    WeightedBlendables : list FWeightedBlendable }.

Record Env : Type :=
  { (** build configuration *)
    WITH_EDITOR : bool;
    UE_SERVER : bool;
    (** globals *)
    GUsingNullRHI : bool;
    IsRunningDedicatedServer : bool;
    GetMax2DTextureDimension : Z;
    FSlateApplication_IsInitialized : bool;
    (** [FModuleManager::Get().IsModuleLoaded(NAME_LevelEditorName)] *)
    LevelEditor_IsModuleLoaded : bool;
    GetFirstActiveLevelViewport : option SLevelViewport;
    GEngine_GetGameViewportWidget : option SViewport;
    (** the objects weak pointers may still resolve to *)
    LiveWorlds : list UWorld;
    LiveLevelViewports : list SLevelViewport;
    LiveViewportWidgets : list SViewport;
    LiveVirtualWindows : list SVirtualWindow;
    (** [FVector2D::IntPoint] *)
    IntPoint : FVector2D.t -> FIntPoint.t;
    GetDPIScaleFactorAtPoint : float -> float -> float;
    (** [GetDefault<UUserInterfaceSettings>()] with its
        [GetDPIScaleBasedOnSize] *)
    UserInterfaceSettings : option (FIntPoint.t -> float);
    (** the value of a local [FVector2D] that was never written *)
    IndeterminateVector2D : FVector2D.t;
    (** [CreateWidget(World, WidgetClass)] *)
    CreateWidget : UWorld -> ObjectPtr -> option UUserWidget;
    (** the members of a [UPostProcessComponent] as [NewObject] leaves them *)
    NewObject_UPostProcessComponent : UPostProcessComponent }.

(** [TWeakObjectPtr<UWorld>::Get] *)
Definition World_Get (env : Env) (p : option ObjectPtr) : option UWorld :=
  match p with
  | Some i => List.find (fun w => Nat.eqb (WorldId w) i) (LiveWorlds env)
  | None => None
  end.

(** [TWeakPtr<SLevelViewport>::Pin] *)
Definition LevelViewport_Pin (env : Env) (p : option ObjectPtr)
  : option SLevelViewport :=
  match p with
  | Some i =>
      List.find (fun v => Nat.eqb (LevelViewportId v) i) (LiveLevelViewports env)
  | None => None
  end.

(** [TWeakPtr<SViewport>::Pin] *)
Definition ViewportWidget_Pin (env : Env) (p : option ObjectPtr)
  : option SViewport :=
  match p with
  | Some i =>
      List.find (fun v => Nat.eqb (ViewportWidgetId v) i) (LiveViewportWidgets env)
  | None => None
  end.

(** [TWeakPtr<SVirtualWindow>::Pin] *)
Definition VirtualWindow_Pin (env : Env) (p : option ObjectPtr)
  : option SVirtualWindow :=
  match p with
  | Some i =>
      List.find (fun v => Nat.eqb (VirtualWindowId v) i) (LiveVirtualWindows env)
  | None => None
  end.

Definition isSome {T : Type} (o : option T) : bool :=
  match o with Some _ => true | None => false end.

(** The level viewport the three editor branches select:
    [TargetViewport] when it is still valid, the first active one
    otherwise. *)
Definition ActiveLevelViewport (env : Env) (TargetViewport : option ObjectPtr)
  : option SLevelViewport :=
  if isSome (LevelViewport_Pin env TargetViewport)
  then LevelViewport_Pin env TargetViewport
  else GetFirstActiveLevelViewport env.

Definition is_Game_or_PIE (w : UWorld) : bool :=
  EWorldType.is_Game (WorldType w) || EWorldType.is_PIE (WorldType w).


(** ** Names *)

(** An [FName], by the string it stands for; [operator==] compares the
    names.  The names compared here are those of reflected members, in the
    spelling of their declarations. *)
Definition FName : Type := string.

Definition FName_eqb (a b : FName) : bool := String.eqb a b.

(** The material parameters. *)

Definition NAME_SlateUI : string := "SlateUI".
Definition NAME_TintColorAndOpacity : string := "TintColorAndOpacity".
Definition NAME_OpacityFromTexture : string := "OpacityFromTexture".

Definition ConvertWindowVisibilityToVisibility (visibility : EWindowVisibility)
  : EVisibility :=
  match visibility with
  | WV_Visible => Visible
  | WV_SelfHitTestInvisible => SelfHitTestInvisible
  end.

(** ** Calls into the engine *)

(** The calls whose effect stays inside the engine, with their arguments, in
    the order the program makes them. *)
Inductive HostCall : Type :=
  (* UGameViewportClient, SLevelViewport *)
  | AddViewportWidgetContent (client canvas : ObjectPtr)
  | RemoveViewportWidgetContent (client canvas : ObjectPtr)
  | AddOverlayWidget (levelViewport canvas : ObjectPtr)
  | RemoveOverlayWidget (levelViewport canvas : ObjectPtr)
  (* SNew(SConstraintCanvas) with its one slot: SDPIScaler over TakeWidget() *)
  | SNew_SConstraintCanvas (canvas : ObjectPtr) (DPIScale : float)
      (widget : ObjectPtr)
  (* UPostProcessComponent *)
  | RegisterComponent (component : ObjectPtr)
  | UnregisterComponent (component : ObjectPtr)
  (* UMaterialInstanceDynamic *)
  | UMaterialInstanceDynamic_Create (instance parent outer : ObjectPtr)
  | SetTextureParameterValue (instance : ObjectPtr) (name : string)
      (texture : option ObjectPtr)
  | SetVectorParameterValue (instance : ObjectPtr) (name : string)
      (value : FLinearColor)
  | SetScalarParameterValue (instance : ObjectPtr) (name : string)
      (value : float)
  (* FWidgetRenderer *)
  | new_FWidgetRenderer (renderer : ObjectPtr) (bApplyGammaCorrection : bool)
  | SetIsPrepassNeeded (renderer : ObjectPtr) (b : bool)
  | BeginCleanup (renderer : ObjectPtr)
  | DrawWindow (renderer : ObjectPtr) (target : option ObjectPtr)
      (hittestGridOf window : ObjectPtr) (DrawScale : float)
      (DrawSize : FIntPoint.t) (DeltaSeconds : float)
  (* SVirtualWindow *)
  | SNew_SVirtualWindow (window : ObjectPtr) (Size : FIntPoint.t)
  | SetIsFocusable (window : ObjectPtr) (b : bool)
  | SetVisibility (window : ObjectPtr) (v : EVisibility)
  | SetContent (window : ObjectPtr) (DPIScale : float) (widget : ObjectPtr)
  | AssignParentWidget (window : ObjectPtr) (parent : option ObjectPtr)
  | Resize (window : ObjectPtr) (Size : FIntPoint.t)
  (* FSlateApplication, SViewport *)
  | RegisterVirtualWindow (window : ObjectPtr)
  | UnregisterVirtualWindow (window : ObjectPtr)
  | SetCustomHitTestPath (viewport : ObjectPtr) (path : option ObjectPtr)
  (* UTextureRenderTarget2D *)
  | NewObject_UTextureRenderTarget2D (target outer : ObjectPtr)
  | InitCustomFormat (target : ObjectPtr) (SizeX SizeY : Z)
      (Format : EPixelFormat) (bForceLinearGamma : bool)
  | UpdateResourceImmediate (target : ObjectPtr)
  (* FWorldDelegates::LevelRemovedFromWorld, UObject *)
  | LevelRemovedFromWorld_AddUObject
  | LevelRemovedFromWorld_RemoveAll
  | SetFlags_RF_Transient (object : ObjectPtr).

(** The child [ArrangeCustomHitTestChildren] adds to [ArrangedChildren]: the
    widget, and the local size of the geometry [MakeChild] gives it under
    the identity layout transform. *)
Record FArrangedWidget : Type :=
  { ArrangedWidget_Widget : ObjectPtr;
    ArrangedWidget_LocalSize : FIntPoint.t }.

(** ** FVRWidgetPostProcessHitTester *)

Module FVRWidgetPostProcessHitTester.

Record t : Type :=
  { World : option ObjectPtr;          (* TWeakObjectPtr<UWorld> *)
    SlateWindow : option ObjectPtr;    (* TWeakPtr<SVirtualWindow> *)
    WidgetDrawSize : FIntPoint.t;
    LastLocalHitLocation : FVector2D.t (* mutable *) }.

Definition ctor (InWorld : option ObjectPtr) (InSlateWindow : option ObjectPtr)
  : t :=
  {| World := InWorld;
     SlateWindow := InSlateWindow;
     WidgetDrawSize := FIntPoint.ZeroValue;
     LastLocalHitLocation := FVector2D.ZeroVector |}.

Definition SetWidgetDrawSize (NewWidgetDrawSize : FIntPoint.t) (this : t) : t :=
  {| World := World this;
     SlateWindow := SlateWindow this;
     WidgetDrawSize := NewWidgetDrawSize;
     LastLocalHitLocation := LastLocalHitLocation this |}.

Definition set_LastLocalHitLocation (v : FVector2D.t) (this : t) : t :=
  {| World := World this;
     SlateWindow := SlateWindow this;
     WidgetDrawSize := WidgetDrawSize this;
     LastLocalHitLocation := v |}.

(** [ArrangedWidget.PointerPosition = VirtualMouseCoordinate] *)
Definition set_PointerPosition (p : ObjectPtr) (w : FWidgetAndPointer)
  : FWidgetAndPointer :=
  {| Widget_of := Widget_of w; PointerPosition := Some p |}.

(** The method is [const]; it writes the [mutable] member and allocates one
    [FVirtualPointerPosition].  [positions] is the store of those objects: a
    shared pointer is an index into it, and [MakeShared] appends. *)
Definition GetBubblePathAndVirtualCursors (env : Env) (this : t)
    (InGeometry : FGeometry) (DesktopSpaceCoordinate : FVector2D.t)
    (bIgnoreEnabledStatus : bool) (positions : list FVirtualPointerPosition)
  : list FWidgetAndPointer * t * list FVirtualPointerPosition :=
  match VirtualWindow_Pin env (SlateWindow this) with
  | Some SlateWindowPin =>
      let LocalMouseCoordinate :=
        AbsoluteToLocal InGeometry DesktopSpaceCoordinate in
      let CursorRadius : float := 0%Q in
      let ArrangedWidgets :=
        GetBubblePath (GetHittestGrid SlateWindowPin) LocalMouseCoordinate
          CursorRadius bIgnoreEnabledStatus in
      let VirtualMouseCoordinate : ObjectPtr := length positions in
      let positions :=
        positions ++
        [ {| CurrentCursorPosition := LocalMouseCoordinate;
             LastCursorPosition := LastLocalHitLocation this |} ] in
      let this := set_LastLocalHitLocation LocalMouseCoordinate this in
      (List.map (set_PointerPosition VirtualMouseCoordinate) ArrangedWidgets,
       this, positions)
  | None => ([], this, positions)
  end.

(** The [AddWidget] calls the method makes on [ArrangedChildren]: the
    displayed window, when it is alive, at [WidgetDrawSize]. *)
Definition ArrangeCustomHitTestChildren (env : Env) (this : t)
  : list FArrangedWidget :=
  match VirtualWindow_Pin env (SlateWindow this) with
  | Some SlateWindowPin =>
      [ {| ArrangedWidget_Widget := VirtualWindowId SlateWindowPin;
           ArrangedWidget_LocalSize := WidgetDrawSize this |} ]
  | None => []
  end.

Definition TranslateMouseCoordinateForCustomHitTestChild (this : t)
    (ChildWidget : ObjectPtr) (ViewportGeometry : FGeometry)
    (ScreenSpaceMouseCoordinate LastScreenSpaceMouseCoordinate : FVector2D.t)
  : option ObjectPtr :=
  None.

End FVRWidgetPostProcessHitTester.

(** ** The store and the monad of engine effects *)

Record Engine : Type :=
  { (** the next address [NewObject], [SNew], [new] and [MakeShared] hand out *)
    NextObject : ObjectPtr;
    (** the canvases this file created that are still referenced *)
    LiveCanvases : gset ObjectPtr;
    TextureRenderTargets : gmap ObjectPtr UTextureRenderTarget2D;
    PostProcessComponents : gmap ObjectPtr UPostProcessComponent;
    HitTesters : gmap ObjectPtr FVRWidgetPostProcessHitTester.t;
    (** the custom hit-test path installed on an [SViewport], by the address
        of the viewport widget; none where the map has no entry *)
    CustomHitTestPaths : gmap ObjectPtr ObjectPtr }.

Definition set_NextObject (v : ObjectPtr) (r : Engine) : Engine :=
  {| NextObject := v; LiveCanvases := LiveCanvases r;
     TextureRenderTargets := TextureRenderTargets r;
     PostProcessComponents := PostProcessComponents r;
     HitTesters := HitTesters r;
     CustomHitTestPaths := CustomHitTestPaths r |}.

Definition set_LiveCanvases (v : gset ObjectPtr) (r : Engine) : Engine :=
  {| NextObject := NextObject r; LiveCanvases := v;
     TextureRenderTargets := TextureRenderTargets r;
     PostProcessComponents := PostProcessComponents r;
     HitTesters := HitTesters r;
     CustomHitTestPaths := CustomHitTestPaths r |}.

Definition set_TextureRenderTargets (v : gmap ObjectPtr UTextureRenderTarget2D)
    (r : Engine) : Engine :=
  {| NextObject := NextObject r; LiveCanvases := LiveCanvases r;
     TextureRenderTargets := v;
     PostProcessComponents := PostProcessComponents r;
     HitTesters := HitTesters r;
     CustomHitTestPaths := CustomHitTestPaths r |}.

Definition set_PostProcessComponents (v : gmap ObjectPtr UPostProcessComponent)
    (r : Engine) : Engine :=
  {| NextObject := NextObject r; LiveCanvases := LiveCanvases r;
     TextureRenderTargets := TextureRenderTargets r;
     PostProcessComponents := v; HitTesters := HitTesters r;
     CustomHitTestPaths := CustomHitTestPaths r |}.

Definition set_HitTesters (v : gmap ObjectPtr FVRWidgetPostProcessHitTester.t)
    (r : Engine) : Engine :=
  {| NextObject := NextObject r; LiveCanvases := LiveCanvases r;
     TextureRenderTargets := TextureRenderTargets r;
     PostProcessComponents := PostProcessComponents r; HitTesters := v;
     CustomHitTestPaths := CustomHitTestPaths r |}.

Definition set_CustomHitTestPaths (v : gmap ObjectPtr ObjectPtr) (r : Engine)
  : Engine :=
  {| NextObject := NextObject r; LiveCanvases := LiveCanvases r;
     TextureRenderTargets := TextureRenderTargets r;
     PostProcessComponents := PostProcessComponents r;
     HitTesters := HitTesters r; CustomHitTestPaths := v |}.

(** A computation reads and writes the store, may abort ([None]), and
    returns the calls it made into the engine. *)
Definition M (T : Type) : Type := Engine -> option (T * Engine * list HostCall).

Definition ret {T : Type} (a : T) : M T := fun e => Some (a, e, []).

Definition bind {T U : Type} (m : M T) (k : T -> M U) : M U :=
  fun e =>
    match m e with
    | Some (a, e1, t1) =>
        match k a e1 with
        | Some (b, e2, t2) => Some (b, e2, t1 ++ t2)
        | None => None
        end
    | None => None
    end.

Global Instance M_ret : MRet M := @ret.
Global Instance M_bind : MBind M := fun T U k m => bind m k.

Definition emit (c : HostCall) : M unit := fun e => Some (tt, e, [c]).

Definition crash {T : Type} : M T := fun _ => None.

Definition modify (f : Engine -> Engine) : M unit :=
  fun e => Some (tt, f e, []).

Definition gets {T : Type} (f : Engine -> T) : M T :=
  fun e => Some (f e, e, []).

(** A fresh address. *)
Definition NewObject : M ObjectPtr :=
  fun e => Some (NextObject e, set_NextObject (S (NextObject e)) e, []).

(** [p->...] on a pointer that may be null. *)
Definition deref {T : Type} (p : option T) : M T :=
  match p with
  | Some x => ret x
  | None => crash
  end.

Definition when (b : bool) (m : M unit) : M unit :=
  if b then m else ret tt.

(** [SViewport::GetCustomHitTestPath] *)
Definition GetCustomHitTestPath (v : SViewport) (e : Engine)
  : option ObjectPtr :=
  CustomHitTestPaths e !! ViewportWidgetId v.

(** [SViewport::SetCustomHitTestPath]: the call is recorded, and the path is
    what [GetCustomHitTestPath] finds on the viewport widget from then on. *)
Definition SViewport_SetCustomHitTestPath (v : SViewport)
    (p : option ObjectPtr) : M unit :=
  emit (SetCustomHitTestPath (ViewportWidgetId v) p);;
  modify (fun e =>
    set_CustomHitTestPaths
      (partial_alter (fun _ => p) (ViewportWidgetId v) (CustomHitTestPaths e))
      e).

(** ** FVRFullScreenUserWidget_Viewport *)

Module FVRFullScreenUserWidget_Viewport.

Record t : Type :=
  { bAddedToGameViewport : bool;
    FullScreenCanvasWidget : option ObjectPtr;      (* TWeakPtr *)
    OverlayWidgetLevelViewport : option ObjectPtr;  (* TWeakPtr *)
    TargetViewport : option ObjectPtr               (* TWeakPtr *) }.

Definition set_FullScreenCanvasWidget (v : option ObjectPtr) (r : t) : t :=
  {| bAddedToGameViewport := bAddedToGameViewport r;
     FullScreenCanvasWidget := v;
     OverlayWidgetLevelViewport := OverlayWidgetLevelViewport r;
     TargetViewport := TargetViewport r |}.

Definition set_OverlayWidgetLevelViewport (v : option ObjectPtr) (r : t) : t :=
  {| bAddedToGameViewport := bAddedToGameViewport r;
     FullScreenCanvasWidget := FullScreenCanvasWidget r;
     OverlayWidgetLevelViewport := v; TargetViewport := TargetViewport r |}.

Definition set_TargetViewport (v : option ObjectPtr) (r : t) : t :=
  {| bAddedToGameViewport := bAddedToGameViewport r;
     FullScreenCanvasWidget := FullScreenCanvasWidget r;
     OverlayWidgetLevelViewport := OverlayWidgetLevelViewport r;
     TargetViewport := v |}.


Definition ctor : t :=
  {| bAddedToGameViewport := false;
     FullScreenCanvasWidget := None;
     OverlayWidgetLevelViewport := None;
     TargetViewport := None |}.

(** [FullScreenCanvasWidget.Pin()]: the canvas, while something still
    references it. *)
Definition FullScreenCanvasWidget_Pin (e : Engine) (this : t)
  : option ObjectPtr :=
  match FullScreenCanvasWidget this with
  | Some c => if bool_decide (c ∈ LiveCanvases e) then Some c else None
  | None => None
  end.

Definition Display (env : Env) (this : t) (World : option UWorld)
    (Widget : option UUserWidget) (InDPIScale : float) : M (bool * t) :=
  FullScreenWidgetPinned ← gets (fun e => FullScreenCanvasWidget_Pin e this);
  (match Widget, World, FullScreenWidgetPinned with
   | Some Widget, Some World, None =>
       let '(ViewportClient, ActiveLevelViewport, bResult) :=
         if is_Game_or_PIE World
         then (GetGameViewport World, None, isSome (GetGameViewport World))
         else if WITH_EDITOR env && LevelEditor_IsModuleLoaded env
         then (None, ActiveLevelViewport env (TargetViewport this),
               isSome (ActiveLevelViewport env (TargetViewport this)))
         else (None, None, false) in
       if bResult then
         FullScreenCanvas ← NewObject;
         emit (SNew_SConstraintCanvas FullScreenCanvas InDPIScale
                 (UserWidgetId Widget));;
         modify (fun e =>
           set_LiveCanvases ({[FullScreenCanvas]} ∪ LiveCanvases e) e);;
         let this := set_FullScreenCanvasWidget (Some FullScreenCanvas) this in
         match ViewportClient with
         | Some ViewportClient =>
             emit (AddViewportWidgetContent
                     (GameViewportClientId ViewportClient) FullScreenCanvas);;
             mret (bResult, this)
         | None =>
             if WITH_EDITOR env then
               ActiveLevelViewport ← deref ActiveLevelViewport;
               emit (AddOverlayWidget (LevelViewportId ActiveLevelViewport)
                       FullScreenCanvas);;
               mret (bResult,
                     set_OverlayWidgetLevelViewport
                       (Some (LevelViewportId ActiveLevelViewport)) this)
             else mret (bResult, this)
         end
       else mret (bResult, this)
   | _, _, _ => mret (false, this)
   end).

Definition Hide (env : Env) (this : t) (World : option UWorld) : M t :=
  FullScreenWidgetPinned ← gets (fun e => FullScreenCanvasWidget_Pin e this);
  (match FullScreenWidgetPinned with
   | Some FullScreenWidgetPinned =>
       let ViewportClient :=
         match World with
         | Some World => GetGameViewport World
         | None => None
         end in
       match ViewportClient with
       | Some ViewportClient =>
           emit (RemoveViewportWidgetContent
                   (GameViewportClientId ViewportClient)
                   FullScreenWidgetPinned)
       | None => mret tt
       end;;
       this ←
         (if WITH_EDITOR env then
            match LevelViewport_Pin env (OverlayWidgetLevelViewport this) with
            | Some OverlayWidgetLevelViewportPinned =>
                emit (RemoveOverlayWidget
                        (LevelViewportId OverlayWidgetLevelViewportPinned)
                        FullScreenWidgetPinned)
            | None => mret tt
            end;;
            mret (set_OverlayWidgetLevelViewport None this)
          else mret this);
       mret (set_FullScreenCanvasWidget None this)
   | None => mret this
   end).

Definition Tick (env : Env) (this : t) (World : option UWorld)
    (DeltaSeconds : float) : M t :=
  mret this.

End FVRFullScreenUserWidget_Viewport.

(** ** Writes to stored objects *)

Definition set_bEnabled (v : bool) (c : UPostProcessComponent)
  : UPostProcessComponent :=
  {| bEnabled := v; bUnbound := bUnbound c;
     WeightedBlendables := WeightedBlendables c |}.

Definition set_bUnbound (v : bool) (c : UPostProcessComponent)
  : UPostProcessComponent :=
  {| bEnabled := bEnabled c; bUnbound := v;
     WeightedBlendables := WeightedBlendables c |}.

Definition set_WeightedBlendables (f : list FWeightedBlendable ->
                                       list FWeightedBlendable)
    (c : UPostProcessComponent) : UPostProcessComponent :=
  {| bEnabled := bEnabled c; bUnbound := bUnbound c;
     WeightedBlendables := f (WeightedBlendables c) |}.

Definition set_Weight (v : float) (b : FWeightedBlendable) : FWeightedBlendable :=
  {| Weight := v; Object := Object b |}.

Definition set_Object (v : option ObjectPtr) (b : FWeightedBlendable)
  : FWeightedBlendable :=
  {| Weight := Weight b; Object := v |}.

(** [TArray::SetNumZeroed]: cut to [n] elements, or fill up with zeroed
    ones. *)
Definition SetNumZeroed (n : nat) (l : list FWeightedBlendable)
  : list FWeightedBlendable :=
  take n l ++ replicate (n - length l) {| Weight := 0%Q; Object := None |}.

Definition write_PostProcessComponent (c : ObjectPtr)
    (f : UPostProcessComponent -> UPostProcessComponent) : M unit :=
  modify (fun e =>
    set_PostProcessComponents (alter f c (PostProcessComponents e)) e).

Definition write_HitTester (h : ObjectPtr)
    (f : FVRWidgetPostProcessHitTester.t -> FVRWidgetPostProcessHitTester.t)
  : M unit :=
  modify (fun e => set_HitTesters (alter f h (HitTesters e)) e).

(** ** FVRFullScreenUserWidget_PostProcess *)

Module FVRFullScreenUserWidget_PostProcess.

Record t : Type :=
  { PostProcessMaterial : option ObjectPtr;
    PostProcessTintColorAndOpacity : FLinearColor;
    PostProcessOpacityFromTexture : float;
    bWidgetDrawSize : bool;
    WidgetDrawSize : FIntPoint.t;
    bWindowFocusable : bool;
    WindowVisibility : EWindowVisibility;
    bReceiveHardwareInput : bool;
    RenderTargetBackgroundColor : FLinearColor;
    RenderTargetBlendMode : EWidgetBlendMode;
    WidgetRenderTarget : option ObjectPtr;
    PostProcessComponent : option ObjectPtr;
    PostProcessMaterialInstance : option ObjectPtr;
    WidgetRenderer : option ObjectPtr;
    CurrentWidgetDrawSize : FIntPoint.t;
    SlateWindow : option ObjectPtr;        (* TSharedPtr *)
    ViewportWidget : option ObjectPtr;     (* TWeakPtr *)
    CustomHitTestPath : option ObjectPtr;  (* TSharedPtr *)
    bRenderToTextureOnly : bool;
    TargetViewport : option ObjectPtr      (* TWeakPtr *) }.

Definition set_PostProcessMaterial (v : option ObjectPtr) (r : t) : t :=
  {| PostProcessMaterial := v;
     PostProcessTintColorAndOpacity := PostProcessTintColorAndOpacity r;
     PostProcessOpacityFromTexture := PostProcessOpacityFromTexture r;
     bWidgetDrawSize := bWidgetDrawSize r;
     WidgetDrawSize := WidgetDrawSize r;
     bWindowFocusable := bWindowFocusable r;
     WindowVisibility := WindowVisibility r;
     bReceiveHardwareInput := bReceiveHardwareInput r;
     RenderTargetBackgroundColor := RenderTargetBackgroundColor r;
     RenderTargetBlendMode := RenderTargetBlendMode r;
     WidgetRenderTarget := WidgetRenderTarget r;
     PostProcessComponent := PostProcessComponent r;
     PostProcessMaterialInstance := PostProcessMaterialInstance r;
     WidgetRenderer := WidgetRenderer r;
     CurrentWidgetDrawSize := CurrentWidgetDrawSize r;
     SlateWindow := SlateWindow r; ViewportWidget := ViewportWidget r;
     CustomHitTestPath := CustomHitTestPath r;
     bRenderToTextureOnly := bRenderToTextureOnly r;
     TargetViewport := TargetViewport r |}.

Definition set_bWidgetDrawSize (v : bool) (r : t) : t :=
  {| PostProcessMaterial := PostProcessMaterial r;
     PostProcessTintColorAndOpacity := PostProcessTintColorAndOpacity r;
     PostProcessOpacityFromTexture := PostProcessOpacityFromTexture r;
     bWidgetDrawSize := v; WidgetDrawSize := WidgetDrawSize r;
     bWindowFocusable := bWindowFocusable r;
     WindowVisibility := WindowVisibility r;
     bReceiveHardwareInput := bReceiveHardwareInput r;
     RenderTargetBackgroundColor := RenderTargetBackgroundColor r;
     RenderTargetBlendMode := RenderTargetBlendMode r;
     WidgetRenderTarget := WidgetRenderTarget r;
     PostProcessComponent := PostProcessComponent r;
     PostProcessMaterialInstance := PostProcessMaterialInstance r;
     WidgetRenderer := WidgetRenderer r;
     CurrentWidgetDrawSize := CurrentWidgetDrawSize r;
     SlateWindow := SlateWindow r; ViewportWidget := ViewportWidget r;
     CustomHitTestPath := CustomHitTestPath r;
     bRenderToTextureOnly := bRenderToTextureOnly r;
     TargetViewport := TargetViewport r |}.

Definition set_WidgetDrawSize (v : FIntPoint.t) (r : t) : t :=
  {| PostProcessMaterial := PostProcessMaterial r;
     PostProcessTintColorAndOpacity := PostProcessTintColorAndOpacity r;
     PostProcessOpacityFromTexture := PostProcessOpacityFromTexture r;
     bWidgetDrawSize := bWidgetDrawSize r; WidgetDrawSize := v;
     bWindowFocusable := bWindowFocusable r;
     WindowVisibility := WindowVisibility r;
     bReceiveHardwareInput := bReceiveHardwareInput r;
     RenderTargetBackgroundColor := RenderTargetBackgroundColor r;
     RenderTargetBlendMode := RenderTargetBlendMode r;
     WidgetRenderTarget := WidgetRenderTarget r;
     PostProcessComponent := PostProcessComponent r;
     PostProcessMaterialInstance := PostProcessMaterialInstance r;
     WidgetRenderer := WidgetRenderer r;
     CurrentWidgetDrawSize := CurrentWidgetDrawSize r;
     SlateWindow := SlateWindow r; ViewportWidget := ViewportWidget r;
     CustomHitTestPath := CustomHitTestPath r;
     bRenderToTextureOnly := bRenderToTextureOnly r;
     TargetViewport := TargetViewport r |}.

Definition set_bReceiveHardwareInput (v : bool) (r : t) : t :=
  {| PostProcessMaterial := PostProcessMaterial r;
     PostProcessTintColorAndOpacity := PostProcessTintColorAndOpacity r;
     PostProcessOpacityFromTexture := PostProcessOpacityFromTexture r;
     bWidgetDrawSize := bWidgetDrawSize r;
     WidgetDrawSize := WidgetDrawSize r;
     bWindowFocusable := bWindowFocusable r;
     WindowVisibility := WindowVisibility r;
     bReceiveHardwareInput := v;
     RenderTargetBackgroundColor := RenderTargetBackgroundColor r;
     RenderTargetBlendMode := RenderTargetBlendMode r;
     WidgetRenderTarget := WidgetRenderTarget r;
     PostProcessComponent := PostProcessComponent r;
     PostProcessMaterialInstance := PostProcessMaterialInstance r;
     WidgetRenderer := WidgetRenderer r;
     CurrentWidgetDrawSize := CurrentWidgetDrawSize r;
     SlateWindow := SlateWindow r; ViewportWidget := ViewportWidget r;
     CustomHitTestPath := CustomHitTestPath r;
     bRenderToTextureOnly := bRenderToTextureOnly r;
     TargetViewport := TargetViewport r |}.

Definition set_WidgetRenderTarget (v : option ObjectPtr) (r : t) : t :=
  {| PostProcessMaterial := PostProcessMaterial r;
     PostProcessTintColorAndOpacity := PostProcessTintColorAndOpacity r;
     PostProcessOpacityFromTexture := PostProcessOpacityFromTexture r;
     bWidgetDrawSize := bWidgetDrawSize r;
     WidgetDrawSize := WidgetDrawSize r;
     bWindowFocusable := bWindowFocusable r;
     WindowVisibility := WindowVisibility r;
     bReceiveHardwareInput := bReceiveHardwareInput r;
     RenderTargetBackgroundColor := RenderTargetBackgroundColor r;
     RenderTargetBlendMode := RenderTargetBlendMode r;
     WidgetRenderTarget := v; PostProcessComponent := PostProcessComponent r;
     PostProcessMaterialInstance := PostProcessMaterialInstance r;
     WidgetRenderer := WidgetRenderer r;
     CurrentWidgetDrawSize := CurrentWidgetDrawSize r;
     SlateWindow := SlateWindow r; ViewportWidget := ViewportWidget r;
     CustomHitTestPath := CustomHitTestPath r;
     bRenderToTextureOnly := bRenderToTextureOnly r;
     TargetViewport := TargetViewport r |}.

Definition set_PostProcessComponent (v : option ObjectPtr) (r : t) : t :=
  {| PostProcessMaterial := PostProcessMaterial r;
     PostProcessTintColorAndOpacity := PostProcessTintColorAndOpacity r;
     PostProcessOpacityFromTexture := PostProcessOpacityFromTexture r;
     bWidgetDrawSize := bWidgetDrawSize r;
     WidgetDrawSize := WidgetDrawSize r;
     bWindowFocusable := bWindowFocusable r;
     WindowVisibility := WindowVisibility r;
     bReceiveHardwareInput := bReceiveHardwareInput r;
     RenderTargetBackgroundColor := RenderTargetBackgroundColor r;
     RenderTargetBlendMode := RenderTargetBlendMode r;
     WidgetRenderTarget := WidgetRenderTarget r; PostProcessComponent := v;
     PostProcessMaterialInstance := PostProcessMaterialInstance r;
     WidgetRenderer := WidgetRenderer r;
     CurrentWidgetDrawSize := CurrentWidgetDrawSize r;
     SlateWindow := SlateWindow r; ViewportWidget := ViewportWidget r;
     CustomHitTestPath := CustomHitTestPath r;
     bRenderToTextureOnly := bRenderToTextureOnly r;
     TargetViewport := TargetViewport r |}.

Definition set_PostProcessMaterialInstance (v : option ObjectPtr) (r : t) : t :=
  {| PostProcessMaterial := PostProcessMaterial r;
     PostProcessTintColorAndOpacity := PostProcessTintColorAndOpacity r;
     PostProcessOpacityFromTexture := PostProcessOpacityFromTexture r;
     bWidgetDrawSize := bWidgetDrawSize r;
     WidgetDrawSize := WidgetDrawSize r;
     bWindowFocusable := bWindowFocusable r;
     WindowVisibility := WindowVisibility r;
     bReceiveHardwareInput := bReceiveHardwareInput r;
     RenderTargetBackgroundColor := RenderTargetBackgroundColor r;
     RenderTargetBlendMode := RenderTargetBlendMode r;
     WidgetRenderTarget := WidgetRenderTarget r;
     PostProcessComponent := PostProcessComponent r;
     PostProcessMaterialInstance := v; WidgetRenderer := WidgetRenderer r;
     CurrentWidgetDrawSize := CurrentWidgetDrawSize r;
     SlateWindow := SlateWindow r; ViewportWidget := ViewportWidget r;
     CustomHitTestPath := CustomHitTestPath r;
     bRenderToTextureOnly := bRenderToTextureOnly r;
     TargetViewport := TargetViewport r |}.

Definition set_WidgetRenderer (v : option ObjectPtr) (r : t) : t :=
  {| PostProcessMaterial := PostProcessMaterial r;
     PostProcessTintColorAndOpacity := PostProcessTintColorAndOpacity r;
     PostProcessOpacityFromTexture := PostProcessOpacityFromTexture r;
     bWidgetDrawSize := bWidgetDrawSize r;
     WidgetDrawSize := WidgetDrawSize r;
     bWindowFocusable := bWindowFocusable r;
     WindowVisibility := WindowVisibility r;
     bReceiveHardwareInput := bReceiveHardwareInput r;
     RenderTargetBackgroundColor := RenderTargetBackgroundColor r;
     RenderTargetBlendMode := RenderTargetBlendMode r;
     WidgetRenderTarget := WidgetRenderTarget r;
     PostProcessComponent := PostProcessComponent r;
     PostProcessMaterialInstance := PostProcessMaterialInstance r;
     WidgetRenderer := v; CurrentWidgetDrawSize := CurrentWidgetDrawSize r;
     SlateWindow := SlateWindow r; ViewportWidget := ViewportWidget r;
     CustomHitTestPath := CustomHitTestPath r;
     bRenderToTextureOnly := bRenderToTextureOnly r;
     TargetViewport := TargetViewport r |}.

Definition set_CurrentWidgetDrawSize (v : FIntPoint.t) (r : t) : t :=
  {| PostProcessMaterial := PostProcessMaterial r;
     PostProcessTintColorAndOpacity := PostProcessTintColorAndOpacity r;
     PostProcessOpacityFromTexture := PostProcessOpacityFromTexture r;
     bWidgetDrawSize := bWidgetDrawSize r;
     WidgetDrawSize := WidgetDrawSize r;
     bWindowFocusable := bWindowFocusable r;
     WindowVisibility := WindowVisibility r;
     bReceiveHardwareInput := bReceiveHardwareInput r;
     RenderTargetBackgroundColor := RenderTargetBackgroundColor r;
     RenderTargetBlendMode := RenderTargetBlendMode r;
     WidgetRenderTarget := WidgetRenderTarget r;
     PostProcessComponent := PostProcessComponent r;
     PostProcessMaterialInstance := PostProcessMaterialInstance r;
     WidgetRenderer := WidgetRenderer r; CurrentWidgetDrawSize := v;
     SlateWindow := SlateWindow r; ViewportWidget := ViewportWidget r;
     CustomHitTestPath := CustomHitTestPath r;
     bRenderToTextureOnly := bRenderToTextureOnly r;
     TargetViewport := TargetViewport r |}.

Definition set_SlateWindow (v : option ObjectPtr) (r : t) : t :=
  {| PostProcessMaterial := PostProcessMaterial r;
     PostProcessTintColorAndOpacity := PostProcessTintColorAndOpacity r;
     PostProcessOpacityFromTexture := PostProcessOpacityFromTexture r;
     bWidgetDrawSize := bWidgetDrawSize r;
     WidgetDrawSize := WidgetDrawSize r;
     bWindowFocusable := bWindowFocusable r;
     WindowVisibility := WindowVisibility r;
     bReceiveHardwareInput := bReceiveHardwareInput r;
     RenderTargetBackgroundColor := RenderTargetBackgroundColor r;
     RenderTargetBlendMode := RenderTargetBlendMode r;
     WidgetRenderTarget := WidgetRenderTarget r;
     PostProcessComponent := PostProcessComponent r;
     PostProcessMaterialInstance := PostProcessMaterialInstance r;
     WidgetRenderer := WidgetRenderer r;
     CurrentWidgetDrawSize := CurrentWidgetDrawSize r; SlateWindow := v;
     ViewportWidget := ViewportWidget r;
     CustomHitTestPath := CustomHitTestPath r;
     bRenderToTextureOnly := bRenderToTextureOnly r;
     TargetViewport := TargetViewport r |}.

Definition set_ViewportWidget (v : option ObjectPtr) (r : t) : t :=
  {| PostProcessMaterial := PostProcessMaterial r;
     PostProcessTintColorAndOpacity := PostProcessTintColorAndOpacity r;
     PostProcessOpacityFromTexture := PostProcessOpacityFromTexture r;
     bWidgetDrawSize := bWidgetDrawSize r;
     WidgetDrawSize := WidgetDrawSize r;
     bWindowFocusable := bWindowFocusable r;
     WindowVisibility := WindowVisibility r;
     bReceiveHardwareInput := bReceiveHardwareInput r;
     RenderTargetBackgroundColor := RenderTargetBackgroundColor r;
     RenderTargetBlendMode := RenderTargetBlendMode r;
     WidgetRenderTarget := WidgetRenderTarget r;
     PostProcessComponent := PostProcessComponent r;
     PostProcessMaterialInstance := PostProcessMaterialInstance r;
     WidgetRenderer := WidgetRenderer r;
     CurrentWidgetDrawSize := CurrentWidgetDrawSize r;
     SlateWindow := SlateWindow r; ViewportWidget := v;
     CustomHitTestPath := CustomHitTestPath r;
     bRenderToTextureOnly := bRenderToTextureOnly r;
     TargetViewport := TargetViewport r |}.

Definition set_CustomHitTestPath (v : option ObjectPtr) (r : t) : t :=
  {| PostProcessMaterial := PostProcessMaterial r;
     PostProcessTintColorAndOpacity := PostProcessTintColorAndOpacity r;
     PostProcessOpacityFromTexture := PostProcessOpacityFromTexture r;
     bWidgetDrawSize := bWidgetDrawSize r;
     WidgetDrawSize := WidgetDrawSize r;
     bWindowFocusable := bWindowFocusable r;
     WindowVisibility := WindowVisibility r;
     bReceiveHardwareInput := bReceiveHardwareInput r;
     RenderTargetBackgroundColor := RenderTargetBackgroundColor r;
     RenderTargetBlendMode := RenderTargetBlendMode r;
     WidgetRenderTarget := WidgetRenderTarget r;
     PostProcessComponent := PostProcessComponent r;
     PostProcessMaterialInstance := PostProcessMaterialInstance r;
     WidgetRenderer := WidgetRenderer r;
     CurrentWidgetDrawSize := CurrentWidgetDrawSize r;
     SlateWindow := SlateWindow r; ViewportWidget := ViewportWidget r;
     CustomHitTestPath := v; bRenderToTextureOnly := bRenderToTextureOnly r;
     TargetViewport := TargetViewport r |}.

Definition set_bRenderToTextureOnly (v : bool) (r : t) : t :=
  {| PostProcessMaterial := PostProcessMaterial r;
     PostProcessTintColorAndOpacity := PostProcessTintColorAndOpacity r;
     PostProcessOpacityFromTexture := PostProcessOpacityFromTexture r;
     bWidgetDrawSize := bWidgetDrawSize r;
     WidgetDrawSize := WidgetDrawSize r;
     bWindowFocusable := bWindowFocusable r;
     WindowVisibility := WindowVisibility r;
     bReceiveHardwareInput := bReceiveHardwareInput r;
     RenderTargetBackgroundColor := RenderTargetBackgroundColor r;
     RenderTargetBlendMode := RenderTargetBlendMode r;
     WidgetRenderTarget := WidgetRenderTarget r;
     PostProcessComponent := PostProcessComponent r;
     PostProcessMaterialInstance := PostProcessMaterialInstance r;
     WidgetRenderer := WidgetRenderer r;
     CurrentWidgetDrawSize := CurrentWidgetDrawSize r;
     SlateWindow := SlateWindow r; ViewportWidget := ViewportWidget r;
     CustomHitTestPath := CustomHitTestPath r; bRenderToTextureOnly := v;
     TargetViewport := TargetViewport r |}.

Definition set_TargetViewport (v : option ObjectPtr) (r : t) : t :=
  {| PostProcessMaterial := PostProcessMaterial r;
     PostProcessTintColorAndOpacity := PostProcessTintColorAndOpacity r;
     PostProcessOpacityFromTexture := PostProcessOpacityFromTexture r;
     bWidgetDrawSize := bWidgetDrawSize r;
     WidgetDrawSize := WidgetDrawSize r;
     bWindowFocusable := bWindowFocusable r;
     WindowVisibility := WindowVisibility r;
     bReceiveHardwareInput := bReceiveHardwareInput r;
     RenderTargetBackgroundColor := RenderTargetBackgroundColor r;
     RenderTargetBlendMode := RenderTargetBlendMode r;
     WidgetRenderTarget := WidgetRenderTarget r;
     PostProcessComponent := PostProcessComponent r;
     PostProcessMaterialInstance := PostProcessMaterialInstance r;
     WidgetRenderer := WidgetRenderer r;
     CurrentWidgetDrawSize := CurrentWidgetDrawSize r;
     SlateWindow := SlateWindow r; ViewportWidget := ViewportWidget r;
     CustomHitTestPath := CustomHitTestPath r;
     bRenderToTextureOnly := bRenderToTextureOnly r; TargetViewport := v |}.


(** The constructor leaves [bRenderToTextureOnly] unwritten; its value is
    the argument. *)
Definition ctor (indeterminate : bool) : t :=
  {| PostProcessMaterial := None;
     PostProcessTintColorAndOpacity := FLinearColor_White;
     PostProcessOpacityFromTexture := 1%Q;
     bWidgetDrawSize := false;
     WidgetDrawSize := FIntPoint.mk 640 360;
     bWindowFocusable := true;
     WindowVisibility := WV_SelfHitTestInvisible;
     bReceiveHardwareInput := false;
     RenderTargetBackgroundColor := {| R := 0%Q; G := 0%Q; B := 0%Q; A := 1%Q |};
     RenderTargetBlendMode := Masked;
     WidgetRenderTarget := None;
     PostProcessComponent := None;
     PostProcessMaterialInstance := None;
     WidgetRenderer := None;
     CurrentWidgetDrawSize := FIntPoint.ZeroValue;
     SlateWindow := None;
     ViewportWidget := None;
     CustomHitTestPath := None;
     bRenderToTextureOnly := indeterminate;
     TargetViewport := None |}.

Definition GetSlateWindow (this : t) : option ObjectPtr := SlateWindow this.

Definition IsTextureSizeValid (env : Env) (Size : FIntPoint.t) : bool :=
  let MaxAllowedDrawSize := GetMax2DTextureDimension env in
  (0 <? FIntPoint.X Size) && (0 <? FIntPoint.Y Size)
  && (FIntPoint.X Size <=? MaxAllowedDrawSize)
  && (FIntPoint.Y Size <=? MaxAllowedDrawSize).

(** [World] is dereferenced at once: the callers pass a world they have
    tested. *)
Definition CalculateWidgetDrawSize (env : Env) (this : t) (World : UWorld)
  : FIntPoint.t :=
  if bWidgetDrawSize this then WidgetDrawSize this
  else if is_Game_or_PIE World then
    match GetGameViewport World with
    | Some ViewportClient =>
        let SmallWidgetSize : float := 16%Q in
        let OutSize := FVector2D.mk SmallWidgetSize SmallWidgetSize in
        let OutSize := GetViewportSize ViewportClient OutSize in
        let OutSize :=
          if float_lt (FVector2D.X OutSize) SMALL_NUMBER
          then FVector2D.mk SmallWidgetSize SmallWidgetSize
          else OutSize in
        IntPoint env OutSize
    | None => FIntPoint.ZeroValue
    end
  else if WITH_EDITOR env && LevelEditor_IsModuleLoaded env then
    match ActiveLevelViewport env (TargetViewport this) with
    | Some ActiveLevelViewport =>
        match GetSharedActiveViewport ActiveLevelViewport with
        | Some SharedActiveViewport => GetSize SharedActiveViewport
        | None => FIntPoint.ZeroValue
        end
    | None => FIntPoint.ZeroValue
    end
  else FIntPoint.ZeroValue.

Definition RegisterHitTesterWithViewport (env : Env) (this : t)
    (World : UWorld) : M t :=
  when (negb (bReceiveHardwareInput this)
        && FSlateApplication_IsInitialized env)
    (w ← deref (SlateWindow this); emit (RegisterVirtualWindow w));;
  let EngineViewportWidget : option SViewport :=
    if is_Game_or_PIE World then GEngine_GetGameViewportWidget env
    else if WITH_EDITOR env && LevelEditor_IsModuleLoaded env then
      match ActiveLevelViewport env (TargetViewport this) with
      | Some ActiveLevelViewport => GetViewportWidget ActiveLevelViewport
      | None => None
      end
    else None in
  match EngineViewportWidget with
  | Some EngineViewportWidget =>
      if bReceiveHardwareInput this then
        Installed ← gets (GetCustomHitTestPath EngineViewportWidget);
        match Installed with
        | Some _ => mret this
        | None =>
            let this :=
              set_ViewportWidget
                (Some (ViewportWidgetId EngineViewportWidget)) this in
            h ← NewObject;
            modify (fun e =>
              set_HitTesters
                (<[h := FVRWidgetPostProcessHitTester.ctor
                          (Some (WorldId World)) (SlateWindow this)]>
                   (HitTesters e)) e);;
            let this := set_CustomHitTestPath (Some h) this in
            write_HitTester h
              (FVRWidgetPostProcessHitTester.SetWidgetDrawSize
                 (CurrentWidgetDrawSize this));;
            SViewport_SetCustomHitTestPath EngineViewportWidget (Some h);;
            mret this
        end
      else mret this
  | None => mret this
  end.

Definition UnRegisterHitTesterWithViewport (env : Env) (this : t) : M t :=
  when (isSome (SlateWindow this) && FSlateApplication_IsInitialized env)
    (w ← deref (SlateWindow this); emit (UnregisterVirtualWindow w));;
  match ViewportWidget_Pin env (ViewportWidget this) with
  | Some ViewportWidgetPin =>
      Installed ← gets (GetCustomHitTestPath ViewportWidgetPin);
      when (bool_decide (Installed = CustomHitTestPath this))
        (SViewport_SetCustomHitTestPath ViewportWidgetPin None)
  | None => mret tt
  end;;
  let this := set_ViewportWidget None this in
  let this := set_CustomHitTestPath None this in
  mret this.

Definition ReleasePostProcessComponent (this : t) : M t :=
  match PostProcessComponent this with
  | Some c => emit (UnregisterComponent c)
  | None => mret tt
  end;;
  let this := set_PostProcessComponent None this in
  let this := set_PostProcessMaterialInstance None this in
  mret this.

Definition CreatePostProcessComponent (env : Env) (this : t)
    (World : option UWorld) : M (bool * t) :=
  this ← ReleasePostProcessComponent this;
  this ←
    match World, PostProcessMaterial this with
    | Some World, Some Material =>
        let WorldSetting := GetWorldSettings World in
        c ← NewObject;
        modify (fun e =>
          set_PostProcessComponents
            (<[c := NewObject_UPostProcessComponent env]>
               (PostProcessComponents e)) e);;
        let this := set_PostProcessComponent (Some c) this in
        write_PostProcessComponent c (set_bEnabled true);;
        write_PostProcessComponent c (set_bUnbound true);;
        emit (RegisterComponent c);;
        i ← NewObject;
        emit (UMaterialInstanceDynamic_Create i Material (WorldId World));;
        let this := set_PostProcessMaterialInstance (Some i) this in
        (* set the parameter immediately *)
        emit (SetTextureParameterValue i NAME_SlateUI
                (WidgetRenderTarget this));;
        emit (SetVectorParameterValue i NAME_TintColorAndOpacity
                (PostProcessTintColorAndOpacity this));;
        emit (SetScalarParameterValue i NAME_OpacityFromTexture
                (PostProcessOpacityFromTexture this));;
        write_PostProcessComponent c
          (set_WeightedBlendables (SetNumZeroed 1));;
        write_PostProcessComponent c
          (set_WeightedBlendables (alter (set_Weight 1%Q) 0%nat));;
        write_PostProcessComponent c
          (set_WeightedBlendables
             (alter (set_Object (PostProcessMaterialInstance this)) 0%nat));;
        mret this
    | _, _ => mret this
    end;
  mret (isSome (PostProcessComponent this)
        && isSome (PostProcessMaterialInstance this), this).

Definition ReleaseRenderer (env : Env) (this : t) : M t :=
  this ←
    match WidgetRenderer this with
    | Some r =>
        emit (BeginCleanup r);;
        mret (set_WidgetRenderer None this)
    | None => mret this
    end;
  this ← UnRegisterHitTesterWithViewport env this;
  let this := set_SlateWindow None this in
  let this := set_WidgetRenderTarget None this in
  let this := set_CurrentWidgetDrawSize FIntPoint.ZeroValue this in
  mret this.

Definition CreateRenderer (env : Env) (this : t) (World : option UWorld)
    (Widget : option UUserWidget) (InDPIScale : float) : M (bool * t) :=
  this ← ReleaseRenderer env this;
  this ←
    match World, Widget with
    | Some World, Some Widget =>
        let CalculatedWidgetSize := CalculateWidgetDrawSize env this World in
        if IsTextureSizeValid env CalculatedWidgetSize then
          let this := set_CurrentWidgetDrawSize CalculatedWidgetSize this in
          let bApplyGammaCorrection := true in
          r ← NewObject;
          emit (new_FWidgetRenderer r bApplyGammaCorrection);;
          let this := set_WidgetRenderer (Some r) this in
          emit (SetIsPrepassNeeded r true);;
          w ← NewObject;
          emit (SNew_SVirtualWindow w (CurrentWidgetDrawSize this));;
          let this := set_SlateWindow (Some w) this in
          emit (SetIsFocusable w (bWindowFocusable this));;
          emit (SetVisibility w
                  (ConvertWindowVisibilityToVisibility (WindowVisibility this)));;
          emit (SetContent w InDPIScale (UserWidgetId Widget));;
          this ← RegisterHitTesterWithViewport env this World;
          when (negb (IsDesignTime Widget) && IsGameWorld World)
            (let GameViewportClient :=
               match GetGameInstance World with
               | Some GameInstance => GetGameViewportClient GameInstance
               | None => None
               end in
             match GameViewportClient with
             | Some GameViewportClient =>
                 w ← deref (SlateWindow this);
                 emit (AssignParentWidget w
                         (GetGameViewportWidget GameViewportClient))
             | None => mret tt
             end);;
          let ActualBackgroundColor :=
            match RenderTargetBlendMode this with
            | Opaque => set_A 1%Q (RenderTargetBackgroundColor this)
            | Masked => set_A 0%Q (RenderTargetBackgroundColor this)
            | Transparent => RenderTargetBackgroundColor this
            end in
          let WorldSetting := GetWorldSettings World in
          rt ← NewObject;
          emit (NewObject_UTextureRenderTarget2D rt WorldSetting);;
          let this := set_WidgetRenderTarget (Some rt) this in
          modify (fun e =>
            set_TextureRenderTargets
              (<[rt := {| ClearColor := ActualBackgroundColor |}]>
                 (TextureRenderTargets e)) e);;
          emit (InitCustomFormat rt
                  (FIntPoint.X (CurrentWidgetDrawSize this))
                  (FIntPoint.Y (CurrentWidgetDrawSize this))
                  PF_B8G8R8A8 false);;
          emit (UpdateResourceImmediate rt);;
          match PostProcessMaterialInstance this with
          | Some i =>
              when (negb (bRenderToTextureOnly this))
                (emit (SetTextureParameterValue i NAME_SlateUI
                         (WidgetRenderTarget this)))
          | None => mret tt
          end;;
          mret this
        else mret this
    | _, _ => mret this
    end;
  mret (isSome (WidgetRenderer this) && isSome (WidgetRenderTarget this), this).

Definition Hide (env : Env) (this : t) (World : option UWorld) : M t :=
  this ←
    (if negb (bRenderToTextureOnly this)
     then ReleasePostProcessComponent this
     else mret this);
  ReleaseRenderer env this.

Definition Display (env : Env) (this : t) (World : option UWorld)
    (Widget : option UUserWidget) (bInRenderToTextureOnly : bool)
    (InDPIScale : float) : M (bool * t) :=
  let this := set_bRenderToTextureOnly bInRenderToTextureOnly this in
  '(bOk, this) ← CreateRenderer env this World Widget InDPIScale;
  if negb (bRenderToTextureOnly this) then
    '(b, this) ← CreatePostProcessComponent env this World;
    mret (bOk && b, this)
  else mret (bOk, this).

Definition TickRenderer (env : Env) (this : t) (World : option UWorld)
    (DeltaSeconds : float) : M t :=
  World_ ← deref World;  (* check(World) *)
  match WidgetRenderTarget this with
  | Some rt =>
      let DrawScale : float := 1%Q in
      let NewCalculatedWidgetSize :=
        CalculateWidgetDrawSize env this World_ in
      this ←
        (if FIntPoint.neq NewCalculatedWidgetSize (CurrentWidgetDrawSize this)
         then
           if IsTextureSizeValid env NewCalculatedWidgetSize then
             let this :=
               set_CurrentWidgetDrawSize NewCalculatedWidgetSize this in
             emit (InitCustomFormat rt
                     (FIntPoint.X (CurrentWidgetDrawSize this))
                     (FIntPoint.Y (CurrentWidgetDrawSize this))
                     PF_B8G8R8A8 false);;
             emit (UpdateResourceImmediate rt);;
             w ← deref (SlateWindow this);
             emit (Resize w (CurrentWidgetDrawSize this));;
             match CustomHitTestPath this with
             | Some h =>
                 write_HitTester h
                   (FVRWidgetPostProcessHitTester.SetWidgetDrawSize
                      (CurrentWidgetDrawSize this))
             | None => mret tt
             end;;
             mret this
           else Hide env this World
         else mret this);
      match WidgetRenderer this with
      | Some r =>
          w ← deref (SlateWindow this);
          emit (DrawWindow r (WidgetRenderTarget this) w w DrawScale
                  (CurrentWidgetDrawSize this) DeltaSeconds);;
          mret this
      | None => mret this
      end
  | None => mret this
  end.

Definition Tick (env : Env) (this : t) (World : option UWorld)
    (DeltaSeconds : float) : M t :=
  TickRenderer env this World DeltaSeconds.

End FVRFullScreenUserWidget_PostProcess.

(** ** UVRFullScreenUserWidget *)

Module UVRFullScreenUserWidget.

Import EVRWidgetDisplayType.

Record t : Type :=
  { CurrentDisplayType : EVRWidgetDisplayType.t;
    bDisplayRequested : bool;
    World : option ObjectPtr;           (* TWeakObjectPtr<UWorld> *)
    WidgetClass : option ObjectPtr;
    Widget : option UUserWidget;
    EditorDisplayType : EVRWidgetDisplayType.t;
    GameDisplayType : EVRWidgetDisplayType.t;
    PIEDisplayType : EVRWidgetDisplayType.t;
    ViewportDisplayType : FVRFullScreenUserWidget_Viewport.t;
    PostProcessDisplayType : FVRFullScreenUserWidget_PostProcess.t;
    TargetViewport : option ObjectPtr;  (* TWeakPtr *)
    (** the two object flags [ShouldDisplay] asks for *)
    RF_ArchetypeObject : bool;
    RF_ClassDefaultObject : bool }.

Definition set_CurrentDisplayType (v : EVRWidgetDisplayType.t) (r : t) : t :=
  {| CurrentDisplayType := v; bDisplayRequested := bDisplayRequested r;
     World := World r; WidgetClass := WidgetClass r; Widget := Widget r;
     EditorDisplayType := EditorDisplayType r;
     GameDisplayType := GameDisplayType r;
     PIEDisplayType := PIEDisplayType r;
     ViewportDisplayType := ViewportDisplayType r;
     PostProcessDisplayType := PostProcessDisplayType r;
     TargetViewport := TargetViewport r;
     RF_ArchetypeObject := RF_ArchetypeObject r;
     RF_ClassDefaultObject := RF_ClassDefaultObject r |}.

Definition set_bDisplayRequested (v : bool) (r : t) : t :=
  {| CurrentDisplayType := CurrentDisplayType r; bDisplayRequested := v;
     World := World r; WidgetClass := WidgetClass r; Widget := Widget r;
     EditorDisplayType := EditorDisplayType r;
     GameDisplayType := GameDisplayType r;
     PIEDisplayType := PIEDisplayType r;
     ViewportDisplayType := ViewportDisplayType r;
     PostProcessDisplayType := PostProcessDisplayType r;
     TargetViewport := TargetViewport r;
     RF_ArchetypeObject := RF_ArchetypeObject r;
     RF_ClassDefaultObject := RF_ClassDefaultObject r |}.

Definition set_World (v : option ObjectPtr) (r : t) : t :=
  {| CurrentDisplayType := CurrentDisplayType r;
     bDisplayRequested := bDisplayRequested r; World := v;
     WidgetClass := WidgetClass r; Widget := Widget r;
     EditorDisplayType := EditorDisplayType r;
     GameDisplayType := GameDisplayType r;
     PIEDisplayType := PIEDisplayType r;
     ViewportDisplayType := ViewportDisplayType r;
     PostProcessDisplayType := PostProcessDisplayType r;
     TargetViewport := TargetViewport r;
     RF_ArchetypeObject := RF_ArchetypeObject r;
     RF_ClassDefaultObject := RF_ClassDefaultObject r |}.

Definition set_WidgetClass (v : option ObjectPtr) (r : t) : t :=
  {| CurrentDisplayType := CurrentDisplayType r;
     bDisplayRequested := bDisplayRequested r; World := World r;
     WidgetClass := v; Widget := Widget r;
     EditorDisplayType := EditorDisplayType r;
     GameDisplayType := GameDisplayType r;
     PIEDisplayType := PIEDisplayType r;
     ViewportDisplayType := ViewportDisplayType r;
     PostProcessDisplayType := PostProcessDisplayType r;
     TargetViewport := TargetViewport r;
     RF_ArchetypeObject := RF_ArchetypeObject r;
     RF_ClassDefaultObject := RF_ClassDefaultObject r |}.

Definition set_Widget (v : option UUserWidget) (r : t) : t :=
  {| CurrentDisplayType := CurrentDisplayType r;
     bDisplayRequested := bDisplayRequested r; World := World r;
     WidgetClass := WidgetClass r; Widget := v;
     EditorDisplayType := EditorDisplayType r;
     GameDisplayType := GameDisplayType r;
     PIEDisplayType := PIEDisplayType r;
     ViewportDisplayType := ViewportDisplayType r;
     PostProcessDisplayType := PostProcessDisplayType r;
     TargetViewport := TargetViewport r;
     RF_ArchetypeObject := RF_ArchetypeObject r;
     RF_ClassDefaultObject := RF_ClassDefaultObject r |}.

Definition set_EditorDisplayType (v : EVRWidgetDisplayType.t) (r : t) : t :=
  {| CurrentDisplayType := CurrentDisplayType r;
     bDisplayRequested := bDisplayRequested r; World := World r;
     WidgetClass := WidgetClass r; Widget := Widget r;
     EditorDisplayType := v; GameDisplayType := GameDisplayType r;
     PIEDisplayType := PIEDisplayType r;
     ViewportDisplayType := ViewportDisplayType r;
     PostProcessDisplayType := PostProcessDisplayType r;
     TargetViewport := TargetViewport r;
     RF_ArchetypeObject := RF_ArchetypeObject r;
     RF_ClassDefaultObject := RF_ClassDefaultObject r |}.

Definition set_GameDisplayType (v : EVRWidgetDisplayType.t) (r : t) : t :=
  {| CurrentDisplayType := CurrentDisplayType r;
     bDisplayRequested := bDisplayRequested r; World := World r;
     WidgetClass := WidgetClass r; Widget := Widget r;
     EditorDisplayType := EditorDisplayType r; GameDisplayType := v;
     PIEDisplayType := PIEDisplayType r;
     ViewportDisplayType := ViewportDisplayType r;
     PostProcessDisplayType := PostProcessDisplayType r;
     TargetViewport := TargetViewport r;
     RF_ArchetypeObject := RF_ArchetypeObject r;
     RF_ClassDefaultObject := RF_ClassDefaultObject r |}.

Definition set_PIEDisplayType (v : EVRWidgetDisplayType.t) (r : t) : t :=
  {| CurrentDisplayType := CurrentDisplayType r;
     bDisplayRequested := bDisplayRequested r; World := World r;
     WidgetClass := WidgetClass r; Widget := Widget r;
     EditorDisplayType := EditorDisplayType r;
     GameDisplayType := GameDisplayType r; PIEDisplayType := v;
     ViewportDisplayType := ViewportDisplayType r;
     PostProcessDisplayType := PostProcessDisplayType r;
     TargetViewport := TargetViewport r;
     RF_ArchetypeObject := RF_ArchetypeObject r;
     RF_ClassDefaultObject := RF_ClassDefaultObject r |}.

Definition set_ViewportDisplayType (v : FVRFullScreenUserWidget_Viewport.t)
    (r : t) : t :=
  {| CurrentDisplayType := CurrentDisplayType r;
     bDisplayRequested := bDisplayRequested r; World := World r;
     WidgetClass := WidgetClass r; Widget := Widget r;
     EditorDisplayType := EditorDisplayType r;
     GameDisplayType := GameDisplayType r;
     PIEDisplayType := PIEDisplayType r; ViewportDisplayType := v;
     PostProcessDisplayType := PostProcessDisplayType r;
     TargetViewport := TargetViewport r;
     RF_ArchetypeObject := RF_ArchetypeObject r;
     RF_ClassDefaultObject := RF_ClassDefaultObject r |}.

Definition set_PostProcessDisplayType (v : FVRFullScreenUserWidget_PostProcess.t)
    (r : t) : t :=
  {| CurrentDisplayType := CurrentDisplayType r;
     bDisplayRequested := bDisplayRequested r; World := World r;
     WidgetClass := WidgetClass r; Widget := Widget r;
     EditorDisplayType := EditorDisplayType r;
     GameDisplayType := GameDisplayType r;
     PIEDisplayType := PIEDisplayType r;
     ViewportDisplayType := ViewportDisplayType r;
     PostProcessDisplayType := v; TargetViewport := TargetViewport r;
     RF_ArchetypeObject := RF_ArchetypeObject r;
     RF_ClassDefaultObject := RF_ClassDefaultObject r |}.

Definition set_TargetViewport (v : option ObjectPtr) (r : t) : t :=
  {| CurrentDisplayType := CurrentDisplayType r;
     bDisplayRequested := bDisplayRequested r; World := World r;
     WidgetClass := WidgetClass r; Widget := Widget r;
     EditorDisplayType := EditorDisplayType r;
     GameDisplayType := GameDisplayType r;
     PIEDisplayType := PIEDisplayType r;
     ViewportDisplayType := ViewportDisplayType r;
     PostProcessDisplayType := PostProcessDisplayType r; TargetViewport := v;
     RF_ArchetypeObject := RF_ArchetypeObject r;
     RF_ClassDefaultObject := RF_ClassDefaultObject r |}.


(** The constructor.  The display types of the three world kinds, the widget
    class and the object flags are set by the reflection system; the
    material is what the object finder found. *)
Definition ctor (InEditorDisplayType InGameDisplayType InPIEDisplayType
                   : EVRWidgetDisplayType.t)
    (InWidgetClass : option ObjectPtr) (archetype cdo : bool)
    (PostProcessMaterial_Finder : option ObjectPtr) (indeterminate : bool)
  : t :=
  {| CurrentDisplayType := Inactive;
     bDisplayRequested := false;
     World := None;
     WidgetClass := InWidgetClass;
     Widget := None;
     EditorDisplayType := InEditorDisplayType;
     GameDisplayType := InGameDisplayType;
     PIEDisplayType := InPIEDisplayType;
     ViewportDisplayType := FVRFullScreenUserWidget_Viewport.ctor;
     PostProcessDisplayType :=
       FVRFullScreenUserWidget_PostProcess.set_PostProcessMaterial
         PostProcessMaterial_Finder
         (FVRFullScreenUserWidget_PostProcess.ctor indeterminate);
     TargetViewport := None;
     RF_ArchetypeObject := archetype;
     RF_ClassDefaultObject := cdo |}.

Definition GetDisplayType (env : Env) (this : t) (InWorld : option UWorld)
  : EVRWidgetDisplayType.t :=
  match InWorld with
  | Some InWorld =>
      if EWorldType.is_Game (WorldType InWorld) then GameDisplayType this
      else if WITH_EDITOR env && EWorldType.is_PIE (WorldType InWorld)
      then PIEDisplayType this
      else if WITH_EDITOR env && EWorldType.is_Editor (WorldType InWorld)
      then EditorDisplayType this
      else Inactive
  | None => Inactive
  end.

Definition ShouldDisplay (env : Env) (this : t) (InWorld : option UWorld)
  : bool :=
  if UE_SERVER env then false
  else if GUsingNullRHI env
          || (RF_ArchetypeObject this || RF_ClassDefaultObject this)
          || IsRunningDedicatedServer env
  then false
  else negb (eqb (GetDisplayType env this InWorld) Inactive).

Definition IsDisplayed (this : t) : bool :=
  negb (eqb (CurrentDisplayType this) Inactive).

Definition SetDisplayTypes (this : t)
    (InEditorDisplayType InGameDisplayType InPIEDisplayType
       : EVRWidgetDisplayType.t) : t :=
  let this := set_EditorDisplayType InEditorDisplayType this in
  let this := set_GameDisplayType InGameDisplayType this in
  let this := set_PIEDisplayType InPIEDisplayType this in
  this.

Definition InitWidget (env : Env) (this : t) : M t :=
  (* Don't do any work if Slate is not initialized *)
  if FSlateApplication_IsInitialized env then
    match WidgetClass this, Widget this with
    | Some WidgetClass_, None =>
        World_ ← deref (World_Get env (World this));  (* check(World.Get()) *)
        let this := set_Widget (CreateWidget env World_ WidgetClass_) this in
        Widget_ ← deref (Widget this);
        emit (SetFlags_RF_Transient (UserWidgetId Widget_));;
        mret this
    | _, _ => mret this
    end
  else mret this.

Definition ReleaseWidget (this : t) : t := set_Widget None this.

Definition FVector2D_of_FIntPoint (p : FIntPoint.t) : FVector2D.t :=
  FVector2D.mk (inject_Z (FIntPoint.X p)) (inject_Z (FIntPoint.Y p)).

Definition FindSceneViewportSize (env : Env) (this : t) : FVector2D.t :=
  let OutSize := IndeterminateVector2D env in
  let CurrentWorld := World_Get env (World this) in
  if match CurrentWorld with
     | Some CurrentWorld => is_Game_or_PIE CurrentWorld
     | None => false
     end
  then
    match CurrentWorld with
    | Some World_ =>
        match GetGameViewport World_ with
        | Some ViewportClient => GetViewportSize ViewportClient OutSize
        | None => OutSize
        end
    | None => OutSize
    end
  else if WITH_EDITOR env && LevelEditor_IsModuleLoaded env then
    match ActiveLevelViewport env (TargetViewport this) with
    | Some ActiveLevelViewport =>
        match GetSharedActiveViewport ActiveLevelViewport with
        | Some SharedActiveViewport =>
            FVector2D_of_FIntPoint (GetSize SharedActiveViewport)
        | None => OutSize
        end
    | None => OutSize
    end
  else OutSize.

Definition GetViewportDPIScale (env : Env) (this : t) : float :=
  let UIScale : float := 1%Q in
  let PlatformScale := GetDPIScaleFactorAtPoint env 10%Q 10%Q in
  let CurrentWorld := World_Get env (World this) in
  if eqb (CurrentDisplayType this) Viewport
     && match CurrentWorld with
        | Some CurrentWorld => is_Game_or_PIE CurrentWorld
        | None => false
        end
  then PlatformScale
  else
    let ViewportSize := IntPoint env (FindSceneViewportSize env this) in
    match UserInterfaceSettings env with
    | Some GetDPIScaleBasedOnSize => GetDPIScaleBasedOnSize ViewportSize
    | None => UIScale
    end.

Definition Display (env : Env) (this : t) (InWorld : option UWorld)
  : M (bool * t) :=
  let this := set_bDisplayRequested true this in
  let this := set_World (WorldId <$> InWorld) this in
  let bWasAdded := false in
  if isSome InWorld && isSome (WidgetClass this)
     && ShouldDisplay env this InWorld
     && eqb (CurrentDisplayType this) Inactive
  then
    let this := set_CurrentDisplayType (GetDisplayType env this InWorld) this in
    this ← InitWidget env this;
    let DPIScale := GetViewportDPIScale env this in
    '(bWasAdded, this) ←
      (if eqb (CurrentDisplayType this) Viewport then
         '(b, v) ←
           FVRFullScreenUserWidget_Viewport.Display env
             (ViewportDisplayType this) InWorld (Widget this) DPIScale;
         mret (b, set_ViewportDisplayType v this)
       else if eqb (CurrentDisplayType this) PostProcess then
         '(b, pp) ←
           FVRFullScreenUserWidget_PostProcess.Display env
             (PostProcessDisplayType this) InWorld (Widget this) false DPIScale;
         mret (b, set_PostProcessDisplayType pp this)
       else mret (bWasAdded, this));
    when bWasAdded (emit LevelRemovedFromWorld_AddUObject);;
    mret (bWasAdded, this)
  else mret (bWasAdded, this).

Definition Hide (env : Env) (this : t) : M t :=
  let this := set_bDisplayRequested false this in
  this ←
    (if negb (eqb (CurrentDisplayType this) Inactive) then
       let this := ReleaseWidget this in
       emit LevelRemovedFromWorld_RemoveAll;;
       this ←
         (if eqb (CurrentDisplayType this) Viewport then
            v ← FVRFullScreenUserWidget_Viewport.Hide env
                  (ViewportDisplayType this) (World_Get env (World this));
            mret (set_ViewportDisplayType v this)
          else if eqb (CurrentDisplayType this) PostProcess then
            pp ← FVRFullScreenUserWidget_PostProcess.Hide env
                   (PostProcessDisplayType this) (World_Get env (World this));
            mret (set_PostProcessDisplayType pp this)
          else mret this);
       mret (set_CurrentDisplayType Inactive this)
     else mret this);
  mret (set_World None this).

Definition BeginDestroy (env : Env) (this : t) : M t :=
  Hide env this.

Definition Tick (env : Env) (this : t) (DeltaSeconds : float) : M t :=
  if negb (eqb (CurrentDisplayType this) Inactive) then
    match World_Get env (World this) with
    | None => Hide env this
    | Some CurrentWorld =>
        if eqb (CurrentDisplayType this) Viewport then
          v ← FVRFullScreenUserWidget_Viewport.Tick env
                (ViewportDisplayType this) (Some CurrentWorld) DeltaSeconds;
          mret (set_ViewportDisplayType v this)
        else if eqb (CurrentDisplayType this) PostProcess then
          pp ← FVRFullScreenUserWidget_PostProcess.Tick env
                 (PostProcessDisplayType this) (Some CurrentWorld) DeltaSeconds;
          mret (set_PostProcessDisplayType pp this)
        else mret this
    end
  else mret this.

Definition OnLevelRemovedFromWorld (env : Env) (this : t)
    (InLevel : option ObjectPtr) (InWorld : option UWorld) : M t :=
  (* If the InLevel is invalid, then the entire world is about to disappear. *)
  if negb (isSome InLevel)
     && match InWorld, World_Get env (World this) with
        | Some InWorld, Some World_ => Nat.eqb (WorldId InWorld) (WorldId World_)
        | _, _ => false
        end
  then Hide env this
  else mret this.

Definition SetAllTargetViewports (this : t)
    (InTargetViewport : option ObjectPtr) : t :=
  let this := set_TargetViewport InTargetViewport this in
  let this :=
    set_ViewportDisplayType
      (FVRFullScreenUserWidget_Viewport.set_TargetViewport InTargetViewport
         (ViewportDisplayType this)) this in
  set_PostProcessDisplayType
    (FVRFullScreenUserWidget_PostProcess.set_TargetViewport InTargetViewport
       (PostProcessDisplayType this)) this.

Definition ResetAllTargetViewports (this : t) : t :=
  SetAllTargetViewports this None.

(** The member names [GET_MEMBER_NAME_CHECKED] gives the function. *)
Definition NAME_WidgetClass : FName := "WidgetClass".
Definition NAME_EditorDisplayType : FName := "EditorDisplayType".
Definition NAME_PostProcessMaterial : FName := "PostProcessMaterial".
Definition NAME_WidgetDrawSize : FName := "WidgetDrawSize".
Definition NAME_WindowFocusable : FName := "bWindowFocusable".
Definition NAME_WindowVisibility : FName := "WindowVisibility".
Definition NAME_ReceiveHardwareInput : FName := "bReceiveHardwareInput".
Definition NAME_RenderTargetBackgroundColor : FName :=
  "RenderTargetBackgroundColor".
Definition NAME_RenderTargetBlendMode : FName := "RenderTargetBlendMode".
Definition NAME_PostProcessTintColorAndOpacity : FName :=
  "PostProcessTintColorAndOpacity".
Definition NAME_PostProcessOpacityFromTexture : FName :=
  "PostProcessOpacityFromTexture".

(** [MemberProperty] is [PropertyChangedEvent.MemberProperty], null or a
    property given by its [GetFName()]; [bInteractive] says that the change
    type is [Interactive]. *)
Definition PostEditChangeProperty (env : Env) (this : t)
    (MemberProperty : option FName) (bInteractive : bool) : M t :=
  match MemberProperty with
  | Some Property =>
      if negb bInteractive then
        if FName_eqb Property NAME_WidgetClass
           || FName_eqb Property NAME_EditorDisplayType
           || FName_eqb Property NAME_PostProcessMaterial
           || FName_eqb Property NAME_WidgetDrawSize
           || FName_eqb Property NAME_WindowFocusable
           || FName_eqb Property NAME_WindowVisibility
           || FName_eqb Property NAME_ReceiveHardwareInput
           || FName_eqb Property NAME_RenderTargetBackgroundColor
           || FName_eqb Property NAME_RenderTargetBlendMode
           || FName_eqb Property NAME_PostProcessTintColorAndOpacity
           || FName_eqb Property NAME_PostProcessOpacityFromTexture
        then
          let bWasRequestedDisplay := bDisplayRequested this in
          let CurrentWorld := World_Get env (World this) in
          this ← Hide env this;
          if bWasRequestedDisplay && isSome CurrentWorld then
            '(_, this) ← Display env this CurrentWorld;
            mret this
          else mret this
        else mret this
      else mret this
  | None => mret this
  end.

End UVRFullScreenUserWidget.

(** ** Total correctness of a computation *)

(** [wp m e Q]: from the store [e] the computation [m] does not abort, and
    its result, final store and calls satisfy [Q]. *)
Definition wp {T : Type} (m : M T) (e : Engine)
    (Q : T -> Engine -> list HostCall -> Prop) : Prop :=
  match m e with
  | Some (a, e', tr) => Q a e' tr
  | None => False
  end.

Definition quiet (c : HostCall) : bool :=
  match c with
  | InitCustomFormat _ _ _ _ _ | DrawWindow _ _ _ _ _ _ _ => false
  | _ => true
  end.

(** ** States and traces of the post-process display *)

Section PostProcessStates.
Import FVRFullScreenUserWidget_PostProcess.

Definition renderer_released (this : t) : t :=
  set_CurrentWidgetDrawSize FIntPoint.ZeroValue
    (set_WidgetRenderTarget None
       (set_SlateWindow None
          (set_CustomHitTestPath None
             (set_ViewportWidget None
                (set_WidgetRenderer None this))))).

Definition all_quiet (tr : list HostCall) : Prop :=
  Forall (fun c => quiet c = true) tr.

Definition component_released (this : t) : t :=
  set_PostProcessMaterialInstance None (set_PostProcessComponent None this).

Definition hidden (this : t) : t :=
  renderer_released
    (if negb (bRenderToTextureOnly this) then component_released this else this).

Definition release_component_calls (this : t) : list HostCall :=
  match PostProcessComponent this with
  | Some c => [UnregisterComponent c]
  | None => []
  end.

Definition draw_call (this : t) (DeltaSeconds : float) : list HostCall :=
  match WidgetRenderer this, SlateWindow this with
  | Some r, Some w =>
      [DrawWindow r (WidgetRenderTarget this) w w 1%Q
         (CurrentWidgetDrawSize this) DeltaSeconds]
  | _, _ => []
  end.

Definition resized (New : FIntPoint.t) (this : t) (e : Engine) : Engine :=
  match CustomHitTestPath this with
  | Some h =>
      set_HitTesters
        (alter (FVRWidgetPostProcessHitTester.SetWidgetDrawSize New) h
           (HitTesters e)) e
  | None => e
  end.

Definition component_calls (this : t) (W : UWorld) (Material c i : ObjectPtr)
  : list HostCall :=
  [ RegisterComponent c;
    UMaterialInstanceDynamic_Create i Material (WorldId W);
    SetTextureParameterValue i NAME_SlateUI (WidgetRenderTarget this);
    SetVectorParameterValue i NAME_TintColorAndOpacity
      (PostProcessTintColorAndOpacity this);
    SetScalarParameterValue i NAME_OpacityFromTexture
      (PostProcessOpacityFromTexture this) ].

Definition init_size (c : HostCall) : option FIntPoint.t :=
  match c with
  | InitCustomFormat _ x y _ _ => Some (FIntPoint.mk x y)
  | _ => None
  end.

Definition init_sizes (tr : list HostCall) : list FIntPoint.t :=
  omap init_size tr.

Definition is_DrawWindow (c : HostCall) : bool :=
  match c with
  | DrawWindow _ _ _ _ _ _ _ => true
  | _ => false
  end.

Definition draws (tr : list HostCall) : list HostCall :=
  List.filter is_DrawWindow tr.

Definition same_settings (this this' : t) : Prop :=
  PostProcessMaterial this' = PostProcessMaterial this /\
  bWidgetDrawSize this' = bWidgetDrawSize this /\
  WidgetDrawSize this' = WidgetDrawSize this /\
  TargetViewport this' = TargetViewport this /\
  bRenderToTextureOnly this' = bRenderToTextureOnly this.

Definition valid_sizes (env : Env) (l : list FIntPoint.t) : Prop :=
  Forall (fun s => IsTextureSizeValid env s = true) l.

(** Every [InitCustomFormat] call of the trace asks for a width and a height
    that are positive and within the maximum 2D texture dimension. *)
Definition sizes_guarded (env : Env) (tr : list HostCall) : Prop :=
  forall target x y f l,
    In (InitCustomFormat target x y f l) tr ->
    0 < x <= GetMax2DTextureDimension env /\
    0 < y <= GetMax2DTextureDimension env.

(** Nothing of the display exists. *)
Definition pp_idle (pp : t) : Prop :=
  WidgetRenderTarget pp = None /\
  WidgetRenderer pp = None /\
  SlateWindow pp = None /\
  PostProcessComponent pp = None /\
  PostProcessMaterialInstance pp = None /\
  CustomHitTestPath pp = None /\
  ViewportWidget pp = None.

(** A render target comes with the virtual window it is drawn from. *)
Definition renderer_tied (pp : t) : Prop :=
  isSome (WidgetRenderTarget pp) = true -> isSome (SlateWindow pp) = true.

(** [pp'] has the members the display itself writes as [pp] has them. *)
Definition same_runtime (pp pp' : t) : Prop :=
  WidgetRenderTarget pp' = WidgetRenderTarget pp /\
  PostProcessComponent pp' = PostProcessComponent pp /\
  PostProcessMaterialInstance pp' = PostProcessMaterialInstance pp /\
  WidgetRenderer pp' = WidgetRenderer pp /\
  CurrentWidgetDrawSize pp' = CurrentWidgetDrawSize pp /\
  SlateWindow pp' = SlateWindow pp /\
  ViewportWidget pp' = ViewportWidget pp /\
  CustomHitTestPath pp' = CustomHitTestPath pp /\
  bRenderToTextureOnly pp' = bRenderToTextureOnly pp /\
  TargetViewport pp' = TargetViewport pp.

End PostProcessStates.

(** ** The calls of the post-process display, part by part *)

Section PostProcessCalls.
Import FVRFullScreenUserWidget_PostProcess.

(** The engine viewport widget [RegisterHitTesterWithViewport] selects. *)
Definition engine_viewport_widget (env : Env) (this : t) (World : UWorld)
  : option SViewport :=
  if is_Game_or_PIE World then GEngine_GetGameViewportWidget env
  else if WITH_EDITOR env && LevelEditor_IsModuleLoaded env then
    match ActiveLevelViewport env (TargetViewport this) with
    | Some ActiveLevelViewport => GetViewportWidget ActiveLevelViewport
    | None => None
    end
  else None.

(** The viewport widget [UnRegisterHitTesterWithViewport] takes the path
    off: the one the display remembers, while it is alive and the path on it
    is the display's own. *)
Definition own_path_on (env : Env) (this : t) (e : Engine) : option SViewport :=
  match ViewportWidget_Pin env (ViewportWidget this) with
  | Some v =>
      if bool_decide (GetCustomHitTestPath v e = CustomHitTestPath this)
      then Some v else None
  | None => None
  end.

(** [e'] has the objects of [e] as they are in [e]; the hit-test paths on
    the viewport widgets may differ. *)
Definition same_objects (e e' : Engine) : Prop :=
  NextObject e' = NextObject e /\
  LiveCanvases e' = LiveCanvases e /\
  TextureRenderTargets e' = TextureRenderTargets e /\
  PostProcessComponents e' = PostProcessComponents e /\
  HitTesters e' = HitTesters e.

(** The store after [UnRegisterHitTesterWithViewport], and so after
    [ReleaseRenderer] and [Hide]. *)
Definition path_taken_off (env : Env) (this : t) (e : Engine) : Engine :=
  match own_path_on env this e with
  | Some v =>
      set_CustomHitTestPaths
        (delete (ViewportWidgetId v) (CustomHitTestPaths e)) e
  | None => e
  end.

(** The calls of [UnRegisterHitTesterWithViewport]. *)
Definition unregister_calls (env : Env) (this : t) (e : Engine)
  : list HostCall :=
  match SlateWindow this with
  | Some w =>
      if FSlateApplication_IsInitialized env
      then [UnregisterVirtualWindow w] else []
  | None => []
  end ++
  match own_path_on env this e with
  | Some v => [SetCustomHitTestPath (ViewportWidgetId v) None]
  | None => []
  end.

(** The calls of [ReleaseRenderer]. *)
Definition renderer_release_calls (env : Env) (this : t) (e : Engine)
  : list HostCall :=
  match WidgetRenderer this with
  | Some r => [BeginCleanup r]
  | None => []
  end ++ unregister_calls env this e.

(** The calls of [Hide]. *)
Definition hide_calls (env : Env) (this : t) (e : Engine) : list HostCall :=
  (if negb (bRenderToTextureOnly this) then release_component_calls this
   else []) ++ renderer_release_calls env this e.

(** The calls and the result of [RegisterHitTesterWithViewport] when the
    window is [w] and the next free address is [h]. *)
Definition register_window_calls (env : Env) (this : t) (w : ObjectPtr)
  : list HostCall :=
  if negb (bReceiveHardwareInput this) && FSlateApplication_IsInitialized env
  then [RegisterVirtualWindow w] else [].

(** The viewport widget a new hit tester goes to: hardware input is on, the
    engine has a viewport widget, and no path is installed on it. *)
Definition hit_test_target (env : Env) (this : t) (World : UWorld)
    (e : Engine) : option SViewport :=
  match engine_viewport_widget env this World with
  | Some v =>
      if bReceiveHardwareInput this then
        match GetCustomHitTestPath v e with
        | Some _ => None
        | None => Some v
        end
      else None
  | None => None
  end.

(** The store after a hit tester [h] for the window [w] was installed on the
    viewport widget [v]. *)
Definition path_installed (this : t) (World : UWorld) (w h : ObjectPtr)
    (v : SViewport) (e : Engine) : Engine :=
  set_CustomHitTestPaths
    (<[ViewportWidgetId v := h]> (CustomHitTestPaths e))
    (set_HitTesters
       (<[h := FVRWidgetPostProcessHitTester.SetWidgetDrawSize
                 (CurrentWidgetDrawSize this)
                 (FVRWidgetPostProcessHitTester.ctor
                    (Some (WorldId World)) (Some w))]> (HitTesters e))
       (set_NextObject (S h) e)).

(** [AssignParentWidget] in [CreateRenderer]. *)
Definition parent_calls (World : UWorld) (Widget : UUserWidget) (w : ObjectPtr)
  : list HostCall :=
  if negb (IsDesignTime Widget) && IsGameWorld World then
    match GetGameInstance World with
    | Some GameInstance =>
        match GetGameViewportClient GameInstance with
        | Some GameViewportClient =>
            [AssignParentWidget w (GetGameViewportWidget GameViewportClient)]
        | None => []
        end
    | None => []
    end
  else [].

(** The clear colour [CreateRenderer] gives the render target. *)
Definition ActualBackgroundColor (this : t) : FLinearColor :=
  match RenderTargetBlendMode this with
  | Opaque => set_A 1%Q (RenderTargetBackgroundColor this)
  | Masked => set_A 0%Q (RenderTargetBackgroundColor this)
  | Transparent => RenderTargetBackgroundColor this
  end.

(** [CreateRenderer] where it builds: the state before the hit tester is
    registered, and the calls up to that point. *)
Definition renderer_built (Calc : FIntPoint.t) (r w : ObjectPtr) (this : t) : t :=
  set_SlateWindow (Some w)
    (set_WidgetRenderer (Some r)
       (set_CurrentWidgetDrawSize Calc (renderer_released this))).

Definition window_calls (this : t) (Widget : UUserWidget) (InDPIScale : float)
    (Calc : FIntPoint.t) (r w : ObjectPtr) : list HostCall :=
  [ new_FWidgetRenderer r true;
    SetIsPrepassNeeded r true;
    SNew_SVirtualWindow w Calc;
    SetIsFocusable w (bWindowFocusable this);
    SetVisibility w (ConvertWindowVisibilityToVisibility (WindowVisibility this));
    SetContent w InDPIScale (UserWidgetId Widget) ].

Definition target_calls (this : t) (World : UWorld) (Calc : FIntPoint.t)
    (rt : ObjectPtr) : list HostCall :=
  [ NewObject_UTextureRenderTarget2D rt (GetWorldSettings World);
    InitCustomFormat rt (FIntPoint.X Calc) (FIntPoint.Y Calc) PF_B8G8R8A8 false;
    UpdateResourceImmediate rt ] ++
  match PostProcessMaterialInstance this with
  | Some i =>
      if negb (bRenderToTextureOnly this)
      then [SetTextureParameterValue i NAME_SlateUI (Some rt)] else []
  | None => []
  end.

(** The hit tester of the display, when it has one, is in the store, is
    bound to the display's window, and has the display's current size. *)
Definition hit_tester_in_step (e : Engine) (pp : t) : Prop :=
  forall h, CustomHitTestPath pp = Some h ->
    exists ht,
      HitTesters e !! h = Some ht /\
      FVRWidgetPostProcessHitTester.SlateWindow ht = SlateWindow pp /\
      FVRWidgetPostProcessHitTester.WidgetDrawSize ht = CurrentWidgetDrawSize pp.

End PostProcessCalls.

(** ** Concrete hosts and worlds *)

(** [FVector2D::IntPoint] rounds each component to the nearest integer. *)
Definition IntPoint_round (v : FVector2D.t) : FIntPoint.t :=
  FIntPoint.mk (Qfloor (FVector2D.X v + (1 # 2))%Q)
               (Qfloor (FVector2D.Y v + (1 # 2))%Q).

Definition scene_1280x720 : FSceneViewport :=
  {| GetSize := FIntPoint.mk 1280 720 |}.

Definition level_viewport_7 : SLevelViewport :=
  {| LevelViewportId := 7%nat;
     GetSharedActiveViewport := Some scene_1280x720;
     GetViewportWidget :=
       Some {| ViewportWidgetId := 8%nat |} |}.

(** A game viewport client whose viewport is 1920 x 1080. *)
Definition client_1920x1080 : UGameViewportClient :=
  {| GameViewportClientId := 3%nat;
     GetViewportSize := fun _ => FVector2D.mk 1920%Q 1080%Q;
     GetGameViewportWidget := Some 4%nat |}.

(** The game viewport after it was resized to 2560 x 1440. *)
Definition client_2560x1440 : UGameViewportClient :=
  {| GameViewportClientId := 3%nat;
     GetViewportSize := fun _ => FVector2D.mk 2560%Q 1440%Q;
     GetGameViewportWidget := Some 4%nat |}.

Definition world_game : UWorld :=
  {| WorldId := 1%nat; WorldType := EWorldType.Game; IsGameWorld := true;
     GetGameViewport := Some client_1920x1080;
     GetGameInstance :=
       Some {| GetGameViewportClient := Some client_1920x1080 |};
     GetWorldSettings := 2%nat |}.

(** [world_game] once its viewport is 2560 x 1440. *)
Definition world_game_resized : UWorld :=
  {| WorldId := 1%nat; WorldType := EWorldType.Game; IsGameWorld := true;
     GetGameViewport := Some client_2560x1440;
     GetGameInstance :=
       Some {| GetGameViewportClient := Some client_2560x1440 |};
     GetWorldSettings := 2%nat |}.

(** A play-in-editor world that has no game viewport, as the world of a
    dedicated-server instance. *)
Definition world_pie_headless : UWorld :=
  {| WorldId := 11%nat; WorldType := EWorldType.PIE; IsGameWorld := true;
     GetGameViewport := None;
     GetGameInstance := Some {| GetGameViewportClient := None |};
     GetWorldSettings := 12%nat |}.

Definition world_editor : UWorld :=
  {| WorldId := 21%nat; WorldType := EWorldType.Editor; IsGameWorld := false;
     GetGameViewport := None;
     GetGameInstance := None;
     GetWorldSettings := 22%nat |}.

(** An editor session with one active level viewport. *)
Definition env_editor : Env :=
  {| WITH_EDITOR := true;
     UE_SERVER := false;
     GUsingNullRHI := false;
     IsRunningDedicatedServer := false;
     GetMax2DTextureDimension := 16384;
     FSlateApplication_IsInitialized := true;
     LevelEditor_IsModuleLoaded := true;
     GetFirstActiveLevelViewport := Some level_viewport_7;
     GEngine_GetGameViewportWidget := None;
     LiveWorlds := [world_game; world_pie_headless; world_editor];
     LiveLevelViewports := [level_viewport_7];
     LiveViewportWidgets := [];
     LiveVirtualWindows := [];
     IntPoint := IntPoint_round;
     GetDPIScaleFactorAtPoint := fun _ _ => 1%Q;
     UserInterfaceSettings := Some (fun _ => 1%Q);
     IndeterminateVector2D := FVector2D.ZeroVector;
     CreateWidget :=
       fun _ _ => Some {| UserWidgetId := 30%nat; IsDesignTime := false |};
     NewObject_UPostProcessComponent :=
       {| bEnabled := true; bUnbound := true; WeightedBlendables := [] |} |}.

(** The same session after the level viewport was closed. *)
Definition env_editor_closed : Env :=
  {| WITH_EDITOR := true;
     UE_SERVER := false;
     GUsingNullRHI := false;
     IsRunningDedicatedServer := false;
     GetMax2DTextureDimension := 16384;
     FSlateApplication_IsInitialized := true;
     LevelEditor_IsModuleLoaded := true;
     GetFirstActiveLevelViewport := None;
     GEngine_GetGameViewportWidget := None;
     LiveWorlds := [world_game; world_pie_headless; world_editor];
     LiveLevelViewports := [];
     LiveViewportWidgets := [];
     LiveVirtualWindows := [];
     IntPoint := IntPoint_round;
     GetDPIScaleFactorAtPoint := fun _ _ => 1%Q;
     UserInterfaceSettings := Some (fun _ => 1%Q);
     IndeterminateVector2D := FVector2D.ZeroVector;
     CreateWidget :=
       fun _ _ => Some {| UserWidgetId := 30%nat; IsDesignTime := false |};
     NewObject_UPostProcessComponent :=
       {| bEnabled := true; bUnbound := true; WeightedBlendables := [] |} |}.

Definition engine_0 : Engine :=
  {| NextObject := 100%nat;
     LiveCanvases := ∅;
     TextureRenderTargets := ∅;
     PostProcessComponents := ∅;
     HitTesters := ∅;
     CustomHitTestPaths := ∅ |}.

(** A host in which the virtual window 50 is alive; its grid reports two
    widgets under every coordinate. *)
Definition window_50 : SVirtualWindow :=
  {| VirtualWindowId := 50%nat;
     GetHittestGrid :=
       {| GetBubblePath := fun _ _ _ =>
            [ {| Widget_of := 60%nat; PointerPosition := None |};
              {| Widget_of := 61%nat; PointerPosition := None |} ] |} |}.

Definition env_hit : Env :=
  {| WITH_EDITOR := false;
     UE_SERVER := false;
     GUsingNullRHI := false;
     IsRunningDedicatedServer := false;
     GetMax2DTextureDimension := 16384;
     FSlateApplication_IsInitialized := true;
     LevelEditor_IsModuleLoaded := false;
     GetFirstActiveLevelViewport := None;
     GEngine_GetGameViewportWidget :=
       Some {| ViewportWidgetId := 4%nat |};
     LiveWorlds := [world_game];
     LiveLevelViewports := [];
     LiveViewportWidgets :=
       [ {| ViewportWidgetId := 4%nat |} ];
     LiveVirtualWindows := [window_50];
     IntPoint := IntPoint_round;
     GetDPIScaleFactorAtPoint := fun _ _ => 1%Q;
     UserInterfaceSettings := Some (fun _ => 1%Q);
     IndeterminateVector2D := FVector2D.ZeroVector;
     CreateWidget :=
       fun _ _ => Some {| UserWidgetId := 30%nat; IsDesignTime := false |};
     NewObject_UPostProcessComponent :=
       {| bEnabled := true; bUnbound := true; WeightedBlendables := [] |} |}.

(** A viewport geometry at desktop offset (100, 50). *)
Definition geometry_100_50 : FGeometry :=
  {| AbsoluteToLocal := fun v =>
       FVector2D.mk (FVector2D.X v - 100)%Q (FVector2D.Y v - 50)%Q |}.

Definition hit_tester_50 : FVRWidgetPostProcessHitTester.t :=
  FVRWidgetPostProcessHitTester.ctor (Some 1%nat) (Some 50%nat).

(** ** A post-process display that is up *)

Section PostProcessExamples.
Import FVRFullScreenUserWidget_PostProcess.

Definition widget_30 : UUserWidget :=
  {| UserWidgetId := 30%nat; IsDesignTime := false |}.

Definition pp_material : t := set_PostProcessMaterial (Some 41%nat) (ctor false).

(** The same settings with hardware input switched on. *)
Definition pp_hardware : t := set_bReceiveHardwareInput true pp_material.

(** [pp_hardware] where [CreateRenderer] registers the hit tester for the
    game world: renderer 100 and window 101 are made, of 1920 x 1080. *)
Definition pp_hardware_built : t :=
  renderer_built (FIntPoint.mk 1920 1080) 100%nat 101%nat pp_hardware.

Definition pp_live : t :=
  set_PostProcessMaterialInstance (Some 104%nat)
    (set_PostProcessComponent (Some 103%nat)
       (set_WidgetRenderTarget (Some 102%nat)
          (set_SlateWindow (Some 101%nat)
             (set_WidgetRenderer (Some 100%nat)
                (set_CurrentWidgetDrawSize (FIntPoint.mk 1280 720)
                   pp_material))))).

End PostProcessExamples.

(** ** States of the widget *)

Section WidgetStates.
Import EVRWidgetDisplayType.
Import UVRFullScreenUserWidget.

Definition display_condition (env : Env) (s : UVRFullScreenUserWidget.t)
    (InWorld : option UWorld) : bool :=
  isSome InWorld && isSome (WidgetClass s)
  && ShouldDisplay env s InWorld
  && eqb (CurrentDisplayType s) Inactive.

Definition display_requested (InWorld : option UWorld)
    (s : UVRFullScreenUserWidget.t) : UVRFullScreenUserWidget.t :=
  set_World (WorldId <$> InWorld) (set_bDisplayRequested true s).

Definition hide_requested (s : UVRFullScreenUserWidget.t)
  : UVRFullScreenUserWidget.t :=
  set_World None (set_bDisplayRequested false s).

(** The members the editor's details panel edits; everything else is the
    same in [s] and [s']. *)
Definition edited (s s' : UVRFullScreenUserWidget.t) : Prop :=
  CurrentDisplayType s' = CurrentDisplayType s /\
  bDisplayRequested s' = bDisplayRequested s /\
  World s' = World s /\
  Widget s' = Widget s /\
  ViewportDisplayType s' = ViewportDisplayType s /\
  TargetViewport s' = TargetViewport s /\
  same_runtime (PostProcessDisplayType s) (PostProcessDisplayType s').

(** The states the object can be in: built by the constructor, then driven
    by its methods under any host, by edits of its properties, and by the
    host dropping canvases. *)
Inductive reachable : Engine -> UVRFullScreenUserWidget.t -> Prop :=
  | reachable_ctor e ed gd pd wc archetype cdo material indeterminate :
      reachable e (ctor ed gd pd wc archetype cdo material indeterminate)
  | reachable_host e e' s :
      reachable e s ->
      LiveCanvases e' ⊆ LiveCanvases e ->
      reachable e' s
  | reachable_edited e s s' :
      reachable e s -> edited s s' -> reachable e s'
  | reachable_Display env InWorld e s b s' e' tr :
      reachable e s ->
      Display env s InWorld e = Some (b, s', e', tr) ->
      reachable e' s'
  | reachable_Hide env e s s' e' tr :
      reachable e s ->
      Hide env s e = Some (s', e', tr) ->
      reachable e' s'
  | reachable_BeginDestroy env e s s' e' tr :
      reachable e s ->
      BeginDestroy env s e = Some (s', e', tr) ->
      reachable e' s'
  | reachable_Tick env DeltaSeconds e s s' e' tr :
      reachable e s ->
      Tick env s DeltaSeconds e = Some (s', e', tr) ->
      reachable e' s'
  | reachable_OnLevelRemovedFromWorld env InLevel InWorld e s s' e' tr :
      reachable e s ->
      OnLevelRemovedFromWorld env s InLevel InWorld e = Some (s', e', tr) ->
      reachable e' s'
  | reachable_PostEditChangeProperty env MemberProperty bInteractive
      e s s' e' tr :
      reachable e s ->
      PostEditChangeProperty env s MemberProperty bInteractive e
      = Some (s', e', tr) ->
      reachable e' s'
  | reachable_SetDisplayTypes e s ed gd pd :
      reachable e s -> reachable e (SetDisplayTypes s ed gd pd)
  | reachable_SetAllTargetViewports e s v :
      reachable e s -> reachable e (SetAllTargetViewports s v)
  | reachable_ResetAllTargetViewports e s :
      reachable e s -> reachable e (ResetAllTargetViewports s).

(** The store after [Hide]: a displayed post-process path takes its hit-test
    path off the viewport widget. *)
Definition hidden_store (env : Env) (s : UVRFullScreenUserWidget.t)
    (e : Engine) : Engine :=
  match CurrentDisplayType s with
  | PostProcess => path_taken_off env (PostProcessDisplayType s) e
  | _ => e
  end.

(** The canvas of the viewport path, while it is alive. *)
Definition canvas_pinned (e : Engine) (s : UVRFullScreenUserWidget.t)
  : option ObjectPtr :=
  FVRFullScreenUserWidget_Viewport.FullScreenCanvasWidget_Pin e
    (ViewportDisplayType s).

Definition viewport_presented (e : Engine) (s : UVRFullScreenUserWidget.t)
  : Prop :=
  canvas_pinned e s <> None.


(** What every reachable state satisfies. *)
Definition consistent (e : Engine) (s : UVRFullScreenUserWidget.t) : Prop :=
  (CurrentDisplayType s <> Viewport -> canvas_pinned e s = None) /\
  (CurrentDisplayType s <> PostProcess ->
   pp_idle (PostProcessDisplayType s)) /\
  (CurrentDisplayType s = PostProcess ->
   FVRFullScreenUserWidget_PostProcess.bRenderToTextureOnly
     (PostProcessDisplayType s) = false) /\
  (CurrentDisplayType s = Inactive -> Widget s = None) /\
  renderer_tied (PostProcessDisplayType s).

Definition widget_0 : UVRFullScreenUserWidget.t :=
  ctor Inactive Viewport Inactive (Some 40%nat) false false (Some 41%nat)
    false.

(** A widget shown on the post-process path in the game, with hardware
    input switched on. *)
Definition widget_hardware : UVRFullScreenUserWidget.t :=
  set_PostProcessDisplayType pp_hardware
    (ctor Inactive PostProcess Inactive (Some 40%nat) false false
       (Some 41%nat) false).

(** An editor build that runs the game world; the game viewport widget 4 is
    alive. *)
Definition env_editor_game : Env :=
  {| WITH_EDITOR := true;
     UE_SERVER := false;
     GUsingNullRHI := false;
     IsRunningDedicatedServer := false;
     GetMax2DTextureDimension := 16384;
     FSlateApplication_IsInitialized := true;
     LevelEditor_IsModuleLoaded := true;
     GetFirstActiveLevelViewport := None;
     GEngine_GetGameViewportWidget :=
       Some {| ViewportWidgetId := 4%nat |};
     LiveWorlds := [world_game];
     LiveLevelViewports := [];
     LiveViewportWidgets :=
       [ {| ViewportWidgetId := 4%nat |} ];
     LiveVirtualWindows := [];
     IntPoint := IntPoint_round;
     GetDPIScaleFactorAtPoint := fun _ _ => 1%Q;
     UserInterfaceSettings := Some (fun _ => 1%Q);
     IndeterminateVector2D := FVector2D.ZeroVector;
     CreateWidget :=
       fun _ _ => Some {| UserWidgetId := 30%nat; IsDesignTime := false |};
     NewObject_UPostProcessComponent :=
       {| bEnabled := true; bUnbound := true; WeightedBlendables := [] |} |}.

(** The host of [env_hit] after the world was destroyed. *)
Definition env_world_gone : Env :=
  {| WITH_EDITOR := false;
     UE_SERVER := false;
     GUsingNullRHI := false;
     IsRunningDedicatedServer := false;
     GetMax2DTextureDimension := 16384;
     FSlateApplication_IsInitialized := true;
     LevelEditor_IsModuleLoaded := false;
     GetFirstActiveLevelViewport := None;
     GEngine_GetGameViewportWidget := None;
     LiveWorlds := [];
     LiveLevelViewports := [];
     LiveViewportWidgets := [];
     LiveVirtualWindows := [];
     IntPoint := IntPoint_round;
     GetDPIScaleFactorAtPoint := fun _ _ => 1%Q;
     UserInterfaceSettings := Some (fun _ => 1%Q);
     IndeterminateVector2D := FVector2D.ZeroVector;
     CreateWidget := fun _ _ => None;
     NewObject_UPostProcessComponent :=
       {| bEnabled := true; bUnbound := true; WeightedBlendables := [] |} |}.




(** The eleven members whose change [PostEditChangeProperty] acts on, and
    the changes it acts on: of one of them, and not interactive. *)
Definition watched_members : list FName :=
  [ NAME_WidgetClass; NAME_EditorDisplayType; NAME_PostProcessMaterial;
    NAME_WidgetDrawSize; NAME_WindowFocusable; NAME_WindowVisibility;
    NAME_ReceiveHardwareInput; NAME_RenderTargetBackgroundColor;
    NAME_RenderTargetBlendMode; NAME_PostProcessTintColorAndOpacity;
    NAME_PostProcessOpacityFromTexture ].

Definition edit_acts (MemberProperty : option FName) (bInteractive : bool)
  : bool :=
  match MemberProperty with
  | Some Property =>
      negb bInteractive && bool_decide (Property ∈ watched_members)
  | None => false
  end.

(** The three copies of the target level viewport: the widget's own, the
    one of the viewport path and the one of the post-process path. *)
Definition target_viewports (s : UVRFullScreenUserWidget.t)
  : option ObjectPtr * option ObjectPtr * option ObjectPtr :=
  (TargetViewport s,
   FVRFullScreenUserWidget_Viewport.TargetViewport (ViewportDisplayType s),
   FVRFullScreenUserWidget_PostProcess.TargetViewport (PostProcessDisplayType s)).

End WidgetStates.

(** ** The draw size as the specification words it *)

(** The manual override; otherwise a Game or PIE world with a game viewport
    gives that viewport's size, or 16 x 16 when its X is below
    [SMALL_NUMBER]; otherwise the editor with an active level viewport gives
    that viewport's size; (0,0) in every remaining case. *)
Definition CalculateWidgetDrawSize_spec (env : Env)
    (this : FVRFullScreenUserWidget_PostProcess.t) (World : UWorld)
  : FIntPoint.t :=
  let in_editor :=
    if WITH_EDITOR env && LevelEditor_IsModuleLoaded env then
      match ActiveLevelViewport env
              (FVRFullScreenUserWidget_PostProcess.TargetViewport this) with
      | Some lv =>
          match GetSharedActiveViewport lv with
          | Some v => GetSize v
          | None => FIntPoint.ZeroValue
          end
      | None => FIntPoint.ZeroValue
      end
    else FIntPoint.ZeroValue in
  if FVRFullScreenUserWidget_PostProcess.bWidgetDrawSize this
  then FVRFullScreenUserWidget_PostProcess.WidgetDrawSize this
  else
    match (if is_Game_or_PIE World then GetGameViewport World else None) with
    | Some ViewportClient =>
        let size :=
          GetViewportSize ViewportClient (FVector2D.mk 16%Q 16%Q) in
        if float_lt (FVector2D.X size) SMALL_NUMBER
        then IntPoint env (FVector2D.mk 16%Q 16%Q)
        else IntPoint env size
    | None => in_editor
    end.

(** * Properties *)

Lemma FIntPoint_neq_false a b : FIntPoint.neq a b = false <-> a = b.
Proof.
  destruct a as [ax ay], b as [bx by_]; unfold FIntPoint.neq; simpl.
  rewrite negb_false_iff, andb_true_iff, !Z.eqb_eq.
  split; [intros [-> ->]; reflexivity | intros [= -> ->]; auto].
Qed.

Lemma FIntPoint_neq_true a b : FIntPoint.neq a b = true <-> a <> b.
Proof.
  rewrite <- FIntPoint_neq_false. destruct (FIntPoint.neq a b); split; congruence.
Qed.

Lemma EVRWidgetDisplayType_eqb_eq a b :
  EVRWidgetDisplayType.eqb a b = true <-> a = b.
Proof. destruct a, b; simpl; split; congruence. Qed.

(** ** Rules of the calculus *)

Section WP.

Context {T U : Type}.

Lemma wp_ret (a : T) e (Q : T -> Engine -> list HostCall -> Prop) :
  Q a e [] -> wp (mret a) e Q.
Proof. exact id. Qed.

Lemma wp_bind (m : M T) (k : T -> M U) e (Q : U -> Engine -> list HostCall -> Prop) :
  wp m e (fun a e1 t1 => wp (k a) e1 (fun b e2 t2 => Q b e2 (t1 ++ t2))) ->
  wp (m ≫= k) e Q.
Proof.
  unfold wp, mbind, M_bind, bind.
  destruct (m e) as [[[a e1] t1]|]; [| tauto].
  destruct (k a e1) as [[[b e2] t2]|]; tauto.
Qed.

Lemma wp_mono (m : M T) e (P Q : T -> Engine -> list HostCall -> Prop) :
  wp m e P -> (forall a e' tr, P a e' tr -> Q a e' tr) -> wp m e Q.
Proof.
  unfold wp. destruct (m e) as [[[a e1] t1]|]; [auto | tauto].
Qed.

Lemma wp_run (m : M T) e (Q : T -> Engine -> list HostCall -> Prop) :
  wp m e Q <-> exists a e' tr, m e = Some (a, e', tr) /\ Q a e' tr.
Proof.
  unfold wp. destruct (m e) as [[[a e1] t1]|]; split.
  - intros H; eauto.
  - intros (a' & e' & tr & [= -> -> ->] & H); exact H.
  - tauto.
  - intros (a' & e' & tr & [=] & _).
Qed.

Lemma wp_total (m : M T) e (Q : T -> Engine -> list HostCall -> Prop) :
  wp m e Q -> m e <> None.
Proof. unfold wp. destruct (m e); [discriminate | tauto]. Qed.

Lemma wp_eq (m : M T) e :
  wp m e (fun a e' tr => m e = Some (a, e', tr)) <-> m e <> None.
Proof.
  unfold wp. destruct (m e) as [[[a e1] t1]|]; split; auto; congruence.
Qed.

Lemma wp_and (m : M T) e (P Q : T -> Engine -> list HostCall -> Prop) :
  wp m e P -> wp m e Q -> wp m e (fun a e' tr => P a e' tr /\ Q a e' tr).
Proof.
  unfold wp. destruct (m e) as [[[a e1] t1]|]; auto.
Qed.

(** A computation that is known to succeed leaves its result to the rest. *)
Lemma bind_Some (m : M T) (k : T -> M U) e r :
  (m ≫= k) e = Some r ->
  exists a e1 t1 b e2 t2,
    m e = Some (a, e1, t1) /\ k a e1 = Some (b, e2, t2) /\
    r = (b, e2, t1 ++ t2).
Proof.
  unfold mbind, M_bind, bind.
  destruct (m e) as [[[a e1] t1]|]; [| discriminate].
  destruct (k a e1) as [[[b e2] t2]|] eqn:Hk; [| discriminate].
  intros [= <-]. exists a, e1, t1, b, e2, t2. auto.
Qed.

End WP.

(** What a computation that returned satisfies. *)
Lemma wp_Some {T} (m : M T) e Q a e' tr :
  wp m e Q -> m e = Some (a, e', tr) -> Q a e' tr.
Proof.
  intros H Hrun. apply wp_run in H as (a0 & e0 & t0 & Hrun0 & H).
  congruence.
Qed.

Lemma when_emit_then_ret {T} (b : bool) (c : HostCall) (x : T) e r :
  (when b (emit c) ≫= λ _, mret x) e = Some r ->
  r = (x, e, if b then [c] else []).
Proof.
  unfold mbind, M_bind, bind, when, emit, mret, M_ret, ret.
  destruct b; intros [= <-]; reflexivity.
Qed.

Lemma wp_emit c e (Q : unit -> Engine -> list HostCall -> Prop) :
  Q tt e [c] -> wp (emit c) e Q.
Proof. exact id. Qed.

Lemma wp_modify f e (Q : unit -> Engine -> list HostCall -> Prop) :
  Q tt (f e) [] -> wp (modify f) e Q.
Proof. exact id. Qed.

Lemma wp_gets {T} (f : Engine -> T) e
    (Q : T -> Engine -> list HostCall -> Prop) :
  Q (f e) e [] -> wp (gets f) e Q.
Proof. exact id. Qed.

Lemma wp_NewObject e (Q : ObjectPtr -> Engine -> list HostCall -> Prop) :
  Q (NextObject e) (set_NextObject (S (NextObject e)) e) [] -> wp NewObject e Q.
Proof. exact id. Qed.

Lemma wp_SetCustomHitTestPath v p e
    (Q : unit -> Engine -> list HostCall -> Prop) :
  Q tt
    (set_CustomHitTestPaths
       (partial_alter (fun _ => p) (ViewportWidgetId v) (CustomHitTestPaths e)) e)
    [SetCustomHitTestPath (ViewportWidgetId v) p] ->
  wp (SViewport_SetCustomHitTestPath v p) e Q.
Proof. exact id. Qed.

Global Opaque wp.

Global Arguments mbind : simpl never.

Global Arguments mret : simpl never.

Ltac wp_step :=
  lazymatch goal with
  | |- wp (mbind _ _) _ _ => apply wp_bind
  | |- wp (mret _) _ _ => apply wp_ret
  | |- wp (ret _) _ _ => apply (wp_ret (T:=_))
  | |- wp (emit _) _ _ => apply wp_emit
  | |- wp (modify _) _ _ => apply wp_modify
  | |- wp (gets _) _ _ => apply wp_gets
  | |- wp NewObject _ _ => apply wp_NewObject
  | |- wp (write_HitTester _ _) _ _ => apply wp_modify
  | |- wp (SViewport_SetCustomHitTestPath _ _) _ _ =>
      apply wp_SetCustomHitTestPath
  | |- wp (write_PostProcessComponent _ _) _ _ => apply wp_modify
  end.

Ltac wp_run := repeat (wp_step; simpl).

Ltac trace_simpl :=
  unfold draws, init_sizes in *;
  repeat (progress (simpl;
          rewrite ?List.filter_app, ?omap_app, ?app_nil_r;
          repeat match goal with
                 | H : omap init_size ?t = [] |- context [omap init_size ?t] =>
                     rewrite H
                 | H : List.filter is_DrawWindow ?t = []
                   |- context [List.filter is_DrawWindow ?t] => rewrite H
                 end)).

(** ** The post-process display, operation by operation *)

Section PostProcessLemmas.
Import FVRFullScreenUserWidget_PostProcess.

(** What taking the path off leaves alone. *)
Lemma path_taken_off_frame env this e :
  same_objects e (path_taken_off env this e).
Proof.
  unfold path_taken_off. destruct (own_path_on env this e); repeat split.
Qed.

Lemma path_taken_off_members env this this' e :
  ViewportWidget this' = ViewportWidget this ->
  CustomHitTestPath this' = CustomHitTestPath this ->
  path_taken_off env this' e = path_taken_off env this e.
Proof.
  unfold path_taken_off, own_path_on. intros -> ->. reflexivity.
Qed.

(** Without a remembered viewport widget nothing is taken off. *)
Lemma path_taken_off_None env this e :
  ViewportWidget this = None -> path_taken_off env this e = e.
Proof. unfold path_taken_off, own_path_on. intros ->. reflexivity. Qed.

Lemma unregister_calls_None env this e :
  ViewportWidget this = None -> SlateWindow this = None ->
  unregister_calls env this e = [].
Proof. unfold unregister_calls, own_path_on. intros -> ->. reflexivity. Qed.

Lemma wp_UnRegister env this e :
  wp (UnRegisterHitTesterWithViewport env this) e (fun this' e' tr =>
    this' = set_CustomHitTestPath None (set_ViewportWidget None this) /\
    e' = path_taken_off env this e /\ tr = unregister_calls env this e /\
    all_quiet tr).
Proof.
  unfold UnRegisterHitTesterWithViewport, all_quiet, path_taken_off,
    unregister_calls, own_path_on.
  destruct (SlateWindow this) as [w|];
    destruct (FSlateApplication_IsInitialized env);
    destruct (ViewportWidget_Pin env (ViewportWidget this)) as [v|];
    simpl; wp_run; try destruct (bool_decide _); simpl; wp_run;
    repeat split; repeat constructor.
Qed.

Lemma wp_ReleaseRenderer env this e :
  wp (ReleaseRenderer env this) e (fun this' e' tr =>
    this' = renderer_released this /\ e' = path_taken_off env this e /\
    tr = renderer_release_calls env this e /\ all_quiet tr).
Proof.
  unfold ReleaseRenderer, renderer_release_calls.
  wp_step.
  destruct (WidgetRenderer this) as [r|] eqn:Hr; wp_run.
  all: eapply wp_mono; [apply wp_UnRegister|]; simpl.
  all: intros this' e' tr (-> & -> & -> & Htr); wp_run.
  all: rewrite ?app_nil_r.
  all: split; [destruct this; simpl in *; subst; reflexivity |].
  all: split; [apply path_taken_off_members; reflexivity |].
  all: split;
    [f_equal; unfold unregister_calls, own_path_on; reflexivity |].
  all: unfold all_quiet in *; repeat constructor; auto.
Qed.

Lemma release_component_calls_quiet this : all_quiet (release_component_calls this).
Proof.
  unfold release_component_calls, all_quiet.
  destruct (PostProcessComponent this); repeat constructor.
Qed.

Lemma wp_ReleasePostProcessComponent this e :
  wp (ReleasePostProcessComponent this) e (fun this' e' tr =>
    this' = component_released this /\ e' = e /\
    tr = release_component_calls this).
Proof.
  unfold ReleasePostProcessComponent, release_component_calls.
  destruct (PostProcessComponent this); wp_run; auto.
Qed.

Lemma all_quiet_app t1 t2 : all_quiet t1 -> all_quiet t2 -> all_quiet (t1 ++ t2).
Proof. unfold all_quiet; intros; apply Forall_app; auto. Qed.

Lemma wp_Hide env this World e :
  wp (Hide env this World) e (fun this' e' tr =>
    this' = hidden this /\ e' = path_taken_off env this e /\
    tr = hide_calls env this e /\ all_quiet tr).
Proof.
  unfold Hide, hidden, hide_calls. wp_step.
  destruct (negb (bRenderToTextureOnly this)).
  - eapply wp_mono; [apply wp_ReleasePostProcessComponent |].
    intros this1 e1 t1 (-> & -> & ->).
    eapply wp_mono; [apply wp_ReleaseRenderer |].
    intros this2 e2 t2 (-> & -> & -> & H2).
    split; [reflexivity |].
    split; [apply path_taken_off_members; reflexivity |].
    split; [reflexivity |].
    auto using all_quiet_app, release_component_calls_quiet.
  - wp_step. eapply wp_mono; [apply wp_ReleaseRenderer |].
    intros this2 e2 t2 (-> & -> & -> & H2). auto.
Qed.

Lemma wp_TickRenderer env this W dt e rt w :
  WidgetRenderTarget this = Some rt ->
  SlateWindow this = Some w ->
  wp (TickRenderer env this (Some W) dt) e (fun this' e' tr =>
    let New := CalculateWidgetDrawSize env this W in
    if FIntPoint.neq New (CurrentWidgetDrawSize this) then
      if IsTextureSizeValid env New then
        this' = set_CurrentWidgetDrawSize New this /\
        e' = resized New this e /\
        tr = [InitCustomFormat rt (FIntPoint.X New) (FIntPoint.Y New)
                PF_B8G8R8A8 false;
              UpdateResourceImmediate rt;
              Resize w New] ++ draw_call this' dt
      else
        this' = hidden this /\ e' = path_taken_off env this e /\
        all_quiet tr /\
        Hide env this (Some W) e = Some (this', e', tr)
    else
      this' = this /\ e' = e /\ tr = draw_call this dt).
Proof.
  intros Hrt Hw. unfold TickRenderer. wp_run.
  rewrite Hrt. wp_step.
  destruct (FIntPoint.neq _ _) eqn:Hneq.
  - destruct (IsTextureSizeValid _ _) eqn:Hvalid.
    + destruct this; simpl in *. subst. wp_run.
      unfold resized, draw_call; simpl.
      destruct CustomHitTestPath0, WidgetRenderer0; wp_run; auto.
    + eapply wp_mono;
        [apply wp_and;
           [apply wp_Hide | apply wp_eq, (wp_total _ _ _ (wp_Hide _ _ _ _))] |].
      intros this' e' tr ((-> & -> & _ & Htr) & Heq).
      unfold hidden, renderer_released; simpl. wp_run.
      rewrite app_nil_r; auto.
  - wp_step. simpl. unfold draw_call. rewrite Hw, Hrt.
    destruct (WidgetRenderer this); wp_run; auto.
Qed.

Lemma blendables_installed (l : list FWeightedBlendable) (i : option ObjectPtr) :
  alter (set_Object i) 0%nat (alter (set_Weight 1%Q) 0%nat (SetNumZeroed 1 l))
  = [ {| Weight := 1%Q; Object := i |} ].
Proof. destruct l as [|[wgt o] l]; reflexivity. Qed.

Lemma wp_CreatePostProcessComponent_Some env this W Material e :
  PostProcessMaterial this = Some Material ->
  wp (CreatePostProcessComponent env this (Some W)) e (fun r e' tr =>
    let c := NextObject e in
    let i := S (NextObject e) in
    r = (true,
         set_PostProcessMaterialInstance (Some i)
           (set_PostProcessComponent (Some c) this)) /\
    PostProcessComponents e' !! c
    = Some {| bEnabled := true; bUnbound := true;
              WeightedBlendables := [ {| Weight := 1%Q; Object := Some i |} ] |} /\
    (forall c', c' <> c ->
       PostProcessComponents e' !! c' = PostProcessComponents e !! c') /\
    NextObject e' = S (S (NextObject e)) /\
    LiveCanvases e' = LiveCanvases e /\
    TextureRenderTargets e' = TextureRenderTargets e /\
    HitTesters e' = HitTesters e /\
    tr = release_component_calls this ++ component_calls this W Material c i).
Proof.
  intros Hmat. unfold CreatePostProcessComponent. wp_step.
  eapply wp_mono; [apply wp_ReleasePostProcessComponent |].
  intros this1 e1 t1 (-> & -> & ->). wp_step.
  unfold component_released at 1. simpl. rewrite Hmat.
  destruct this; simpl in *. wp_run.
  split; [reflexivity |].
  split.
  { rewrite !lookup_alter_eq, lookup_insert_eq. simpl.
    unfold set_WeightedBlendables; simpl. rewrite blendables_installed.
    reflexivity. }
  split.
  { intros c' Hc'. rewrite !lookup_alter_ne, lookup_insert_ne by congruence.
    reflexivity. }
  repeat (split; [reflexivity |]).
  reflexivity.
Qed.

Lemma wp_CreatePostProcessComponent_None env this World e :
  World = None \/ PostProcessMaterial this = None ->
  wp (CreatePostProcessComponent env this World) e (fun r e' tr =>
    r = (false, component_released this) /\ e' = e /\
    tr = release_component_calls this).
Proof.
  intros H. unfold CreatePostProcessComponent. wp_step.
  eapply wp_mono; [apply wp_ReleasePostProcessComponent |].
  intros this1 e1 t1 (-> & -> & ->). wp_step.
  assert (match World, PostProcessMaterial (component_released this) with
          | Some _, Some _ => false | _, _ => true end = true) as Hno.
  { destruct H as [-> | H]; [reflexivity |].
    unfold component_released; simpl. rewrite H. destruct World; reflexivity. }
  destruct World as [W|], (PostProcessMaterial (component_released this));
    try discriminate Hno; wp_run; rewrite app_nil_r; auto.
Qed.

Lemma all_quiet_init_sizes tr : all_quiet tr -> init_sizes tr = [].
Proof.
  induction 1 as [|c tr Hc _ IH]; [reflexivity |].
  unfold init_sizes in *; simpl. destruct c; try discriminate Hc; exact IH.
Qed.

Lemma all_quiet_draws tr : all_quiet tr -> draws tr = [].
Proof.
  induction 1 as [|c tr Hc _ IH]; [reflexivity |].
  unfold draws in *; simpl. destruct c; try discriminate Hc; exact IH.
Qed.

Lemma all_quiet_cons c tr : quiet c = true -> all_quiet tr -> all_quiet (c :: tr).
Proof. intros; constructor; auto. Qed.

(** What registering the hit tester may change: the two members that name
    the viewport widget and the path. *)
Lemma wp_RegisterHitTesterWithViewport env this W e w :
  SlateWindow this = Some w ->
  wp (RegisterHitTesterWithViewport env this W) e (fun this' e' tr =>
    (exists vw h, this' = set_CustomHitTestPath h (set_ViewportWidget vw this)) /\
    LiveCanvases e' = LiveCanvases e /\
    PostProcessComponents e' = PostProcessComponents e /\
    TextureRenderTargets e' = TextureRenderTargets e /\
    all_quiet tr).
Proof.
  intros Hw. unfold RegisterHitTesterWithViewport.
  set (EVW := if is_Game_or_PIE W then _ else _). clearbody EVW.
  assert (this = set_CustomHitTestPath (CustomHitTestPath this)
                   (set_ViewportWidget (ViewportWidget this) this)) as Hthis
    by (destruct this; reflexivity).
  wp_step. rewrite Hw.
  destruct (negb (bReceiveHardwareInput this) && FSlateApplication_IsInitialized env);
    simpl; wp_run.
  all: destruct EVW as [v|]; [destruct (bReceiveHardwareInput this);
         [wp_run; destruct (GetCustomHitTestPath v _) |] |]; wp_run.
  all: repeat split; eauto; repeat constructor.
Qed.

Lemma CalculateWidgetDrawSize_renderer_released env this W :
  CalculateWidgetDrawSize env (renderer_released this) W
  = CalculateWidgetDrawSize env this W.
Proof. destruct this; reflexivity. Qed.

Lemma wp_CreateRenderer env this World Widget InDPIScale e :
  wp (CreateRenderer env this World Widget InDPIScale) e (fun r e' tr =>
    same_settings this r.2 /\
    PostProcessComponent r.2 = PostProcessComponent this /\
    PostProcessMaterialInstance r.2 = PostProcessMaterialInstance this /\
    LiveCanvases e' = LiveCanvases e /\
    PostProcessComponents e' = PostProcessComponents e /\
    draws tr = [] /\
    r.1 = isSome (WidgetRenderTarget r.2) /\
    match World, Widget with
    | Some W, Some _ =>
        let Calc := CalculateWidgetDrawSize env this W in
        if IsTextureSizeValid env Calc then
          isSome (WidgetRenderTarget r.2) = true /\
          isSome (SlateWindow r.2) = true /\
          isSome (WidgetRenderer r.2) = true /\
          CurrentWidgetDrawSize r.2 = Calc /\
          init_sizes tr = [Calc]
        else
          r.2 = renderer_released this /\ e' = path_taken_off env this e /\
          init_sizes tr = []
    | _, _ =>
        r.2 = renderer_released this /\ e' = path_taken_off env this e /\
        init_sizes tr = []
    end).
Proof.
  unfold CreateRenderer. wp_step.
  eapply wp_mono; [apply wp_ReleaseRenderer |].
  intros this1 e1 t1 (-> & -> & _ & H1). wp_step.
  pose proof (all_quiet_init_sizes _ H1) as Hi1.
  pose proof (all_quiet_draws _ H1) as Hd1.
  destruct (path_taken_off_frame env this e) as (_ & HL0 & _ & HP0 & _).
  destruct World as [W|], Widget as [Wd|];
    try (wp_run; trace_simpl;
         destruct this; simpl; repeat split; auto; reflexivity).
  rewrite CalculateWidgetDrawSize_renderer_released. cbv zeta.
  destruct (IsTextureSizeValid env (CalculateWidgetDrawSize env this W)) eqn:Hvalid;
    [| wp_run; trace_simpl;
       destruct this; simpl; repeat split; auto; reflexivity].
  wp_run.
  eapply wp_mono; [eapply wp_RegisterHitTesterWithViewport; reflexivity |].
  intros this2 e2 t2 ((vw & h & ->) & HL & HP & HT & H2).
  simpl in HL, HP. rewrite HL0 in HL. rewrite HP0 in HP.
  pose proof (all_quiet_init_sizes _ H2) as Hi2.
  pose proof (all_quiet_draws _ H2) as Hd2.
  wp_step.
  destruct (negb (IsDesignTime Wd) && IsGameWorld W);
    [destruct (GetGameInstance W) as [gi|];
       [destruct (GetGameViewportClient gi) |] |]; simpl; wp_run.
  all: destruct this; simpl in *.
  all: destruct PostProcessMaterialInstance0, bRenderToTextureOnly0; simpl; wp_run.
  all: trace_simpl.
  all: unfold same_settings; simpl; repeat split; auto.
  all: destruct (CalculateWidgetDrawSize _ _ _); reflexivity.
Qed.

Lemma wp_CreatePostProcessComponent_frame env this World e :
  wp (CreatePostProcessComponent env this World) e (fun r e' tr =>
    same_settings this r.2 /\
    WidgetRenderTarget r.2 = WidgetRenderTarget this /\
    SlateWindow r.2 = SlateWindow this /\
    WidgetRenderer r.2 = WidgetRenderer this /\
    CurrentWidgetDrawSize r.2 = CurrentWidgetDrawSize this /\
    LiveCanvases e' = LiveCanvases e /\
    all_quiet tr).
Proof.
  destruct World as [W|]; [destruct (PostProcessMaterial this) as [m|] eqn:Hm |].
  - eapply wp_mono; [apply wp_CreatePostProcessComponent_Some; exact Hm |].
    intros r e' tr (-> & _ & _ & _ & HL & _ & _ & ->).
    unfold same_settings; destruct this; simpl; repeat split; auto.
    apply all_quiet_app; [apply release_component_calls_quiet |].
    repeat constructor.
  - eapply wp_mono; [apply wp_CreatePostProcessComponent_None; auto |].
    intros r e' tr (-> & -> & ->).
    unfold same_settings; destruct this; simpl; repeat split; auto.
    apply release_component_calls_quiet.
  - eapply wp_mono; [apply wp_CreatePostProcessComponent_None; auto |].
    intros r e' tr (-> & -> & ->).
    unfold same_settings; destruct this; simpl; repeat split; auto.
    apply release_component_calls_quiet.
Qed.

Lemma wp_Display env this World Widget b InDPIScale e :
  wp (Display env this World Widget b InDPIScale) e (fun r e' tr =>
    bRenderToTextureOnly r.2 = b /\
    PostProcessMaterial r.2 = PostProcessMaterial this /\
    bWidgetDrawSize r.2 = bWidgetDrawSize this /\
    WidgetDrawSize r.2 = WidgetDrawSize this /\
    TargetViewport r.2 = TargetViewport this /\
    renderer_tied r.2 /\
    LiveCanvases e' = LiveCanvases e /\
    draws tr = [] /\
    valid_sizes env (init_sizes tr)).
Proof.
  unfold Display, renderer_tied. wp_step.
  eapply wp_mono; [apply wp_CreateRenderer |].
  intros [bOk this1] e1 t1
    ((S1 & S2 & S3 & S4 & S5) & _ & _ & HL1 & _ & Hd1 & _ & Hcase).
  simpl in *.
  assert (valid_sizes env (init_sizes t1) /\
          (isSome (WidgetRenderTarget this1) = true ->
           isSome (SlateWindow this1) = true)) as [Hv1 Hwf1].
  { destruct World as [W|], Widget as [Wd|]; cbv zeta in Hcase;
      try (destruct Hcase as (-> & _ & ->); split;
           [constructor | destruct this; simpl; discriminate]).
    destruct (IsTextureSizeValid env _) eqn:Hvalid.
    - destruct Hcase as (_ & Hsw & _ & _ & ->). split; [| auto].
      repeat constructor; exact Hvalid.
    - destruct Hcase as (-> & _ & ->); split;
        [constructor | destruct this; simpl; discriminate]. }
  rewrite S5. destruct b; simpl.
  - wp_run. trace_simpl. repeat split; auto; congruence.
  - wp_step.
    eapply wp_mono; [apply wp_CreatePostProcessComponent_frame |].
    intros [b2 this2] e2 t2
      ((T1 & T2 & T3 & T4 & T5) & HRT & HSW & _ & _ & HL2 & H2).
    simpl in *. wp_run.
    pose proof (all_quiet_init_sizes _ H2) as Hi2.
    pose proof (all_quiet_draws _ H2) as Hd2.
    trace_simpl. rewrite HRT, HSW.
    repeat split; auto; congruence.
Qed.

Lemma wp_Tick env this W dt e rt w :
  WidgetRenderTarget this = Some rt ->
  SlateWindow this = Some w ->
  wp (Tick env this (Some W) dt) e (fun this' e' tr =>
    same_settings this this' /\
    renderer_tied this' /\
    LiveCanvases e' = LiveCanvases e /\
    valid_sizes env (init_sizes tr)).
Proof.
  intros Hrt Hw. unfold Tick, renderer_tied.
  eapply wp_mono; [apply (wp_TickRenderer env this W dt e rt w Hrt Hw) |].
  intros this' e' tr H. cbv zeta in H.
  destruct (FIntPoint.neq _ _);
    [destruct (IsTextureSizeValid env _) eqn:Hvalid |].
  - destruct H as (-> & -> & ->).
    unfold same_settings, resized, draw_call; destruct this; simpl in *.
    subst. repeat split; auto.
    + destruct CustomHitTestPath0; reflexivity.
    + destruct WidgetRenderer0; repeat constructor;
        unfold init_sizes; simpl;
        destruct (CalculateWidgetDrawSize _ _ _); repeat constructor; exact Hvalid.
  - destruct H as (-> & -> & Htr & _).
    rewrite (all_quiet_init_sizes _ Htr).
    destruct (path_taken_off_frame env this e) as (_ & HL0 & _).
    unfold same_settings, hidden; destruct this; simpl.
    destruct bRenderToTextureOnly0; simpl; repeat split; auto; try discriminate;
      constructor.
  - destruct H as (-> & -> & ->).
    unfold same_settings, draw_call. rewrite Hw, Hrt.
    repeat split; auto.
    destruct (WidgetRenderer this); constructor.
Qed.

Lemma wp_PostProcess_Tick_wf env pp W dt e :
  renderer_tied pp ->
  wp (Tick env pp (Some W) dt) e (fun pp' e' tr =>
    same_settings pp pp' /\
    renderer_tied pp' /\
    LiveCanvases e' = LiveCanvases e /\
    valid_sizes env (init_sizes tr)).
Proof.
  unfold renderer_tied. intros Hwf.
  destruct (WidgetRenderTarget pp) as [rt|] eqn:Hrt.
  - destruct (SlateWindow pp) as [w|] eqn:Hw;
      [| specialize (Hwf eq_refl); discriminate Hwf].
    apply (wp_Tick env pp W dt e rt w Hrt Hw).
  - unfold Tick, TickRenderer. wp_run. rewrite Hrt. wp_run.
    unfold same_settings. rewrite Hrt. repeat split; auto; try discriminate.
    constructor.
Qed.

Lemma pp_idle_hidden pp :
  bRenderToTextureOnly pp = false -> pp_idle (hidden pp).
Proof.
  intros H. unfold hidden. rewrite H. destruct pp; simpl.
  repeat split.
Qed.

End PostProcessLemmas.

(** ** The draw size *)

Section DrawSize.
Import FVRFullScreenUserWidget_PostProcess.

(** C1, as the code has it.  The manual override wins.  Without it a Game or
    PIE world decides alone: with a game viewport the result is the
    conversion of that viewport's size, or of 16 x 16 when the X component
    is below [SMALL_NUMBER]; without one it is (0,0), and the editor is not
    consulted.  Any other world, in an editor build with the level editor
    loaded, gets the size of the scene viewport of the active level
    viewport.  Every remaining case is (0,0). *)
Theorem CalculateWidgetDrawSize_cases (env : Env) (this : t) (World : UWorld) :
  let r := CalculateWidgetDrawSize env this World in
  (bWidgetDrawSize this = true -> r = WidgetDrawSize this) /\
  (bWidgetDrawSize this = false -> is_Game_or_PIE World = true ->
   forall ViewportClient, GetGameViewport World = Some ViewportClient ->
   let size := GetViewportSize ViewportClient (FVector2D.mk 16%Q 16%Q) in
   (float_lt (FVector2D.X size) SMALL_NUMBER = true ->
    r = IntPoint env (FVector2D.mk 16%Q 16%Q)) /\
   (float_lt (FVector2D.X size) SMALL_NUMBER = false ->
    r = IntPoint env size)) /\
  (bWidgetDrawSize this = false -> is_Game_or_PIE World = true ->
   GetGameViewport World = None -> r = FIntPoint.ZeroValue) /\
  (bWidgetDrawSize this = false -> is_Game_or_PIE World = false ->
   WITH_EDITOR env && LevelEditor_IsModuleLoaded env = true ->
   forall lv v,
   ActiveLevelViewport env (TargetViewport this) = Some lv ->
   GetSharedActiveViewport lv = Some v ->
   r = GetSize v) /\
  (bWidgetDrawSize this = false -> is_Game_or_PIE World = false ->
   (WITH_EDITOR env && LevelEditor_IsModuleLoaded env = false \/
    ActiveLevelViewport env (TargetViewport this) = None \/
    exists lv, ActiveLevelViewport env (TargetViewport this) = Some lv /\
               GetSharedActiveViewport lv = None) ->
   r = FIntPoint.ZeroValue).
Proof.
  unfold CalculateWidgetDrawSize; cbv zeta.
  split; [| split; [| split; [| split]]].
  - intros ->; reflexivity.
  - intros -> -> vc ->; split; intros ->; reflexivity.
  - intros -> -> ->; reflexivity.
  - intros -> -> -> lv v -> ->; reflexivity.
  - intros -> -> [-> | [-> | (lv & -> & ->)]]; try reflexivity.
    all: destruct (WITH_EDITOR env && LevelEditor_IsModuleLoaded env);
      reflexivity.
Qed.

(** The editor case of C1 at an Editor world: the override is off, the
    level editor has an active viewport of 1280 x 720. *)
Lemma CalculateWidgetDrawSize_cases_witness :
  bWidgetDrawSize (ctor false) = false /\
  is_Game_or_PIE world_editor = false /\
  WITH_EDITOR env_editor && LevelEditor_IsModuleLoaded env_editor = true /\
  ActiveLevelViewport env_editor (TargetViewport (ctor false))
  = Some level_viewport_7 /\
  GetSharedActiveViewport level_viewport_7 = Some scene_1280x720 /\
  CalculateWidgetDrawSize env_editor (ctor false) world_editor
  = GetSize scene_1280x720.
Proof.
  repeat (split; [reflexivity |]).
  exact (proj1 (proj2 (proj2 (proj2
           (CalculateWidgetDrawSize_cases env_editor (ctor false) world_editor))))
           eq_refl eq_refl eq_refl level_viewport_7 scene_1280x720
           eq_refl eq_refl).
Defined.

(** With the rounding conversion the fallback is the point (16,16). *)
Example IntPoint_round_fallback :
  IntPoint_round (FVector2D.mk 16%Q 16%Q) = FIntPoint.mk 16 16.
Proof. reflexivity. Qed.

(** C1 as worded fails for a PIE world without a game viewport while the
    editor has an active level viewport: the wording gives that viewport's
    size, the code gives (0,0). *)
Lemma CalculateWidgetDrawSize_spec_counterexample :
  bWidgetDrawSize (ctor false) = false /\
  GetGameViewport world_pie_headless = None /\
  CalculateWidgetDrawSize_spec env_editor (ctor false) world_pie_headless
  = FIntPoint.mk 1280 720 /\
  CalculateWidgetDrawSize env_editor (ctor false) world_pie_headless
  = FIntPoint.ZeroValue /\
  CalculateWidgetDrawSize env_editor (ctor false) world_pie_headless
  <> CalculateWidgetDrawSize_spec env_editor (ctor false) world_pie_headless.
Proof. repeat split; try reflexivity. discriminate. Qed.

End DrawSize.

(** ** Hit testing *)

Section HitTest.
Import FVRWidgetPostProcessHitTester.

Lemma lookup_snoc_length {T : Type} (l : list T) (x : T) :
  (l ++ [x]) !! length l = Some x.
Proof. rewrite lookup_app_r, Nat.sub_diag by lia; reflexivity. Qed.

(** C2.  With the virtual window alive, the call reports the widgets the
    window's grid finds at the local coordinate with radius 0, gives all of
    them one and the same freshly allocated pointer position, holding the
    local coordinate and the last hit location stored before the call, and
    stores the local coordinate as the last hit location; the call that
    follows, with the window alive, therefore reports it as the last
    position.  With the window expired, the result is empty and nothing is
    written. *)
Theorem GetBubblePathAndVirtualCursors_spec (env : Env) (this : t)
    (InGeometry : FGeometry) (DesktopSpaceCoordinate : FVector2D.t)
    (bIgnoreEnabledStatus : bool) (positions : list FVirtualPointerPosition) :
  let '(ArrangedWidgets, this', positions') :=
    GetBubblePathAndVirtualCursors env this InGeometry DesktopSpaceCoordinate
      bIgnoreEnabledStatus positions in
  match VirtualWindow_Pin env (SlateWindow this) with
  | Some SlateWindowPin =>
      let Local := AbsoluteToLocal InGeometry DesktopSpaceCoordinate in
      List.map Widget_of ArrangedWidgets
      = List.map Widget_of
          (GetBubblePath (GetHittestGrid SlateWindowPin) Local 0%Q
             bIgnoreEnabledStatus) /\
      (exists p : ObjectPtr,
         (forall w, In w ArrangedWidgets -> PointerPosition w = Some p) /\
         positions !! p = None /\
         positions' !! p
         = Some {| CurrentCursorPosition := Local;
                   LastCursorPosition := LastLocalHitLocation this |}) /\
      (forall q x, positions !! q = Some x -> positions' !! q = Some x) /\
      LastLocalHitLocation this' = Local /\
      SlateWindow this' = SlateWindow this /\
      (forall env2 g2 c2 b2 win2,
         VirtualWindow_Pin env2 (SlateWindow this') = Some win2 ->
         let '(ArrangedWidgets2, _, positions2) :=
           GetBubblePathAndVirtualCursors env2 this' g2 c2 b2 positions' in
         exists p2 : ObjectPtr,
           (forall w, In w ArrangedWidgets2 -> PointerPosition w = Some p2) /\
           positions2 !! p2
           = Some {| CurrentCursorPosition := AbsoluteToLocal g2 c2;
                     LastCursorPosition := Local |})
  | None =>
      ArrangedWidgets = [] /\ this' = this /\ positions' = positions
  end.
Proof.
  unfold GetBubblePathAndVirtualCursors.
  destruct (VirtualWindow_Pin env (SlateWindow this)) as [win|] eqn:Hpin;
    [| repeat split].
  cbv zeta.
  split; [| split; [| split; [| split; [| split]]]].
  - rewrite List.map_map; reflexivity.
  - exists (length positions). split; [| split].
    + intros w Hw. apply List.in_map_iff in Hw as (w0 & <- & _); reflexivity.
    + apply lookup_ge_None; lia.
    + apply lookup_snoc_length.
  - intros q x Hq. rewrite lookup_app_l; [exact Hq |].
    apply lookup_lt_Some in Hq; exact Hq.
  - reflexivity.
  - reflexivity.
  - intros env2 g2 c2 b2 win2 Hpin2. rewrite Hpin2.
    eexists. split.
    + intros w Hw. apply List.in_map_iff in Hw as (w0 & <- & _); reflexivity.
    + simpl. apply lookup_snoc_length.
Qed.

(** Two calls in a row on the live window 50: the second reports the local
    coordinate of the first as the last position. *)
Lemma GetBubblePathAndVirtualCursors_spec_witness :
  VirtualWindow_Pin env_hit (SlateWindow hit_tester_50) = Some window_50 /\
  let '(_, this', positions') :=
    GetBubblePathAndVirtualCursors env_hit hit_tester_50 geometry_100_50
      (FVector2D.mk 130%Q 90%Q) false [] in
  let '(ArrangedWidgets2, _, positions2) :=
    GetBubblePathAndVirtualCursors env_hit this' geometry_100_50
      (FVector2D.mk 140%Q 95%Q) false positions' in
  exists p2 : ObjectPtr,
    (forall w, In w ArrangedWidgets2 -> PointerPosition w = Some p2) /\
    positions2 !! p2
    = Some {| CurrentCursorPosition :=
                AbsoluteToLocal geometry_100_50 (FVector2D.mk 140%Q 95%Q);
              LastCursorPosition :=
                AbsoluteToLocal geometry_100_50 (FVector2D.mk 130%Q 90%Q) |}.
Proof.
  split; [reflexivity |].
  exact (proj2 (proj2 (proj2 (proj2 (proj2
           (GetBubblePathAndVirtualCursors_spec env_hit hit_tester_50
              geometry_100_50 (FVector2D.mk 130%Q 90%Q) false [])))))
           env_hit geometry_100_50 (FVector2D.mk 140%Q 95%Q) false window_50
           eq_refl).
Defined.

End HitTest.

(** ** The renderer and the material *)

Section Renderer.
Import FVRFullScreenUserWidget_PostProcess.

Lemma pp_live_displayed :
  exists e1 tr,
    Display env_editor pp_material (Some world_editor) (Some widget_30) false
      1%Q engine_0 = Some (true, pp_live, e1, tr).
Proof. eexists _, _. vm_compute. reflexivity. Qed.

(** C3.  A tick of the post-process display that finds a render target (and
    the virtual window that was created with it) returns, and leaves the
    rendering in step with the viewport.  When the newly calculated size
    differs from [CurrentWidgetDrawSize] and is valid, the target is
    re-initialised to it by [InitCustomFormat], the window is resized to it,
    the hit tester, when there is one, is set to it, and it becomes the
    current size: the hit tester in the store then has the new size as its
    [WidgetDrawSize], with its world, window and last hit location as they
    were, and every other hit tester and the hit-test paths on the viewport
    widgets are untouched.  When it differs and is invalid, the tick is
    exactly [Hide]: target, renderer, window, viewport widget and hit-test
    path are gone, the current size is (0,0), the component and the material
    instance are gone unless the display renders to the texture only, the
    renderer is handed to [BeginCleanup], the component is unregistered, the
    window is unregistered from Slate, and nothing is initialised or drawn.
    When it does not differ nothing changes.  Where the current size is
    valid, as [CreateRenderer] and every resizing tick leave it, an invalid
    new size always hides the display.  So a target that survives the tick
    has the calculated size. *)
Theorem Tick_keeps_render_target_in_sync (env : Env) (this : t) (W : UWorld)
    (DeltaSeconds : float) (e : Engine) (rt w : ObjectPtr) :
  WidgetRenderTarget this = Some rt ->
  SlateWindow this = Some w ->
  let New := CalculateWidgetDrawSize env this W in
  exists this' e' tr,
    Tick env this (Some W) DeltaSeconds e = Some (this', e', tr) /\
    (New <> CurrentWidgetDrawSize this ->
     IsTextureSizeValid env New = true ->
     WidgetRenderTarget this' = Some rt /\
     CurrentWidgetDrawSize this' = New /\
     In (InitCustomFormat rt (FIntPoint.X New) (FIntPoint.Y New)
           PF_B8G8R8A8 false) tr /\
     init_sizes tr = [New] /\
     In (Resize w New) tr /\
     SlateWindow this' = Some w /\
     CustomHitTestPath this' = CustomHitTestPath this /\
     (forall h, CustomHitTestPath this = Some h ->
        HitTesters e' !! h
        = FVRWidgetPostProcessHitTester.SetWidgetDrawSize New
            <$> HitTesters e !! h) /\
     (forall h ht,
        CustomHitTestPath this = Some h ->
        HitTesters e !! h = Some ht ->
        exists ht',
          HitTesters e' !! h = Some ht' /\
          FVRWidgetPostProcessHitTester.WidgetDrawSize ht' = New /\
          FVRWidgetPostProcessHitTester.World ht'
          = FVRWidgetPostProcessHitTester.World ht /\
          FVRWidgetPostProcessHitTester.SlateWindow ht'
          = FVRWidgetPostProcessHitTester.SlateWindow ht /\
          FVRWidgetPostProcessHitTester.LastLocalHitLocation ht'
          = FVRWidgetPostProcessHitTester.LastLocalHitLocation ht) /\
     (forall h, CustomHitTestPath this <> Some h ->
        HitTesters e' !! h = HitTesters e !! h) /\
     CustomHitTestPaths e' = CustomHitTestPaths e) /\
    (New <> CurrentWidgetDrawSize this ->
     IsTextureSizeValid env New = false ->
     Hide env this (Some W) e = Some (this', e', tr) /\
     WidgetRenderTarget this' = None /\
     WidgetRenderer this' = None /\
     SlateWindow this' = None /\
     init_sizes tr = [] /\ draws tr = [] /\
     ViewportWidget this' = None /\
     CustomHitTestPath this' = None /\
     CurrentWidgetDrawSize this' = FIntPoint.ZeroValue /\
     (bRenderToTextureOnly this = false ->
      PostProcessComponent this' = None /\
      PostProcessMaterialInstance this' = None) /\
     (forall r, WidgetRenderer this = Some r -> In (BeginCleanup r) tr) /\
     (forall c, bRenderToTextureOnly this = false ->
                PostProcessComponent this = Some c ->
                In (UnregisterComponent c) tr) /\
     (FSlateApplication_IsInitialized env = true ->
      In (UnregisterVirtualWindow w) tr) /\
     same_objects e e') /\
    (New = CurrentWidgetDrawSize this ->
     this' = this /\ e' = e /\ init_sizes tr = []) /\
    (IsTextureSizeValid env (CurrentWidgetDrawSize this) = true ->
     IsTextureSizeValid env New = false ->
     Hide env this (Some W) e = Some (this', e', tr)) /\
    (WidgetRenderTarget this' <> None ->
     WidgetRenderTarget this' = Some rt /\ CurrentWidgetDrawSize this' = New).
Proof.
  intros Hrt Hw New.
  pose proof (wp_TickRenderer env this W DeltaSeconds e rt w Hrt Hw) as H.
  apply wp_run in H as (this' & e' & tr & Hrun & H). cbv zeta in H.
  fold New in H.
  exists this', e', tr. split; [exact Hrun |].
  destruct (FIntPoint.neq New (CurrentWidgetDrawSize this)) eqn:Hneq.
  - apply FIntPoint_neq_true in Hneq.
    destruct (IsTextureSizeValid env New) eqn:Hvalid.
    + destruct H as (-> & -> & ->).
      split; [| split; [discriminate | split; [congruence | split;
        [discriminate |]]]].
      * intros _ _.
        unfold resized, draw_call. destruct this; simpl in *. subst.
        repeat (split; [solve [auto] |]).
        split; [destruct WidgetRenderer0; unfold init_sizes; simpl;
                destruct New; reflexivity |].
        repeat (split; [solve [auto] |]).
        split; [intros h ->; simpl; apply lookup_alter_eq |].
        split; [| split].
        -- intros h ht -> Hht. simpl.
           exists (FVRWidgetPostProcessHitTester.SetWidgetDrawSize New ht).
           rewrite lookup_alter_eq, Hht. repeat split.
        -- intros h Hh. destruct CustomHitTestPath0 as [h0|]; [| reflexivity].
           simpl. apply lookup_alter_ne. congruence.
        -- destruct CustomHitTestPath0; reflexivity.
      * intros _. destruct this; simpl in *. auto.
    + destruct H as (-> & -> & Htr & Hhide).
      split; [discriminate | split; [| split; [congruence | split;
        [intros _ _; exact Hhide |]]]].
      * intros _ _.
        pose proof Hhide as Hcalls.
        eapply wp_Some in Hcalls; [| apply wp_Hide].
        destruct Hcalls as (_ & _ & -> & _).
        split; [exact Hhide |].
        repeat (split; [solve [unfold hidden; simpl;
                               auto using all_quiet_init_sizes,
                                 all_quiet_draws] |]).
        split; [intros Hb; unfold hidden; rewrite Hb; split; reflexivity |].
        unfold hide_calls, renderer_release_calls, unregister_calls,
          release_component_calls.
        split; [intros r ->; rewrite !in_app_iff; cbn [In]; auto |].
        split; [intros c -> ->; rewrite !in_app_iff; cbn [negb In]; auto |].
        split; [| apply path_taken_off_frame].
        intros ->. rewrite Hw, !in_app_iff. cbn [In]. auto.
      * unfold hidden; simpl. congruence.
  - apply FIntPoint_neq_false in Hneq.
    destruct H as (-> & -> & ->).
    split; [congruence | split; [congruence | split; [| split]]].
    + intros _. repeat split. unfold draw_call.
      destruct (WidgetRenderer this), (SlateWindow this); reflexivity.
    + fold New. rewrite Hneq. congruence.
    + intros _. auto.
Qed.

(** The display with hardware input that [Display] builds for the game
    world is 1920 x 1080 with the hit tester 102; when the game viewport is
    2560 x 1440 at the next tick, the hit tester in the store is set to that
    size.  The display of the editor world is hidden by the tick after the
    level viewport was closed: the component 103 is unregistered and the
    renderer 100 cleaned up. *)
Lemma Tick_keeps_render_target_in_sync_witness :
  (exists b this e tr,
     Display env_hit pp_hardware (Some world_game) (Some widget_30) false 1%Q
       engine_0 = Some (b, this, e, tr) /\
     WidgetRenderTarget this = Some 103%nat /\
     SlateWindow this = Some 101%nat /\
     CustomHitTestPath this = Some 102%nat /\
     FVRWidgetPostProcessHitTester.WidgetDrawSize <$> HitTesters e !! 102%nat
     = Some (FIntPoint.mk 1920 1080) /\
     exists this' e' tr',
       Tick env_hit this (Some world_game_resized) (1 # 60)%Q e
       = Some (this', e', tr') /\
       CurrentWidgetDrawSize this' = FIntPoint.mk 2560 1440 /\
       In (Resize 101%nat (FIntPoint.mk 2560 1440)) tr' /\
       FVRWidgetPostProcessHitTester.WidgetDrawSize
         <$> HitTesters e' !! 102%nat
       = Some (FIntPoint.mk 2560 1440)) /\
  (WidgetRenderTarget pp_live = Some 102%nat /\
   SlateWindow pp_live = Some 101%nat /\
   exists this' e' tr,
     Tick env_editor_closed pp_live (Some world_editor) (1 # 60)%Q engine_0
     = Some (this', e', tr) /\
     WidgetRenderTarget this' = None /\
     PostProcessComponent this' = None /\
     In (UnregisterComponent 103%nat) tr /\
     In (BeginCleanup 100%nat) tr).
Proof.
  split.
  - destruct (Display env_hit pp_hardware (Some world_game) (Some widget_30)
                false 1%Q engine_0)
      as [[[[b this] e] tr]|] eqn:Hrun;
      [| vm_compute in Hrun; discriminate Hrun].
    exists b, this, e, tr. split; [reflexivity |].
    vm_compute in Hrun. injection Hrun as _ <- <- _.
    split; [reflexivity |]. split; [reflexivity |]. split; [reflexivity |].
    split; [reflexivity |].
    match goal with
    | |- exists this' e' tr', Tick _ ?this _ _ ?e = _ /\ _ =>
        destruct (Tick_keeps_render_target_in_sync env_hit this
                    world_game_resized (1 # 60)%Q e 103%nat 101%nat
                    eq_refl eq_refl)
          as (this' & e' & tr' & Htick & Hvalid & _)
    end.
    exists this', e', tr'. split; [exact Htick |].
    destruct Hvalid as (_ & Hsize & _ & _ & Hresize & _ & _ & _ & Hhit & _);
      [vm_compute; discriminate | reflexivity |].
    split; [exact Hsize |]. split; [exact Hresize |].
    destruct (Hhit 102%nat _ eq_refl eq_refl) as (ht' & Hl & Hs & _).
    etransitivity;
      [exact (f_equal (fmap FVRWidgetPostProcessHitTester.WidgetDrawSize) Hl) |].
    cbn [fmap option_fmap option_map]. rewrite Hs. reflexivity.
  - split; [reflexivity | split; [reflexivity |]].
    destruct (Tick_keeps_render_target_in_sync env_editor_closed pp_live
                world_editor (1 # 60)%Q engine_0 102%nat 101%nat
                eq_refl eq_refl)
      as (this' & e' & tr & Hrun & _ & Hinvalid & _).
    exists this', e', tr. split; [exact Hrun |].
    destruct Hinvalid
      as (_ & Hrt & _ & _ & _ & _ & _ & _ & _ & Hcomp & Hclean & Hunreg & _);
      [discriminate | reflexivity |].
    split; [exact Hrt |]. split; [apply Hcomp; reflexivity |].
    split; [apply Hunreg; reflexivity | apply Hclean; reflexivity].
Defined.

(** C4 as worded fails.  The display below is the one [Display] builds for
    an Editor world; its target and renderer are valid.  The level viewport
    is then closed, the calculated size becomes (0,0), and the next tick
    makes no [DrawWindow] call. *)
Lemma Tick_skips_draw_counterexample :
  (exists e1 tr0,
     Display env_editor pp_material (Some world_editor) (Some widget_30) false
       1%Q engine_0 = Some (true, pp_live, e1, tr0)) /\
  WidgetRenderTarget pp_live = Some 102%nat /\
  WidgetRenderer pp_live = Some 100%nat /\
  exists this' e' tr,
    Tick env_editor_closed pp_live (Some world_editor) (1 # 60)%Q engine_0
    = Some (this', e', tr) /\
    draws tr = [] /\
    (forall c, In c tr -> is_DrawWindow c = false).
Proof.
  split; [exact pp_live_displayed |].
  split; [reflexivity | split; [reflexivity |]].
  eexists _, _, _. split; [vm_compute; reflexivity |].
  split; [reflexivity |].
  intros c Hc. simpl in Hc.
  repeat (destruct Hc as [<- | Hc]; [reflexivity |]). destruct Hc.
Qed.

(** C4, amended.  A tick that finds target, renderer and window valid
    returns.  If the newly calculated size equals the current one or is
    valid, the tick ends with exactly one [DrawWindow] call, into the target,
    of the virtual window, with draw scale 1 and the calculated size, which
    is then [CurrentWidgetDrawSize].  If the size differs and is invalid the
    tick is [Hide] and draws nothing. *)
Theorem Tick_draws_unless_hidden (env : Env) (this : t) (W : UWorld)
    (DeltaSeconds : float) (e : Engine) (rt r w : ObjectPtr) :
  WidgetRenderTarget this = Some rt ->
  WidgetRenderer this = Some r ->
  SlateWindow this = Some w ->
  let New := CalculateWidgetDrawSize env this W in
  exists this' e' tr,
    Tick env this (Some W) DeltaSeconds e = Some (this', e', tr) /\
    (New = CurrentWidgetDrawSize this \/ IsTextureSizeValid env New = true ->
     CurrentWidgetDrawSize this' = New /\
     draws tr = [DrawWindow r (Some rt) w w 1%Q New DeltaSeconds] /\
     exists before,
       tr = before ++ [DrawWindow r (Some rt) w w 1%Q New DeltaSeconds]) /\
    (New <> CurrentWidgetDrawSize this /\ IsTextureSizeValid env New = false ->
     Hide env this (Some W) e = Some (this', e', tr) /\
     draws tr = []).
Proof.
  intros Hrt Hr Hw New.
  pose proof (wp_TickRenderer env this W DeltaSeconds e rt w Hrt Hw) as H.
  apply wp_run in H as (this' & e' & tr & Hrun & H). cbv zeta in H.
  fold New in H.
  exists this', e', tr. split; [exact Hrun |].
  destruct (FIntPoint.neq New (CurrentWidgetDrawSize this)) eqn:Hneq.
  - apply FIntPoint_neq_true in Hneq.
    destruct (IsTextureSizeValid env New) eqn:Hvalid.
    + destruct H as (-> & -> & ->). split; [| intros [_ [=]]].
      intros _. unfold draw_call. destruct this; simpl in *. subst.
      repeat split.
      eexists [_; _; _]. reflexivity.
    + destruct H as (-> & -> & Htr & Hhide). split.
      * intros [Heq | [=]]. congruence.
      * intros _. auto using all_quiet_draws.
  - apply FIntPoint_neq_false in Hneq.
    destruct H as (-> & -> & ->). split; [| intros [Hne _]; congruence].
    intros _. unfold draw_call. rewrite Hr, Hw, Hrt, <- Hneq.
    repeat split. exists []. reflexivity.
Qed.

Lemma Tick_draws_unless_hidden_witness :
  WidgetRenderTarget pp_live = Some 102%nat /\
  WidgetRenderer pp_live = Some 100%nat /\
  SlateWindow pp_live = Some 101%nat /\
  exists this' e' tr,
    Tick env_editor pp_live (Some world_editor) (1 # 60)%Q engine_0
    = Some (this', e', tr) /\
    draws tr
    = [DrawWindow 100%nat (Some 102%nat) 101%nat 101%nat 1%Q
         (FIntPoint.mk 1280 720) (1 # 60)%Q].
Proof.
  split; [reflexivity | split; [reflexivity | split; [reflexivity |]]].
  destruct (Tick_draws_unless_hidden env_editor pp_live world_editor
              (1 # 60)%Q engine_0 102%nat 100%nat 101%nat
              eq_refl eq_refl eq_refl)
    as (this' & e' & tr & Hrun & Hdraw & _).
  exists this', e', tr. split; [exact Hrun |].
  apply Hdraw. left; reflexivity.
Defined.



Lemma In_init_sizes target x y f l tr :
  In (InitCustomFormat target x y f l) tr -> In (FIntPoint.mk x y) (init_sizes tr).
Proof.
  intros H. unfold init_sizes. apply list_elem_of_In, list_elem_of_omap.
  exists (InitCustomFormat target x y f l). split; [| reflexivity].
  apply list_elem_of_In; exact H.
Qed.

Lemma IsTextureSizeValid_iff env Size :
  IsTextureSizeValid env Size = true <->
  0 < FIntPoint.X Size /\ 0 < FIntPoint.Y Size /\
  FIntPoint.X Size <= GetMax2DTextureDimension env /\
  FIntPoint.Y Size <= GetMax2DTextureDimension env.
Proof.
  unfold IsTextureSizeValid. cbv zeta.
  rewrite !andb_true_iff, !Z.ltb_lt, !Z.leb_le. tauto.
Qed.

Lemma TickRenderer_init_sizes env this World dt e this' e' tr :
  TickRenderer env this World dt e = Some (this', e', tr) ->
  valid_sizes env (init_sizes tr).
Proof.
  intros H. destruct World as [W|]; [| discriminate H].
  destruct (WidgetRenderTarget this) as [rt|] eqn:Hrt.
  - destruct (SlateWindow this) as [w|] eqn:Hw.
    + pose proof (wp_Tick env this W dt e rt w Hrt Hw) as Hwp.
      apply wp_run in Hwp as (a & e1 & t1 & Hrun & _ & _ & _ & Hv).
      unfold Tick in Hrun. congruence.
    + unfold TickRenderer in H.
      apply bind_Some in H as (W' & e1 & t1 & r & e2 & t2 & [= <- <- <-] & H & [= -> -> ->]).
      rewrite Hrt in H.
      apply bind_Some in H as (a & e3 & t3 & r' & e4 & t4 & H3 & H4 & [= -> -> ->]).
      destruct (FIntPoint.neq _ _);
        [destruct (IsTextureSizeValid env _) |].
      * exfalso.
        apply bind_Some in H3 as (? & ? & ? & ? & ? & ? & _ & H3 & _).
        apply bind_Some in H3 as (? & ? & ? & ? & ? & ? & _ & H3 & _).
        apply bind_Some in H3 as (? & ? & ? & ? & ? & ? & H3 & _).
        destruct this; simpl in *. subst. discriminate H3.
      * pose proof (wp_Hide env this (Some W) e) as Hwp.
        apply wp_run in Hwp as (a' & e5 & t5 & Hrun & -> & -> & _ & Hq).
        rewrite Hrun in H3. injection H3 as <- <- <-.
        unfold hidden in H4; simpl in H4. injection H4 as <- <- <-.
        simpl. rewrite app_nil_r, (all_quiet_init_sizes _ Hq). constructor.
      * injection H3 as <- <- <-.
        rewrite Hw in H4.
        destruct (WidgetRenderer this).
        -- apply bind_Some in H4 as (? & ? & ? & ? & ? & ? & [=] & _).
        -- injection H4 as <- <- <-. constructor.
  - unfold TickRenderer in H.
    apply bind_Some in H as (W' & e1 & t1 & r & e2 & t2 & [= <- <- <-] & H & [= -> -> ->]).
    rewrite Hrt in H. injection H as <- <- <-. constructor.
Qed.

Lemma CreateRenderer_init_sizes env this World Widget InDPIScale e r e' tr :
  CreateRenderer env this World Widget InDPIScale e = Some (r, e', tr) ->
  valid_sizes env (init_sizes tr).
Proof.
  intros Hrun.
  pose proof (wp_CreateRenderer env this World Widget InDPIScale e) as Hwp.
  apply wp_run in Hwp
    as (a & e1 & t1 & Hrun' & _ & _ & _ & _ & _ & _ & _ & Hcase).
  rewrite Hrun in Hrun'. injection Hrun' as <- <- <-.
  destruct World as [W|], Widget as [Wd|]; cbv zeta in Hcase;
    try (destruct Hcase as (_ & _ & ->); constructor).
  destruct (IsTextureSizeValid env _) eqn:Hvalid.
  - destruct Hcase as (_ & _ & _ & _ & ->). repeat constructor. exact Hvalid.
  - destruct Hcase as (_ & _ & ->); constructor.
Qed.

Lemma sizes_guarded_valid env tr :
  valid_sizes env (init_sizes tr) -> sizes_guarded env tr.
Proof.
  intros Hv target x y f l Hin.
  apply In_init_sizes in Hin.
  unfold valid_sizes in Hv. rewrite List.Forall_forall in Hv.
  apply Hv, IsTextureSizeValid_iff in Hin. simpl in Hin. lia.
Qed.

Lemma sizes_guarded_quiet env tr : all_quiet tr -> sizes_guarded env tr.
Proof.
  intros Hq. apply sizes_guarded_valid.
  rewrite (all_quiet_init_sizes _ Hq). constructor.
Qed.

End Renderer.

(** ** The viewport display *)

Section ViewportLemmas.
Import FVRFullScreenUserWidget_Viewport.

Lemma wp_Viewport_Hide env this World e :
  wp (Hide env this World) e (fun this' e' tr =>
    e' = e /\
    FullScreenCanvasWidget_Pin e this' = None /\
    TargetViewport this' = TargetViewport this /\
    all_quiet tr).
Proof.
  unfold Hide. wp_run.
  destruct (FullScreenCanvasWidget_Pin e this) as [c|] eqn:Hpin.
  - wp_step.
    destruct (match World with Some W => GetGameViewport W | None => None end);
      wp_run.
    all: destruct (WITH_EDITOR env);
      [destruct (LevelViewport_Pin env (OverlayWidgetLevelViewport this)) |];
      wp_run.
    all: destruct this; simpl; repeat split; auto; repeat constructor.
  - wp_run. repeat split; auto. constructor.
Qed.

Lemma wp_Viewport_Display env this World Widget InDPIScale e :
  wp (Display env this World Widget InDPIScale) e (fun r e' tr =>
    TargetViewport r.2 = TargetViewport this /\
    TextureRenderTargets e' = TextureRenderTargets e /\
    PostProcessComponents e' = PostProcessComponents e /\
    HitTesters e' = HitTesters e /\
    all_quiet tr).
Proof.
  unfold Display. wp_run.
  destruct Widget as [Wd|], World as [W|],
    (FullScreenCanvasWidget_Pin e this) as [c|];
    try (wp_run; repeat split; auto; constructor).
  destruct (is_Game_or_PIE W).
  - destruct (GetGameViewport W) as [vc|]; simpl; wp_run;
      repeat split; auto; repeat constructor.
  - destruct (WITH_EDITOR env) eqn:HE; simpl.
    + destruct (LevelEditor_IsModuleLoaded env); simpl.
      * destruct (ActiveLevelViewport env (TargetViewport this)) as [lv|];
          simpl; wp_run; rewrite ?HE; wp_run;
          repeat split; auto; repeat constructor.
      * wp_run; repeat split; auto; repeat constructor.
    + wp_run; repeat split; auto; repeat constructor.
Qed.


Lemma pin_frame e e' v :
  LiveCanvases e' ⊆ LiveCanvases e ->
  FullScreenCanvasWidget_Pin e v = None ->
  FullScreenCanvasWidget_Pin e' v = None.
Proof.
  unfold FullScreenCanvasWidget_Pin. intros Hsub.
  destruct (FullScreenCanvasWidget v) as [c|]; [| reflexivity].
  repeat case_bool_decide; try reflexivity; try discriminate.
  exfalso. auto.
Qed.

Lemma pin_same e e' v :
  LiveCanvases e' = LiveCanvases e ->
  FullScreenCanvasWidget_Pin e' v = FullScreenCanvasWidget_Pin e v.
Proof. unfold FullScreenCanvasWidget_Pin. intros ->. reflexivity. Qed.

End ViewportLemmas.

(** ** The widget *)

Ltac consistent_unfold :=
  unfold consistent, canvas_pinned, renderer_tied in *.

Ltac consistent_split :=
  consistent_unfold; split; [| split; [| split; [| split]]].

Section Widget.
Import EVRWidgetDisplayType.
Import UVRFullScreenUserWidget.

Lemma InitWidget_Some env s e s' e' tr :
  InitWidget env s e = Some (s', e', tr) ->
  (exists wd, s' = set_Widget wd s) /\ e' = e /\ all_quiet tr.
Proof.
  unfold InitWidget.
  assert (s = set_Widget (Widget s) s) as Hs by (destruct s; reflexivity).
  destruct (FSlateApplication_IsInitialized env);
    [destruct (WidgetClass s) as [c|];
       [destruct (Widget s) as [wd|] |] |];
    try (intros [= <- <- <-]; repeat split; eauto; constructor).
  intros H.
  apply bind_Some in H as (W & e1 & t1 & r & e2 & t2 & H1 & H & [= -> -> ->]).
  destruct (World_Get env (World s)); [| discriminate H1].
  injection H1 as <- <- <-.
  apply bind_Some in H as (wd & e1 & t1 & r' & e3 & t3 & H1 & H & [= -> -> ->]).
  simpl in H1. destruct (CreateWidget env u c) as [wd'|] eqn:Hcw;
    [| discriminate H1].
  injection H1 as <- <- <-.
  apply bind_Some in H as (? & e1 & t1 & r'' & e2 & t2 & H2 & H & [= -> -> ->]).
  injection H2 as <- <- <-. injection H as <- <- <-.
  repeat split; eauto. simpl. repeat constructor.
Qed.

Lemma display_condition_requested env s InWorld :
  isSome InWorld && isSome (WidgetClass (display_requested InWorld s))
  && ShouldDisplay env (display_requested InWorld s) InWorld
  && eqb (CurrentDisplayType (display_requested InWorld s)) Inactive
  = display_condition env s InWorld.
Proof. destruct s; reflexivity. Qed.

Lemma display_condition_true env s InWorld :
  display_condition env s InWorld = true ->
  InWorld <> None /\ WidgetClass s <> None /\
  ShouldDisplay env s InWorld = true /\
  CurrentDisplayType s = Inactive /\
  GetDisplayType env s InWorld <> Inactive.
Proof.
  unfold display_condition. rewrite !andb_true_iff.
  intros [[[H1 H2] H3] H4].
  apply EVRWidgetDisplayType_eqb_eq in H4.
  repeat split; auto.
  - destruct InWorld; [discriminate | discriminate H1].
  - destruct (WidgetClass s); [discriminate | discriminate H2].
  - unfold ShouldDisplay in H3.
    destruct (UE_SERVER env); [discriminate |].
    destruct (_ || _); [discriminate |].
    intros Heq. rewrite Heq in H3. discriminate H3.
Qed.

Lemma Display_Some env s InWorld e b s' e' tr :
  Display env s InWorld e = Some (b, s', e', tr) ->
  bDisplayRequested s' = true /\
  World s' = WorldId <$> InWorld /\
  EditorDisplayType s' = EditorDisplayType s /\
  GameDisplayType s' = GameDisplayType s /\
  PIEDisplayType s' = PIEDisplayType s /\
  if display_condition env s InWorld then
    CurrentDisplayType s' = GetDisplayType env s InWorld /\
    (CurrentDisplayType s' = Viewport ->
     PostProcessDisplayType s' = PostProcessDisplayType s) /\
    (CurrentDisplayType s' = PostProcess ->
     ViewportDisplayType s' = ViewportDisplayType s /\
     LiveCanvases e' = LiveCanvases e /\
     FVRFullScreenUserWidget_PostProcess.bRenderToTextureOnly
       (PostProcessDisplayType s') = false /\
     renderer_tied (PostProcessDisplayType s')) /\
    draws tr = [] /\
    valid_sizes env (init_sizes tr)
  else
    b = false /\ s' = display_requested InWorld s /\ e' = e /\ tr = [].
Proof.
  unfold Display. cbv zeta.
  fold (display_requested InWorld s).
  rewrite display_condition_requested.
  destruct (display_condition env s InWorld) eqn:Hcond.
  2:{ intros [= <- <- <- <-]. destruct s; simpl; repeat split; reflexivity. }
  apply display_condition_true in Hcond as (_ & _ & _ & Hcur & Hd).
  intros H.
  apply bind_Some in H as (s1 & e1 & t1 & r & e2 & t2 & H1 & H & [= <- -> ->]).
  apply InitWidget_Some in H1 as ((wd & ->) & -> & Hq1).
  apply bind_Some in H as ([b3 s3] & e3 & t3 & r & e4 & t4 & H3 & H & [= <- -> ->]).
  apply when_emit_then_ret in H. injection H as -> -> -> ->.
  assert (draws (if b3 then [LevelRemovedFromWorld_AddUObject] else []) = [] /\
          init_sizes (if b3 then [LevelRemovedFromWorld_AddUObject] else [])
          = []) as [Hd4 Hi4]
    by (destruct b3; split; reflexivity).
  pose proof (all_quiet_draws _ Hq1) as Hd1.
  pose proof (all_quiet_init_sizes _ Hq1) as Hi1.
  set (d := GetDisplayType env s InWorld) in *.
  assert (GetDisplayType env (display_requested InWorld s) InWorld = d) as Hd'
    by (destruct s; reflexivity).
  revert H3. simpl. rewrite Hd'.
  destruct d; [congruence | |]; simpl.
  - intros H3.
    apply bind_Some in H3 as ([b5 v] & e5 & t5 & r & e6 & t6 & H5 & H & [= <- -> ->]).
    injection H as <- <- <- <-.
    eapply wp_Some in H5; [| apply wp_Viewport_Display].
    destruct H5 as (_ & _ & _ & _ & Hq5).
    pose proof (all_quiet_draws _ Hq5) as Hd5.
    pose proof (all_quiet_init_sizes _ Hq5) as Hi5.
    trace_simpl.
    destruct s; simpl. repeat split; auto; try discriminate. constructor.
  - intros H3.
    apply bind_Some in H3 as ([b5 pp] & e5 & t5 & r & e6 & t6 & H5 & H & [= <- -> ->]).
    injection H as <- <- <- <-.
    eapply wp_Some in H5; [| apply wp_Display].
    destruct H5 as (Hb & _ & _ & _ & _ & Hwf & HL & Hd5 & Hv5).
    simpl in *.
    unfold draws, init_sizes in *.
    rewrite !List.filter_app, !omap_app, Hd1, Hd5, Hd4, Hi1, Hi4, !app_nil_r.
    destruct s; simpl. repeat split; auto; try discriminate.
Qed.

Lemma wp_Widget_Hide env s e :
  wp (Hide env s) e (fun s' e' tr =>
    e' = hidden_store env s e /\ all_quiet tr /\
    CurrentDisplayType s' = Inactive /\
    bDisplayRequested s' = false /\
    World s' = None /\
    match CurrentDisplayType s with
    | Inactive => s' = hide_requested s /\ tr = []
    | Viewport =>
        Widget s' = None /\
        PostProcessDisplayType s' = PostProcessDisplayType s /\
        canvas_pinned e s' = None
    | PostProcess =>
        Widget s' = None /\
        ViewportDisplayType s' = ViewportDisplayType s /\
        PostProcessDisplayType s' = hidden (PostProcessDisplayType s)
    end).
Proof.
  unfold Hide. cbv zeta. wp_step.
  destruct s as [cur ? ? ? ? ? ? ? ? ? ? ? ?]; simpl.
  destruct cur; simpl.
  - wp_run. repeat split; auto. constructor.
  - wp_run.
    eapply wp_mono; [apply wp_Viewport_Hide |].
    intros v e' tr (-> & Hpin & _ & Hq). wp_run.
    repeat split; auto.
    rewrite !app_nil_r. apply all_quiet_cons; [reflexivity | exact Hq].
  - wp_run.
    eapply wp_mono; [apply wp_Hide |].
    intros pp e' tr (-> & -> & _ & Hq). wp_run.
    repeat split; auto.
    rewrite !app_nil_r. apply all_quiet_cons; [reflexivity | exact Hq].
Qed.

Lemma hidden_store_frame env s e :
  same_objects e (hidden_store env s e).
Proof.
  unfold hidden_store.
  destruct (CurrentDisplayType s); try (repeat split; reflexivity).
  apply path_taken_off_frame.
Qed.

Lemma wp_Widget_Tick env s dt e :
  renderer_tied (PostProcessDisplayType s) ->
  wp (Tick env s dt) e (fun s' e' tr =>
    match CurrentDisplayType s, World_Get env (World s) with
    | Inactive, _ => s' = s /\ e' = e /\ tr = []
    | _, None => Hide env s e = Some (s', e', tr)
    | Viewport, Some _ => s' = s /\ e' = e /\ tr = []
    | PostProcess, Some W =>
        exists pp',
          FVRFullScreenUserWidget_PostProcess.Tick env
            (PostProcessDisplayType s) (Some W) dt e
          = Some (pp', e', tr) /\
          s' = set_PostProcessDisplayType pp' s
    end).
Proof.
  intros Hwf. unfold Tick.
  destruct (CurrentDisplayType s) eqn:Hcur; simpl.
  - wp_run. auto.
  - destruct (World_Get env (World s)) as [W|].
    + unfold FVRFullScreenUserWidget_Viewport.Tick. wp_run.
      destruct s; simpl in *. auto.
    + apply wp_eq. exact (wp_total _ _ _ (wp_Widget_Hide env s e)).
  - destruct (World_Get env (World s)) as [W|].
    + wp_step.
      eapply wp_mono;
        [apply wp_eq;
         exact (wp_total _ _ _ (wp_PostProcess_Tick_wf env _ W dt e Hwf)) |].
      intros pp' e' tr Hrun. simpl in Hrun. wp_run. rewrite app_nil_r. eauto.
    + apply wp_eq. exact (wp_total _ _ _ (wp_Widget_Hide env s e)).
Qed.

Lemma consistent_Hide env e s s' e' tr :
  Hide env s e = Some (s', e', tr) -> consistent e s -> consistent e' s'.
Proof.
  intros Hrun (I1 & I2 & I3 & I4 & I5).
  eapply wp_Some in Hrun; [| apply wp_Widget_Hide].
  destruct Hrun as (-> & _ & Hcur & _ & _ & Hcase).
  assert (forall v,
            FVRFullScreenUserWidget_Viewport.FullScreenCanvasWidget_Pin
              (hidden_store env s e) v
            = FVRFullScreenUserWidget_Viewport.FullScreenCanvasWidget_Pin e v)
    as Hsame by (intros v; apply pin_same, hidden_store_frame).
  set (e' := hidden_store env s e) in *. clearbody e'.
  consistent_unfold. rewrite Hcur.
  destruct (CurrentDisplayType s) eqn:Hs.
  - destruct Hcase as (-> & _). destruct s; simpl in *.
    consistent_split; auto; try discriminate.
    all: intros _; first [rewrite Hsame; apply I1 | apply I2]; discriminate.
  - destruct Hcase as (Hw & Hpp & Hpin). rewrite Hpp.
    consistent_split; auto; try discriminate.
    all: intros _; first [rewrite Hsame; exact Hpin | apply I2; discriminate].
  - destruct Hcase as (Hw & Hv & Hpp). rewrite Hv, Hpp.
    pose proof (pp_idle_hidden _ (I3 eq_refl)) as Hidle.
    consistent_split; auto; try discriminate.
    all: try (intros _; rewrite Hsame; apply I1; discriminate).
    all: try (destruct Hidle as (-> & _); discriminate).
Qed.

Lemma consistent_Display env InWorld e s b s' e' tr :
  Display env s InWorld e = Some (b, s', e', tr) ->
  consistent e s -> consistent e' s'.
Proof.
  intros Hrun (I1 & I2 & I3 & I4 & I5).
  apply Display_Some in Hrun as (_ & _ & _ & _ & _ & Hcase).
  consistent_unfold.
  destruct (display_condition env s InWorld) eqn:Hcond.
  - apply display_condition_true in Hcond as (_ & _ & _ & Hcur & Hd).
    destruct Hcase as (Hcur' & HV & HP & _ & _).
    rewrite <- Hcur' in Hd.
    assert (pp_idle (PostProcessDisplayType s)) as Hidle
      by (apply I2; congruence).
    assert (FVRFullScreenUserWidget_Viewport.FullScreenCanvasWidget_Pin e
              (ViewportDisplayType s) = None)
      as Hpin by (apply I1; congruence).
    destruct (CurrentDisplayType s') eqn:Hs'; [congruence | |].
    + rewrite (HV eq_refl).
      consistent_split; auto; try discriminate; try congruence.
    + destruct (HP eq_refl) as (Hv & HL & Hb & Hwf).
      consistent_split; auto; try discriminate; try congruence.
      all: intros _; rewrite Hv, (pin_same _ _ _ HL); exact Hpin.
  - destruct Hcase as (_ & -> & -> & _).
    destruct s; simpl in *. consistent_split; auto.
Qed.

Lemma consistent_Tick env dt e s s' e' tr :
  Tick env s dt e = Some (s', e', tr) ->
  consistent e s -> consistent e' s'.
Proof.
  intros Hrun Hc. pose proof Hc as (I1 & I2 & I3 & I4 & I5).
  eapply wp_Some in Hrun; [| apply wp_Widget_Tick; exact I5].
  destruct (CurrentDisplayType s) eqn:Hcur.
  - destruct Hrun as (-> & -> & _). exact Hc.
  - destruct (World_Get env (World s)).
    + destruct Hrun as (-> & -> & _). exact Hc.
    + eapply consistent_Hide; eauto.
  - destruct (World_Get env (World s)) as [W|].
    + destruct Hrun as (pp' & Hrun & ->).
      eapply wp_Some in Hrun; [| apply wp_PostProcess_Tick_wf; exact I5].
      destruct Hrun as ((_ & _ & _ & _ & Hb) & Hwf & HL & _).
      destruct s; simpl in *. subst.
      consistent_split; simpl; auto; try discriminate.
      all: try (intros _; rewrite (pin_same _ _ _ HL); apply I1; discriminate).
      all: try (intros _; rewrite Hb; auto).
      all: intros H; congruence.
    + eapply consistent_Hide; eauto.
Qed.

Lemma PostEditChangeProperty_acts env s MemberProperty bInteractive :
  PostEditChangeProperty env s MemberProperty bInteractive =
  if edit_acts MemberProperty bInteractive then
    s1 ← Hide env s;
    if bDisplayRequested s && isSome (World_Get env (World s)) then
      '(_, s2) ← Display env s1 (World_Get env (World s));
      mret s2
    else mret s1
  else mret s.
Proof.
  unfold PostEditChangeProperty, edit_acts.
  destruct MemberProperty as [Property|]; [| reflexivity].
  destruct bInteractive; [reflexivity |]. cbn [negb andb].
  match goal with
  | |- (if ?c then _ else _) = _ =>
      assert (c = bool_decide (Property ∈ watched_members)) as ->
  end; [| reflexivity].
  apply Bool.eq_iff_eq_true.
  rewrite bool_decide_eq_true. unfold watched_members, FName_eqb.
  rewrite !orb_true_iff, !elem_of_cons, elem_of_nil, !String.eqb_eq. tauto.
Qed.

Lemma consistent_reachable e s : reachable e s -> consistent e s.
Proof.
  induction 1 as
    [ e ed gd pd wc archetype cdo material indeterminate
    | e e' s _ IH Hsub
    | e s s' _ IH Hed
    | env InWorld e s b s' e' tr _ IH Hrun
    | env e s s' e' tr _ IH Hrun
    | env e s s' e' tr _ IH Hrun
    | env dt e s s' e' tr _ IH Hrun
    | env InLevel InWorld e s s' e' tr _ IH Hrun
    | env Property bInteractive e s s' e' tr _ IH Hrun
    | e s ed gd pd _ IH
    | e s v _ IH
    | e s _ IH ].
  - consistent_split; simpl; auto; try discriminate. repeat split.
  - destruct IH as (I1 & I2 & I3 & I4 & I5).
    consistent_split; auto. intros H. eapply pin_frame; eauto.
  - destruct IH as (I1 & I2 & I3 & I4 & I5).
    destruct Hed as (E1 & _ & _ & E4 & E5 & _ & E7 & E8 & E9 & E10 & _
                     & E12 & E13 & E14 & E15 & _).
    consistent_unfold. unfold pp_idle.
    rewrite E1, E4, E5, E7, E8, E9, E10, E12, E13, E14, E15.
    consistent_split; auto.
  - eapply consistent_Display; eauto.
  - eapply consistent_Hide; eauto.
  - eapply consistent_Hide; eauto.
  - eapply consistent_Tick; eauto.
  - unfold OnLevelRemovedFromWorld in Hrun.
    destruct (_ && _); [eapply consistent_Hide; eauto |].
    injection Hrun as <- <- <-. exact IH.
  - rewrite PostEditChangeProperty_acts in Hrun.
    destruct (edit_acts _ _); [| injection Hrun as <- <- <-; exact IH].
    apply bind_Some in Hrun
      as (s1 & e1 & t1 & r & e2 & t2 & H1 & H2 & [= <- -> ->]).
    pose proof (consistent_Hide _ _ _ _ _ _ H1 IH) as Hc1.
    destruct (_ && _); [| injection H2 as <- <- <-; exact Hc1].
    apply bind_Some in H2
      as ([b s2] & e3 & t3 & r & e4 & t4 & H3 & H4 & [= <- -> ->]).
    injection H4 as <- <- _.
    eapply consistent_Display; eauto.
  - destruct s; exact IH.
  - destruct IH as (I1 & I2 & I3 & I4 & I5).
    destruct s as [? ? ? ? ? ? ? ? [] [] ? ? ?]; simpl in *.
    consistent_split; auto.
  - destruct IH as (I1 & I2 & I3 & I4 & I5).
    destruct s as [? ? ? ? ? ? ? ? [] [] ? ? ?]; simpl in *.
    consistent_split; auto.
Qed.

(** C10.  [Hide] returns from every state; in the store it changes at most
    the hit-test path that a displayed post-process path takes off its
    viewport widget.  Afterwards [IsDisplayed] is false,
    [CurrentDisplayType] is [Inactive], [bDisplayRequested] is false and the
    world reference is cleared; a second [Hide], under any host and from any
    store, returns the same state, leaves the store alone and makes no call
    into the engine. *)
Theorem Hide_idempotent (env env' : Env) (s : UVRFullScreenUserWidget.t)
    (e : Engine) :
  exists s1 e1 tr,
    Hide env s e = Some (s1, e1, tr) /\
    e1 = hidden_store env s e /\
    (CurrentDisplayType s <> PostProcess -> e1 = e) /\
    same_objects e e1 /\
    IsDisplayed s1 = false /\
    CurrentDisplayType s1 = Inactive /\
    bDisplayRequested s1 = false /\
    World s1 = None /\
    Hide env' s1 e1 = Some (s1, e1, []) /\
    forall e2, Hide env' s1 e2 = Some (s1, e2, []).
Proof.
  pose proof (wp_Widget_Hide env s e) as H.
  apply wp_run in H as (s1 & e1 & tr & Hrun & -> & _ & Hcur & Hreq & Hw & _).
  exists s1, (hidden_store env s e), tr. split; [exact Hrun |].
  split; [reflexivity |].
  split; [unfold hidden_store; destruct (CurrentDisplayType s); congruence |].
  split; [apply hidden_store_frame |].
  split; [unfold IsDisplayed; rewrite Hcur; reflexivity |].
  repeat (split; [assumption |]).
  assert (forall e2, Hide env' s1 e2 = Some (s1, e2, [])) as Hagain.
  { intros e2. pose proof (wp_Widget_Hide env' s1 e2) as H.
    apply wp_run in H as (s2 & e3 & tr2 & Hrun2 & -> & _ & _ & _ & _ & Hcase).
    rewrite Hcur in Hcase. destruct Hcase as (-> & ->).
    rewrite Hrun2. unfold hide_requested, hidden_store. rewrite Hcur.
    destruct s1; simpl in *. subst. reflexivity. }
  split; [apply Hagain | exact Hagain].
Qed.

(** C8, amended.  [ShouldDisplay] is false exactly for a server build, a
    null RHI, an archetype or class-default object, a dedicated server, or a
    display type [Inactive] for the world.  When [InWorld] is null, [WidgetClass] is
    unset, [ShouldDisplay] is false or the widget is displayed already,
    [Display] returns false, calls nothing and leaves the store alone;
    [CurrentDisplayType] keeps its value, so it stays [Inactive] where it
    was, no widget is created, and neither display path is touched.
    Whenever [Display] returns, [bDisplayRequested] is true and the tracked
    world is [InWorld]. *)
Theorem Display_refused (env : Env) (s : UVRFullScreenUserWidget.t)
    (InWorld : option UWorld) (e : Engine) :
  (ShouldDisplay env s InWorld = false <->
   UE_SERVER env = true \/ GUsingNullRHI env = true \/
   RF_ArchetypeObject s = true \/ RF_ClassDefaultObject s = true \/
   IsRunningDedicatedServer env = true \/
   GetDisplayType env s InWorld = Inactive) /\
  (InWorld = None \/ WidgetClass s = None \/
   ShouldDisplay env s InWorld = false \/ IsDisplayed s = true ->
   exists s',
     Display env s InWorld e = Some (false, s', e, []) /\
     CurrentDisplayType s' = CurrentDisplayType s /\
     (CurrentDisplayType s = Inactive -> CurrentDisplayType s' = Inactive) /\
     Widget s' = Widget s /\
     ViewportDisplayType s' = ViewportDisplayType s /\
     PostProcessDisplayType s' = PostProcessDisplayType s /\
     bDisplayRequested s' = true /\
     World s' = WorldId <$> InWorld) /\
  (forall b s' e' tr,
     Display env s InWorld e = Some (b, s', e', tr) ->
     bDisplayRequested s' = true /\ World s' = WorldId <$> InWorld).
Proof.
  split; [| split].
  - unfold ShouldDisplay.
    destruct (UE_SERVER env), (GUsingNullRHI env), (RF_ArchetypeObject s),
      (RF_ClassDefaultObject s), (IsRunningDedicatedServer env); simpl;
      try (split; [intros _; tauto | reflexivity]).
    destruct (GetDisplayType env s InWorld); simpl; split;
      try discriminate; try tauto.
    all: intros [H | [H | [H | [H | [H | H]]]]]; discriminate H.
  - intros Hfail.
    assert (display_condition env s InWorld = false) as Hcond.
    { unfold display_condition, IsDisplayed in *.
      destruct Hfail as [-> | [-> | [-> | Hd]]]; simpl;
        rewrite ?andb_false_r; try reflexivity.
      apply negb_true_iff in Hd. rewrite Hd, andb_false_r. reflexivity. }
    exists (display_requested InWorld s).
    unfold Display. cbv zeta. fold (display_requested InWorld s).
    rewrite display_condition_requested, Hcond.
    destruct s; simpl. repeat split; auto.
  - intros b s' e' tr Hrun.
    apply Display_Some in Hrun as (H1 & H2 & _). auto.
Qed.

(** C7.  From every reachable state [Hide] returns, with
    [CurrentDisplayType] [Inactive], the created widget released and the
    world reference cleared.  [OnLevelRemovedFromWorld] with a null level
    and the tracked world is that [Hide]; so is [Tick] of a displayed widget
    whose world reference has gone stale; so is [BeginDestroy].  A [Tick]
    with a stale world always ends [Inactive] with no widget. *)
Theorem host_lifecycle_hides (e : Engine) (s : UVRFullScreenUserWidget.t)
    (env : Env) :
  reachable e s ->
  exists s' e' tr,
    Hide env s e = Some (s', e', tr) /\
    e' = hidden_store env s e /\
    same_objects e e' /\
    CurrentDisplayType s' = Inactive /\
    Widget s' = None /\
    World s' = None /\
    (forall InWorld World_,
       World_Get env (World s) = Some World_ ->
       WorldId InWorld = WorldId World_ ->
       OnLevelRemovedFromWorld env s None (Some InWorld) e
       = Some (s', e', tr)) /\
    (forall DeltaSeconds,
       World_Get env (World s) = None ->
       CurrentDisplayType s <> Inactive ->
       Tick env s DeltaSeconds e = Some (s', e', tr)) /\
    (forall DeltaSeconds,
       World_Get env (World s) = None ->
       exists s'' tr'',
         Tick env s DeltaSeconds e = Some (s'', e', tr'') /\
         CurrentDisplayType s'' = Inactive /\
         Widget s'' = None) /\
    BeginDestroy env s e = Some (s', e', tr).
Proof.
  intros Hreach. apply consistent_reachable in Hreach as (I1 & I2 & I3 & I4 & I5).
  pose proof (wp_Widget_Hide env s e) as H.
  apply wp_run in H as (s' & e' & tr & Hrun & -> & _ & Hcur & _ & Hw & Hcase).
  assert (Widget s' = None) as Hwidget.
  { destruct (CurrentDisplayType s) eqn:Hs.
    - destruct Hcase as (-> & _). destruct s; simpl in *. auto.
    - destruct Hcase as (-> & _); reflexivity.
    - destruct Hcase as (-> & _); reflexivity. }
  exists s', (hidden_store env s e), tr. split; [exact Hrun |].
  split; [reflexivity |]. split; [apply hidden_store_frame |].
  repeat (split; [assumption |]).
  split; [| split; [| split]].
  - intros InWorld World_ Hget Hid. unfold OnLevelRemovedFromWorld.
    rewrite Hget. simpl. rewrite Hid, Nat.eqb_refl. exact Hrun.
  - intros dt Hget Hne. unfold Tick. rewrite Hget.
    destruct (CurrentDisplayType s); [congruence | exact Hrun | exact Hrun].
  - intros dt Hget. unfold Tick. rewrite Hget.
    destruct (CurrentDisplayType s) eqn:Hs; simpl; eauto.
    exists s, []. unfold hidden_store. rewrite Hs. auto.
  - exact Hrun.
Qed.

Lemma host_lifecycle_hides_witness :
  exists b s e tr,
    Display env_hit widget_0 (Some world_game) engine_0 = Some (b, s, e, tr) /\
    reachable e s /\
    World_Get env_world_gone (World s) = None /\
    exists s' e' tr',
      Tick env_world_gone s (1 # 60)%Q e = Some (s', e', tr') /\
      CurrentDisplayType s' = Inactive /\
      Widget s' = None.
Proof.
  destruct (Display env_hit widget_0 (Some world_game) engine_0)
    as [[[[b s] e] tr]|] eqn:Hrun; [| vm_compute in Hrun; discriminate Hrun].
  exists b, s, e, tr. split; [reflexivity |].
  assert (reachable e s) as Hreach.
  { eapply reachable_Display; [| exact Hrun].
    apply (reachable_ctor engine_0 Inactive Viewport Inactive (Some 40%nat)
             false false (Some 41%nat) false). }
  split; [exact Hreach |].
  assert (World_Get env_world_gone (World s) = None) as Hgone
    by (destruct (World s); reflexivity).
  split; [exact Hgone |].
  destruct (host_lifecycle_hides e s env_world_gone Hreach)
    as (s' & e' & tr' & _ & _ & _ & _ & _ & _ & _ & _ & Htick & _).
  destruct (Htick (1 # 60)%Q Hgone) as (s'' & tr'' & H1 & H2 & H3).
  exists s'', e', tr''. auto.
Defined.

(** C8 as worded fails when the widget is displayed already: the refused
    call leaves [CurrentDisplayType] at [Viewport], it does not stay
    [Inactive]. *)
Lemma Display_refused_counterexample :
  exists s e tr s',
    Display env_hit widget_0 (Some world_game) engine_0
    = Some (true, s, e, tr) /\
    IsDisplayed s = true /\
    Display env_hit s None e = Some (false, s', e, []) /\
    CurrentDisplayType s' = Viewport /\
    CurrentDisplayType s' <> Inactive.
Proof.
  eexists _, _, _, _. split; [vm_compute; reflexivity |].
  split; [reflexivity |].
  split; [vm_compute; reflexivity |].
  split; [reflexivity | discriminate].
Qed.

Lemma Display_refused_witness :
  exists s',
    Display env_hit widget_0 None engine_0 = Some (false, s', engine_0, []) /\
    CurrentDisplayType s' = Inactive /\
    bDisplayRequested s' = true /\
    World s' = None.
Proof.
  destruct (proj1 (proj2 (Display_refused env_hit widget_0 None engine_0))
              (or_introl eq_refl))
    as (s' & Hrun & Hcur & _ & _ & _ & _ & Hreq & Hw).
  exists s'. auto.
Defined.

End Widget.

(** ** Sizes of the render target *)

Section RenderTargetSizes.
Import FVRFullScreenUserWidget_PostProcess.

Lemma Widget_Hide_sizes env s e s' e' tr :
  UVRFullScreenUserWidget.Hide env s e = Some (s', e', tr) ->
  sizes_guarded env tr.
Proof.
  intros Hrun. eapply wp_Some in Hrun; [| apply wp_Widget_Hide].
  destruct Hrun as (_ & Hq & _). apply sizes_guarded_quiet, Hq.
Qed.

Lemma Widget_Display_sizes env s InWorld e b s' e' tr :
  UVRFullScreenUserWidget.Display env s InWorld e = Some (b, s', e', tr) ->
  sizes_guarded env tr.
Proof.
  intros Hrun. apply Display_Some in Hrun as (_ & _ & _ & _ & _ & Hcase).
  destruct (display_condition env s InWorld).
  - destruct Hcase as (_ & _ & _ & _ & Hv). apply sizes_guarded_valid, Hv.
  - destruct Hcase as (_ & _ & _ & ->). intros ? ? ? ? ? [].
Qed.

Lemma Widget_Tick_sizes env s DeltaSeconds e s' e' tr :
  UVRFullScreenUserWidget.Tick env s DeltaSeconds e = Some (s', e', tr) ->
  sizes_guarded env tr.
Proof.
  unfold UVRFullScreenUserWidget.Tick.
  destruct (UVRFullScreenUserWidget.CurrentDisplayType s); simpl.
  - intros [= <- <- <-]. intros ? ? ? ? ? [].
  - destruct (World_Get env (UVRFullScreenUserWidget.World s)).
    + intros H. apply bind_Some in H
        as (? & ? & ? & ? & ? & ? & [= <- <- <-] & [= <- <- <-] & [= _ _ ->]).
      intros ? ? ? ? ? [].
    + apply Widget_Hide_sizes.
  - destruct (World_Get env (UVRFullScreenUserWidget.World s)).
    + intros H. apply bind_Some in H
        as (? & ? & ? & ? & ? & ? & H & [= <- <- <-] & [= _ _ ->]).
      rewrite app_nil_r. apply sizes_guarded_valid.
      eapply TickRenderer_init_sizes. exact H.
    + apply Widget_Hide_sizes.
Qed.

(** C9.  [IsTextureSizeValid] accepts a size exactly when both components
    are strictly positive and at most the maximum 2D texture dimension.
    Every [InitCustomFormat] call that [CreateRenderer] or [TickRenderer]
    makes, the only two callers, has such a size; so has every one made by
    [Display], [Tick] and [Hide] of the widget, from any state. *)
Theorem render_target_size_is_guarded (env : Env) :
  (forall Size,
     IsTextureSizeValid env Size = true <->
     0 < FIntPoint.X Size /\ 0 < FIntPoint.Y Size /\
     FIntPoint.X Size <= GetMax2DTextureDimension env /\
     FIntPoint.Y Size <= GetMax2DTextureDimension env) /\
  (forall this World Widget InDPIScale e r e' tr,
     CreateRenderer env this World Widget InDPIScale e = Some (r, e', tr) ->
     forall target x y f l,
       In (InitCustomFormat target x y f l) tr ->
       0 < x <= GetMax2DTextureDimension env /\
       0 < y <= GetMax2DTextureDimension env) /\
  (forall this World DeltaSeconds e this' e' tr,
     TickRenderer env this World DeltaSeconds e = Some (this', e', tr) ->
     forall target x y f l,
       In (InitCustomFormat target x y f l) tr ->
       0 < x <= GetMax2DTextureDimension env /\
       0 < y <= GetMax2DTextureDimension env) /\
  (forall s InWorld e b s' e' tr,
     UVRFullScreenUserWidget.Display env s InWorld e = Some (b, s', e', tr) ->
     sizes_guarded env tr) /\
  (forall s DeltaSeconds e s' e' tr,
     UVRFullScreenUserWidget.Tick env s DeltaSeconds e = Some (s', e', tr) ->
     sizes_guarded env tr) /\
  (forall s e s' e' tr,
     UVRFullScreenUserWidget.Hide env s e = Some (s', e', tr) ->
     sizes_guarded env tr).
Proof.
  split; [apply IsTextureSizeValid_iff |].
  split.
  { intros this World Widget dpi e r e' tr Hrun.
    apply (sizes_guarded_valid env tr).
    eapply CreateRenderer_init_sizes; exact Hrun. }
  split.
  { intros this World dt e this' e' tr Hrun.
    apply (sizes_guarded_valid env tr).
    eapply TickRenderer_init_sizes; exact Hrun. }
  split; [| split].
  - intros s InWorld e b s' e' tr. apply Widget_Display_sizes.
  - intros s dt e s' e' tr. apply Widget_Tick_sizes.
  - intros s e s' e' tr. apply Widget_Hide_sizes.
Qed.

(** The renderer created for the Editor world of [env_editor] initialises
    its target to 1280 x 720, within the limit of 16384. *)
Lemma render_target_size_is_guarded_witness :
  exists r e' tr,
    CreateRenderer env_editor pp_material (Some world_editor) (Some widget_30)
      1%Q engine_0 = Some (r, e', tr) /\
    In (InitCustomFormat 102%nat 1280 720 PF_B8G8R8A8 false) tr /\
    0 < 1280 <= GetMax2DTextureDimension env_editor /\
    0 < 720 <= GetMax2DTextureDimension env_editor.
Proof.
  destruct (CreateRenderer env_editor pp_material (Some world_editor)
              (Some widget_30) 1%Q engine_0) as [[[r e'] tr]|] eqn:Hrun;
    [| vm_compute in Hrun; discriminate Hrun].
  exists r, e', tr. split; [reflexivity |].
  assert (In (InitCustomFormat 102%nat 1280 720 PF_B8G8R8A8 false) tr) as Hin.
  { vm_compute in Hrun. injection Hrun as _ _ <-. simpl. auto 20. }
  split; [exact Hin |].
  exact (proj1 (proj2 (render_target_size_is_guarded env_editor))
           _ _ _ _ _ _ _ _ Hrun _ _ _ _ _ Hin).
Defined.

End RenderTargetSizes.

(** * Further properties *)

(** Unfolding of the monad, for computations that are run to their end. *)
Ltac run_M :=
  cbv beta iota zeta delta
    [mbind M_bind bind mret M_ret ret emit modify gets NewObject deref crash
     when write_HitTester write_PostProcessComponent].

(** [In] over a trace that is built from literal lists, [++] and tests. *)
Ltac in_inv H :=
  repeat match type of H with
         | In _ (_ ++ _) => apply List.in_app_or in H; destruct H as [H | H]
         | In _ [] => destruct H
         | In _ (_ :: _) => destruct H as [H | H]; [try discriminate H |]
         | In _ (if ?c then _ else _) => destruct c eqn:?
         | In _ (match ?c with _ => _ end) => destruct c eqn:?
         end.

(** ** The viewport display, run to its end *)

Section ViewportExtras.
Import FVRFullScreenUserWidget_Viewport.

Lemma Viewport_Display_run env this World Widget InDPIScale e :
  Display env this World Widget InDPIScale e =
  let c := NextObject e in
  let e1 := set_LiveCanvases ({[c]} ∪ LiveCanvases e) (set_NextObject (S c) e) in
  match Widget, World, FullScreenCanvasWidget_Pin e this with
  | Some wd, Some W, None =>
      if is_Game_or_PIE W then
        match GetGameViewport W with
        | Some vc =>
            Some (true, set_FullScreenCanvasWidget (Some c) this, e1,
                  [SNew_SConstraintCanvas c InDPIScale (UserWidgetId wd);
                   AddViewportWidgetContent (GameViewportClientId vc) c])
        | None => Some (false, this, e, [])
        end
      else if WITH_EDITOR env && LevelEditor_IsModuleLoaded env then
        match ActiveLevelViewport env (TargetViewport this) with
        | Some lv =>
            Some (true,
                  set_OverlayWidgetLevelViewport (Some (LevelViewportId lv))
                    (set_FullScreenCanvasWidget (Some c) this), e1,
                  [SNew_SConstraintCanvas c InDPIScale (UserWidgetId wd);
                   AddOverlayWidget (LevelViewportId lv) c])
        | None => Some (false, this, e, [])
        end
      else Some (false, this, e, [])
  | _, _, _ => Some (false, this, e, [])
  end.
Proof.
  unfold Display. run_M.
  destruct Widget as [wd|], World as [W|],
    (FullScreenCanvasWidget_Pin e this) as [c0|]; try reflexivity.
  destruct (is_Game_or_PIE W).
  - destruct (GetGameViewport W); reflexivity.
  - destruct (WITH_EDITOR env) eqn:HE; simpl; [| reflexivity].
    destruct (LevelEditor_IsModuleLoaded env); simpl; [| reflexivity].
    destruct (ActiveLevelViewport env (TargetViewport this)); simpl;
      rewrite ?HE; reflexivity.
Qed.


Lemma Viewport_Hide_run env this World e :
  Hide env this World e =
  match FullScreenCanvasWidget_Pin e this with
  | Some c =>
      Some (set_FullScreenCanvasWidget None
              (if WITH_EDITOR env then set_OverlayWidgetLevelViewport None this
               else this),
            e,
            match World with
            | Some W =>
                match GetGameViewport W with
                | Some vc =>
                    [RemoveViewportWidgetContent (GameViewportClientId vc) c]
                | None => []
                end
            | None => []
            end ++
            (if WITH_EDITOR env then
               match LevelViewport_Pin env (OverlayWidgetLevelViewport this) with
               | Some lv => [RemoveOverlayWidget (LevelViewportId lv) c]
               | None => []
               end
             else []))
  | None => Some (this, e, [])
  end.
Proof.
  unfold Hide. run_M.
  destruct (FullScreenCanvasWidget_Pin e this) as [c|]; [| reflexivity].
  destruct World as [W|]; [destruct (GetGameViewport W) |];
    destruct (WITH_EDITOR env);
    try destruct (LevelViewport_Pin env (OverlayWidgetLevelViewport this));
    reflexivity.
Qed.

Lemma LevelViewport_Pin_id env i lv :
  LevelViewport_Pin env (Some i) = Some lv -> LevelViewportId lv = i.
Proof.
  unfold LevelViewport_Pin. intros H.
  apply List.find_some in H as [_ H]. apply Nat.eqb_eq in H. exact H.
Qed.

(** What a successful [Display] added, and where. *)
Lemma Viewport_Display_records env this World Widget InDPIScale e this' e' tr :
  Display env this World Widget InDPIScale e = Some (true, this', e', tr) ->
  exists canvas,
    FullScreenCanvasWidget_Pin e' this' = Some canvas /\
    (forall client c,
       In (AddViewportWidgetContent client c) tr ->
       c = canvas /\
       exists W vc, World = Some W /\ GetGameViewport W = Some vc /\
                    client = GameViewportClientId vc) /\
    (forall lv c,
       In (AddOverlayWidget lv c) tr ->
       c = canvas /\ WITH_EDITOR env = true /\
       OverlayWidgetLevelViewport this' = Some lv).
Proof.
  rewrite Viewport_Display_run. cbv zeta. intros Hrun.
  exists (NextObject e).
  assert (forall t0,
            FullScreenCanvasWidget t0 = Some (NextObject e) ->
            FullScreenCanvasWidget_Pin
              (set_LiveCanvases ({[NextObject e]} ∪ LiveCanvases e)
                 (set_NextObject (S (NextObject e)) e)) t0
            = Some (NextObject e)) as Hlive.
  { intros t0 H0. unfold FullScreenCanvasWidget_Pin. rewrite H0. simpl.
    rewrite bool_decide_eq_true_2; [reflexivity | set_solver]. }
  destruct Widget as [wd|]; [| discriminate].
  destruct World as [W|]; [| discriminate].
  destruct (FullScreenCanvasWidget_Pin e this); [discriminate |].
  destruct (is_Game_or_PIE W).
  - destruct (GetGameViewport W) as [vc|] eqn:Hvc; [| discriminate].
    injection Hrun as <- <- <-.
    split; [apply Hlive; reflexivity |]. split.
    + intros client c H. in_inv H. injection H as <- <-. eauto 10.
    + intros lv c H. in_inv H.
  - destruct (WITH_EDITOR env) eqn:HE; [| discriminate].
    destruct (LevelEditor_IsModuleLoaded env); [| discriminate]. cbn [andb] in Hrun.
    destruct (ActiveLevelViewport env (TargetViewport this)) as [lv0|];
      [| discriminate].
    injection Hrun as <- <- <-.
    split; [apply Hlive; reflexivity |]. split.
    + intros client c H. in_inv H.
    + intros lv c H. in_inv H. injection H as <- <-. auto.
Qed.

(** What [Hide] removes when the canvas is alive. *)
Lemma Viewport_Hide_removal env this World e canvas this' e' tr :
  FullScreenCanvasWidget_Pin e this = Some canvas ->
  Hide env this World e = Some (this', e', tr) ->
  (forall W vc,
     World = Some W -> GetGameViewport W = Some vc ->
     In (RemoveViewportWidgetContent (GameViewportClientId vc) canvas) tr) /\
  (forall lv,
     WITH_EDITOR env = true ->
     OverlayWidgetLevelViewport this = Some lv ->
     LevelViewport_Pin env (Some lv) <> None ->
     In (RemoveOverlayWidget lv canvas) tr).
Proof.
  intros Hpin. rewrite Viewport_Hide_run, Hpin. intros [= <- <- <-]. split.
  - intros W vc -> ->. apply in_app_iff. left. left. reflexivity.
  - intros lv -> -> Hlv. apply in_app_iff. right.
    destruct (LevelViewport_Pin env (Some lv)) as [lv'|] eqn:Hlv';
      [| congruence].
    apply LevelViewport_Pin_id in Hlv' as ->. left. reflexivity.
Qed.

(** X1.  [Display] of the viewport path always returns.  It returns true
    exactly when there are a widget and a world, no full-screen canvas of
    this object is alive, and a viewport is at hand: the game viewport for a
    Game or PIE world, and otherwise, in an editor build with the level
    editor loaded, the selected level viewport.  When it returns false it
    has changed neither the object nor the store and has called nothing;
    when it returns true a canvas is alive. *)
Theorem Viewport_Display_all_or_nothing (env : Env) (this : t)
    (World : option UWorld) (Widget : option UUserWidget) (InDPIScale : float)
    (e : Engine) :
  exists b this' e' tr,
    Display env this World Widget InDPIScale e = Some (b, this', e', tr) /\
    (b = true <->
     Widget <> None /\
     FullScreenCanvasWidget_Pin e this = None /\
     exists W, World = Some W /\
       if is_Game_or_PIE W then GetGameViewport W <> None
       else WITH_EDITOR env = true /\ LevelEditor_IsModuleLoaded env = true /\
            ActiveLevelViewport env (TargetViewport this) <> None) /\
    (b = false -> this' = this /\ e' = e /\ tr = []) /\
    (b = true -> FullScreenCanvasWidget_Pin e' this' <> None).
Proof.
  rewrite Viewport_Display_run. cbv zeta.
  destruct Widget as [wd|].
  2:{ eexists _, _, _, _. split; [destruct World; reflexivity |].
      repeat split; try discriminate. intros [H _]; congruence. }
  destruct World as [W|].
  2:{ eexists _, _, _, _. split; [reflexivity |].
      repeat split; try discriminate. intros (_ & _ & W & [=] & _). }
  destruct (FullScreenCanvasWidget_Pin e this) as [c0|] eqn:Hpin.
  { eexists _, _, _, _. split; [reflexivity |].
    repeat split; try discriminate. intros (_ & [=] & _). }
  assert (forall c, FullScreenCanvasWidget_Pin
            (set_LiveCanvases ({[c]} ∪ LiveCanvases e) (set_NextObject (S c) e))
            (set_FullScreenCanvasWidget (Some c) this) = Some c) as Hlive.
  { intros c. unfold FullScreenCanvasWidget_Pin; simpl.
    rewrite bool_decide_eq_true_2; [reflexivity | set_solver]. }
  destruct (is_Game_or_PIE W) eqn:Hg.
  - destruct (GetGameViewport W) as [vc|] eqn:Hvc;
      eexists _, _, _, _; (split; [reflexivity |]).
    + repeat split; try discriminate.
      * exists W. rewrite Hg, Hvc. split; [reflexivity | discriminate].
      * intros _. rewrite Hlive. discriminate.
    + repeat split; try discriminate.
      intros (_ & _ & W' & [= <-] & H). rewrite Hg, Hvc in H. congruence.
  - destruct (WITH_EDITOR env) eqn:HE; simpl.
    2:{ eexists _, _, _, _. split; [reflexivity |].
        repeat split; try discriminate.
        intros (_ & _ & W' & [= <-] & H). rewrite Hg in H.
        destruct H as [H _]; discriminate H. }
    destruct (LevelEditor_IsModuleLoaded env) eqn:HL; simpl.
    2:{ eexists _, _, _, _. split; [reflexivity |].
        repeat split; try discriminate.
        intros (_ & _ & W' & [= <-] & H). rewrite Hg in H.
        destruct H as (_ & H & _); discriminate H. }
    destruct (ActiveLevelViewport env (TargetViewport this)) as [lv|] eqn:Hlv;
      eexists _, _, _, _; (split; [reflexivity |]).
    + repeat split; try discriminate.
      * exists W. rewrite Hg. repeat split; discriminate.
      * intros _.
        change (FullScreenCanvasWidget_Pin
                  (set_LiveCanvases ({[NextObject e]} ∪ LiveCanvases e)
                     (set_NextObject (S (NextObject e)) e))
                  (set_FullScreenCanvasWidget (Some (NextObject e)) this)
                <> None).
        rewrite Hlive. discriminate.
    + repeat split; try discriminate.
      intros (_ & _ & W' & [= <-] & H). rewrite Hg in H.
      destruct H as (_ & _ & H); congruence.
Qed.

(** X2.  A [Display] that returns true made one fresh canvas, at the next
    free address, holding the widget under a DPI scaler of [InDPIScale], and
    made it the object's canvas.  For a Game or PIE world the canvas went to
    the game viewport client and the overlay reference is untouched; for any
    other world it went onto the selected level viewport as an overlay, and
    that viewport is remembered in [OverlayWidgetLevelViewport].  These two
    calls are all it made, in this order. *)
Theorem Viewport_Display_adds_canvas (env : Env) (this : t) (W : UWorld)
    (wd : UUserWidget) (InDPIScale : float) (e : Engine) (this' : t)
    (e' : Engine) (tr : list HostCall) :
  Display env this (Some W) (Some wd) InDPIScale e = Some (true, this', e', tr) ->
  let c := NextObject e in
  FullScreenCanvasWidget this' = Some c /\
  LiveCanvases e' = {[c]} ∪ LiveCanvases e /\
  NextObject e' = S c /\
  TargetViewport this' = TargetViewport this /\
  exists added,
    tr = [SNew_SConstraintCanvas c InDPIScale (UserWidgetId wd); added] /\
    if is_Game_or_PIE W then
      exists vc,
        GetGameViewport W = Some vc /\
        added = AddViewportWidgetContent (GameViewportClientId vc) c /\
        OverlayWidgetLevelViewport this' = OverlayWidgetLevelViewport this
    else
      exists lv,
        ActiveLevelViewport env (TargetViewport this) = Some lv /\
        added = AddOverlayWidget (LevelViewportId lv) c /\
        OverlayWidgetLevelViewport this' = Some (LevelViewportId lv).
Proof.
  rewrite Viewport_Display_run. cbv zeta.
  destruct (FullScreenCanvasWidget_Pin e this); [discriminate |].
  destruct (is_Game_or_PIE W).
  - destruct (GetGameViewport W) as [vc|]; [| discriminate].
    intros [= <- <- <-]. repeat split. eexists. split; [reflexivity |].
    exists vc. auto.
  - destruct (WITH_EDITOR env && LevelEditor_IsModuleLoaded env);
      [| discriminate].
    destruct (ActiveLevelViewport env (TargetViewport this)) as [lv|];
      [| discriminate].
    intros [= <- <- <-]. repeat split. eexists. split; [reflexivity |].
    exists lv. auto.
Qed.

(** The game world of [env_hit]: canvas 100 goes to the viewport client 3. *)
Lemma Viewport_Display_adds_canvas_witness :
  exists this' e' tr,
    Display env_hit ctor (Some world_game) (Some widget_30) 1%Q engine_0
    = Some (true, this', e', tr) /\
    FullScreenCanvasWidget this' = Some 100%nat /\
    tr = [SNew_SConstraintCanvas 100%nat 1%Q 30%nat;
          AddViewportWidgetContent 3%nat 100%nat].
Proof.
  eexists _, _, _. split; [vm_compute; reflexivity |].
  destruct (Viewport_Display_adds_canvas env_hit ctor world_game widget_30 1%Q
              engine_0 _ _ _ eq_refl)
    as (Hc & _ & _ & _ & added & Htr & vc & [= <-] & -> & _).
  split; [exact Hc | exact Htr].
Defined.

(** X3.  After a [Display] that returned true, [Hide] with the same world
    returns, leaves the store alone and clears the canvas reference.  It
    removes the canvas from the game viewport client it was added to, and,
    while the level viewport is still alive, removes the overlay it added
    and forgets the level viewport. *)
Theorem Viewport_Hide_removes_what_Display_added (env : Env) (this : t)
    (W : UWorld) (Widget : option UUserWidget) (InDPIScale : float)
    (e : Engine) (this1 : t) (e1 : Engine) (tr1 : list HostCall) :
  Display env this (Some W) Widget InDPIScale e = Some (true, this1, e1, tr1) ->
  exists this2 tr2,
    Hide env this1 (Some W) e1 = Some (this2, e1, tr2) /\
    FullScreenCanvasWidget this2 = None /\
    (forall client canvas,
       In (AddViewportWidgetContent client canvas) tr1 ->
       In (RemoveViewportWidgetContent client canvas) tr2) /\
    (forall levelViewport canvas,
       In (AddOverlayWidget levelViewport canvas) tr1 ->
       LevelViewport_Pin env (Some levelViewport) <> None ->
       In (RemoveOverlayWidget levelViewport canvas) tr2 /\
       OverlayWidgetLevelViewport this2 = None).
Proof.
  rewrite Viewport_Display_run. cbv zeta.
  destruct Widget as [wd|]; [| discriminate].
  destruct (FullScreenCanvasWidget_Pin e this); [discriminate |].
  assert (forall t0,
            FullScreenCanvasWidget t0 = Some (NextObject e) ->
            FullScreenCanvasWidget_Pin
              (set_LiveCanvases ({[NextObject e]} ∪ LiveCanvases e)
                 (set_NextObject (S (NextObject e)) e)) t0
            = Some (NextObject e)) as Hlive.
  { intros t0 H0. unfold FullScreenCanvasWidget_Pin. rewrite H0. simpl.
    rewrite bool_decide_eq_true_2; [reflexivity | set_solver]. }
  destruct (is_Game_or_PIE W).
  - destruct (GetGameViewport W) as [vc|] eqn:Hvc; [| discriminate].
    intros [= <- <- <-]. rewrite Viewport_Hide_run, Hlive, Hvc by reflexivity.
    eexists _, _. split; [reflexivity |].
    split; [reflexivity |]. split.
    + intros client canvas [[=] | [[= <- <-] | []]]. left; reflexivity.
    + intros lv canvas [[=] | [[=] | []]].
  - destruct (WITH_EDITOR env) eqn:HE; [| discriminate].
    destruct (LevelEditor_IsModuleLoaded env); [| discriminate]. cbn [andb].
    destruct (ActiveLevelViewport env (TargetViewport this)) as [lv|];
      [| discriminate].
    intros [= <- <- <-]. rewrite Viewport_Hide_run, Hlive, HE by reflexivity.
    eexists _, _. split; [reflexivity |].
    split; [reflexivity |]. split.
    + intros client canvas [[=] | [[=] | []]].
    + intros lv' canvas [[=] | [[= <- <-] | []]] Hpin. cbn [OverlayWidgetLevelViewport set_OverlayWidgetLevelViewport set_FullScreenCanvasWidget].
      destruct (LevelViewport_Pin env (Some (LevelViewportId lv))) as [lv2|]
        eqn:Hlv2; [| congruence].
      apply LevelViewport_Pin_id in Hlv2 as ->.
      split; [| reflexivity].
      apply List.in_or_app. right. left. reflexivity.
Qed.

(** The Editor world of [env_editor]: the overlay on level viewport 7 is
    removed again. *)
Lemma Viewport_Hide_removes_what_Display_added_witness :
  exists this1 e1 tr1 this2 tr2,
    Display env_editor ctor (Some world_editor) (Some widget_30) 1%Q engine_0
    = Some (true, this1, e1, tr1) /\
    In (AddOverlayWidget 7%nat 100%nat) tr1 /\
    Hide env_editor this1 (Some world_editor) e1 = Some (this2, e1, tr2) /\
    In (RemoveOverlayWidget 7%nat 100%nat) tr2.
Proof.
  eexists _, _, _.
  destruct (Viewport_Hide_removes_what_Display_added env_editor ctor
              world_editor (Some widget_30) 1%Q engine_0 _ _ _ eq_refl)
    as (this2 & tr2 & Hrun & _ & _ & Hoverlay).
  exists this2, tr2. split; [vm_compute; reflexivity |].
  assert (In (AddOverlayWidget 7%nat 100%nat)
            [SNew_SConstraintCanvas 100%nat 1%Q 30%nat;
             AddOverlayWidget 7%nat 100%nat]) as Hin
    by (right; left; reflexivity).
  split; [exact Hin |]. split; [exact Hrun |].
  apply (Hoverlay 7%nat 100%nat Hin). discriminate.
Defined.

(** X4.  [Hide] of the viewport path always returns and leaves the store
    alone; afterwards no canvas of this object is pinned and the target
    viewport is as before.  With no live canvas it does nothing at all.
    Every call it makes removes the pinned canvas, from a viewport client or
    from a level viewport.  A second [Hide], under any host and world,
    changes nothing and calls nothing. *)
Theorem Viewport_Hide_is_idempotent (env : Env) (this : t)
    (World : option UWorld) (e : Engine) :
  exists this' tr,
    Hide env this World e = Some (this', e, tr) /\
    FullScreenCanvasWidget_Pin e this' = None /\
    TargetViewport this' = TargetViewport this /\
    (FullScreenCanvasWidget_Pin e this = None -> this' = this /\ tr = []) /\
    (forall c, In c tr ->
       exists canvas, FullScreenCanvasWidget_Pin e this = Some canvas /\
         ((exists client, c = RemoveViewportWidgetContent client canvas) \/
          (exists levelViewport, c = RemoveOverlayWidget levelViewport canvas))) /\
    (forall env' World', Hide env' this' World' e = Some (this', e, [])).
Proof.
  rewrite Viewport_Hide_run.
  destruct (FullScreenCanvasWidget_Pin e this) as [canvas|] eqn:Hpin.
  - eexists _, _. split; [reflexivity |].
    split; [reflexivity |].
    split; [destruct (WITH_EDITOR env); reflexivity |].
    split; [discriminate |]. split.
    + intros c Hc. exists canvas. split; [reflexivity |].
      apply List.in_app_or in Hc as [Hc | Hc].
      * left. destruct World as [W|]; [| destruct Hc].
        destruct (GetGameViewport W); [| destruct Hc].
        destruct Hc as [<- | []]. eauto.
      * right. destruct (WITH_EDITOR env); [| destruct Hc].
        destruct (LevelViewport_Pin env _); [| destruct Hc].
        destruct Hc as [<- | []]. eauto.
    + intros env' World'. rewrite Viewport_Hide_run. reflexivity.
  - exists this, []. split; [reflexivity |].
    split; [exact Hpin |]. split; [reflexivity |]. split; [auto |]. split.
    + intros c [].
    + intros env' World'. rewrite Viewport_Hide_run, Hpin. reflexivity.
Qed.

End ViewportExtras.

(** ** The post-process display, run to its end *)

Section PostProcessExtras.
Import FVRFullScreenUserWidget_PostProcess.

Lemma UnRegisterHitTesterWithViewport_run env this e :
  UnRegisterHitTesterWithViewport env this e
  = Some (set_CustomHitTestPath None (set_ViewportWidget None this),
          path_taken_off env this e, unregister_calls env this e).
Proof.
  pose proof (wp_UnRegister env this e) as H.
  apply wp_run in H as (this' & e' & tr & Hrun & -> & -> & -> & _).
  exact Hrun.
Qed.

Lemma ReleaseRenderer_run env this e :
  ReleaseRenderer env this e
  = Some (renderer_released this, path_taken_off env this e,
          renderer_release_calls env this e).
Proof.
  pose proof (wp_ReleaseRenderer env this e) as H.
  apply wp_run in H as (this' & e' & tr & Hrun & -> & -> & -> & _).
  exact Hrun.
Qed.

Lemma ReleasePostProcessComponent_run this e :
  ReleasePostProcessComponent this e
  = Some (component_released this, e, release_component_calls this).
Proof.
  unfold ReleasePostProcessComponent, release_component_calls. run_M.
  destruct (PostProcessComponent this); reflexivity.
Qed.

Lemma PostProcess_Hide_run env this World e :
  Hide env this World e
  = Some (hidden this, path_taken_off env this e, hide_calls env this e).
Proof.
  pose proof (wp_Hide env this World e) as H.
  apply wp_run in H as (this' & e' & tr & Hrun & -> & -> & -> & _).
  exact Hrun.
Qed.

Lemma RegisterHitTesterWithViewport_run env this W e w :
  SlateWindow this = Some w ->
  RegisterHitTesterWithViewport env this W e =
  match hit_test_target env this W e with
  | Some v =>
      let h := NextObject e in
      Some (set_CustomHitTestPath (Some h)
              (set_ViewportWidget (Some (ViewportWidgetId v)) this),
            path_installed this W w h v e,
            [SetCustomHitTestPath (ViewportWidgetId v) (Some h)])
  | None => Some (this, e, register_window_calls env this w)
  end.
Proof.
  intros Hw.
  unfold RegisterHitTesterWithViewport, hit_test_target, register_window_calls,
    path_installed, SViewport_SetCustomHitTestPath.
  fold (engine_viewport_widget env this W).
  rewrite Hw. run_M.
  destruct (bReceiveHardwareInput this) eqn:Hb; cbn [negb andb].
  - destruct (engine_viewport_widget env this W) as [v|]; [| reflexivity].
    destruct (GetCustomHitTestPath v e); [reflexivity |].
    cbn. rewrite Hw. destruct this; cbn in *.
    rewrite alter_insert_eq. reflexivity.
  - destruct (FSlateApplication_IsInitialized env), (engine_viewport_widget env this W);
      reflexivity.
Qed.

Lemma hit_test_target_renderer_built env this W Calc r w e :
  hit_test_target env (renderer_built Calc r w this) W e
  = hit_test_target env this W e.
Proof. destruct this; reflexivity. Qed.

Lemma CreateRenderer_run_None env this World Widget InDPIScale e :
  (forall W, World = Some W -> Widget <> None ->
     IsTextureSizeValid env (CalculateWidgetDrawSize env this W) = false) ->
  CreateRenderer env this World Widget InDPIScale e
  = Some (false, renderer_released this, path_taken_off env this e,
          renderer_release_calls env this e).
Proof.
  intros H. unfold CreateRenderer.
  unfold mbind at 1, M_bind at 1, bind at 1. rewrite ReleaseRenderer_run.
  destruct World as [W|], Widget as [wd|];
    try (run_M; rewrite app_nil_r; destruct this; reflexivity).
  rewrite CalculateWidgetDrawSize_renderer_released. cbv zeta.
  rewrite (H W eq_refl) by discriminate.
  run_M. rewrite app_nil_r. destruct this; reflexivity.
Qed.

Lemma CreateRenderer_run_Some env this W wd InDPIScale e :
  let Calc := CalculateWidgetDrawSize env this W in
  IsTextureSizeValid env Calc = true ->
  let e0 := path_taken_off env this e in
  let r := NextObject e in
  let w := S r in
  let built := renderer_built Calc r w this in
  let '(registered, rt, e2, reg) :=
    match hit_test_target env this W e0 with
    | Some v =>
        let h := S w in
        (set_CustomHitTestPath (Some h)
           (set_ViewportWidget (Some (ViewportWidgetId v)) built),
         S h,
         set_CustomHitTestPaths
           (<[ViewportWidgetId v := h]> (CustomHitTestPaths e0))
           (set_HitTesters
              (<[h := FVRWidgetPostProcessHitTester.SetWidgetDrawSize Calc
                        (FVRWidgetPostProcessHitTester.ctor
                           (Some (WorldId W)) (Some w))]> (HitTesters e)) e0),
         [SetCustomHitTestPath (ViewportWidgetId v) (Some h)])
    | None => (built, S w, e0, register_window_calls env this w)
    end in
  CreateRenderer env this (Some W) (Some wd) InDPIScale e
  = Some (true, set_WidgetRenderTarget (Some rt) registered,
          set_TextureRenderTargets
            (<[rt := {| ClearColor := ActualBackgroundColor this |}]>
               (TextureRenderTargets e))
            (set_NextObject (S rt) e2),
          renderer_release_calls env this e ++
          window_calls this wd InDPIScale Calc r w ++ reg ++
          parent_calls W wd w ++ target_calls this W Calc rt).
Proof.
  intros Calc Hvalid e0 r w built.
  unfold CreateRenderer.
  unfold mbind at 1, M_bind at 1, bind at 1. rewrite ReleaseRenderer_run.
  rewrite CalculateWidgetDrawSize_renderer_released. fold Calc. cbv zeta.
  rewrite Hvalid. fold e0.
  destruct (path_taken_off_frame env this e) as (F1 & _ & F3 & _ & F5).
  fold e0 in F1, F3, F5.
  unfold mbind, M_bind, bind.
  cbv beta iota zeta delta [NewObject emit mret M_ret ret].
  erewrite RegisterHitTesterWithViewport_run by reflexivity.
  match goal with
  | |- context [hit_test_target env ?t0 W ?e1] =>
      lazymatch t0 with
      | this => fail
      | _ =>
          change (hit_test_target env t0 W e1)
            with (hit_test_target env this W e0)
      end
  end.
  unfold parent_calls, target_calls, window_calls, ActualBackgroundColor,
    register_window_calls, path_installed.
  subst r w built. rewrite <- F1, <- F3, <- F5. clearbody e0.
  destruct (hit_test_target env this W e0) as [v|]; cbv zeta.
  - destruct (negb (IsDesignTime wd) && IsGameWorld W);
      [destruct (GetGameInstance W) as [gi|];
         [destruct (GetGameViewportClient gi) |] |].
    all: destruct this; cbn.
    all: destruct PostProcessMaterialInstance0, bRenderToTextureOnly0; cbn.
    all: rewrite ?app_nil_r; reflexivity.
  - destruct (negb (IsDesignTime wd) && IsGameWorld W);
      [destruct (GetGameInstance W) as [gi|];
         [destruct (GetGameViewportClient gi) |] |].
    all: destruct this; cbn.
    all: destruct PostProcessMaterialInstance0, bRenderToTextureOnly0; cbn.
    all: rewrite ?app_nil_r, <- ?app_assoc; reflexivity.
Qed.

Lemma CreateRenderer_total env this World Widget InDPIScale e :
  exists b this' e' tr,
    CreateRenderer env this World Widget InDPIScale e = Some (b, this', e', tr).
Proof.
  pose proof (wp_CreateRenderer env this World Widget InDPIScale e) as H.
  apply wp_run in H as ([b this'] & e' & tr & Hrun & _). eauto.
Qed.

Lemma CreatePostProcessComponent_total env this World e :
  exists b this' e' tr,
    CreatePostProcessComponent env this World e = Some (b, this', e', tr).
Proof.
  pose proof (wp_CreatePostProcessComponent_frame env this World e) as H.
  apply wp_run in H as ([b this'] & e' & tr & Hrun & _). eauto.
Qed.

(** [Display] is [CreateRenderer], followed by
    [CreatePostProcessComponent] unless it renders to the texture only. *)
Lemma PostProcess_Display_split env this World Widget bIn InDPIScale e :
  exists bOk this1 e1 t1,
    CreateRenderer env (set_bRenderToTextureOnly bIn this) World Widget
      InDPIScale e = Some (bOk, this1, e1, t1) /\
    bRenderToTextureOnly this1 = bIn /\
    if bIn then
      Display env this World Widget bIn InDPIScale e = Some (bOk, this1, e1, t1)
    else
      exists b2 this2 e2 t2,
        CreatePostProcessComponent env this1 World e1 = Some (b2, this2, e2, t2) /\
        Display env this World Widget bIn InDPIScale e
        = Some (bOk && b2, this2, e2, t1 ++ t2).
Proof.
  pose proof (wp_CreateRenderer env (set_bRenderToTextureOnly bIn this) World
                Widget InDPIScale e) as H.
  apply wp_run in H as ([bOk this1] & e1 & t1 & Hrun & (_ & _ & _ & _ & Hb) & _).
  simpl in Hb.
  exists bOk, this1, e1, t1. split; [exact Hrun |].
  assert (bRenderToTextureOnly this1 = bIn) as Hb'
    by (rewrite Hb; destruct this; reflexivity).
  split; [exact Hb' |].
  unfold Display. cbv zeta. unfold mbind, M_bind, bind. rewrite Hrun, Hb'.
  destruct bIn; cbn [negb].
  - unfold mret, M_ret, ret. rewrite app_nil_r. reflexivity.
  - destruct (CreatePostProcessComponent_total env this1 World e1)
      as (b2 & this2 & e2 & t2 & Hrun2).
    exists b2, this2, e2, t2. split; [exact Hrun2 |].
    rewrite Hrun2. unfold mret, M_ret, ret. rewrite app_nil_r. reflexivity.
Qed.

Lemma CreateRenderer_result env this World Widget InDPIScale e b this1 e1 t1 :
  CreateRenderer env this World Widget InDPIScale e = Some (b, this1, e1, t1) ->
  b = isSome (WidgetRenderTarget this1) /\
  (b = true <->
   Widget <> None /\
   exists W, World = Some W /\
     IsTextureSizeValid env (CalculateWidgetDrawSize env this W) = true) /\
  (b = true ->
   isSome (WidgetRenderer this1) = true /\ isSome (SlateWindow this1) = true) /\
  (b = false ->
   this1 = renderer_released this /\ e1 = path_taken_off env this e) /\
  PostProcessMaterial this1 = PostProcessMaterial this /\
  PostProcessComponent this1 = PostProcessComponent this /\
  PostProcessMaterialInstance this1 = PostProcessMaterialInstance this.
Proof.
  intros Hrun.
  eapply wp_Some in Hrun; [| apply wp_CreateRenderer].
  destruct Hrun as ((Hm & _) & Hc & Hi & _ & _ & _ & Hb & Hcase).
  simpl in *.
  split; [exact Hb |].
  assert (forall W, World = Some W -> Widget <> None ->
            IsTextureSizeValid env (CalculateWidgetDrawSize env this W) = true ->
            isSome (WidgetRenderTarget this1) = true /\
            isSome (SlateWindow this1) = true /\
            isSome (WidgetRenderer this1) = true) as Hyes.
  { intros W -> Hwd Hv. destruct Widget; [| congruence].
    cbv zeta in Hcase. rewrite Hv in Hcase. tauto. }
  assert ((Widget <> None /\
           exists W, World = Some W /\
             IsTextureSizeValid env (CalculateWidgetDrawSize env this W) = true)
          \/ (this1 = renderer_released this /\
              e1 = path_taken_off env this e)) as [Hy | Hn].
  { destruct World as [W|], Widget as [wd|]; cbv zeta in Hcase;
      try (right; tauto).
    destruct (IsTextureSizeValid env _) eqn:Hv; [| right; tauto].
    left. split; [discriminate | eauto]. }
  - destruct Hy as (Hwd & W & HW & Hv).
    destruct (Hyes W HW Hwd Hv) as (H1 & H2 & H3).
    rewrite Hb, H1. repeat split; eauto; discriminate.
  - destruct Hn as (-> & ->). subst b.
    split; [| split; [discriminate | auto]].
    split; [destruct this; discriminate |].
    intros (Hwd & W & HW & Hv). destruct (Hyes W HW Hwd Hv) as (H1 & _).
    destruct this; discriminate H1.
Qed.

Lemma CreatePostProcessComponent_result env this World e b this1 e1 t1 :
  CreatePostProcessComponent env this World e = Some (b, this1, e1, t1) ->
  b = isSome (PostProcessComponent this1) /\
  (b = true <-> World <> None /\ PostProcessMaterial this <> None) /\
  (b = true -> isSome (PostProcessMaterialInstance this1) = true).
Proof.
  intros Hrun.
  destruct World as [W|];
    [destruct (PostProcessMaterial this) as [m|] eqn:Hm |].
  - eapply wp_Some in Hrun;
      [| apply (wp_CreatePostProcessComponent_Some env this W m e Hm)].
    destruct Hrun as ([= -> ->] & _).
    repeat split; auto; discriminate.
  - eapply wp_Some in Hrun;
      [| apply wp_CreatePostProcessComponent_None; auto].
    destruct Hrun as ([= -> ->] & _).
    repeat split; auto; try discriminate. intros [_ H]; congruence.
  - eapply wp_Some in Hrun;
      [| apply wp_CreatePostProcessComponent_None; auto].
    destruct Hrun as ([= -> ->] & _).
    repeat split; auto; try discriminate. intros [H _]; congruence.
Qed.

Lemma TickRenderer_run env this World DeltaSeconds e :
  TickRenderer env this World DeltaSeconds e =
  match World with
  | None => None
  | Some W =>
      match WidgetRenderTarget this with
      | None => Some (this, e, [])
      | Some rt =>
          let New := CalculateWidgetDrawSize env this W in
          if FIntPoint.neq New (CurrentWidgetDrawSize this) then
            if IsTextureSizeValid env New then
              match SlateWindow this with
              | None => None
              | Some w =>
                  Some (set_CurrentWidgetDrawSize New this, resized New this e,
                        [ InitCustomFormat rt (FIntPoint.X New) (FIntPoint.Y New)
                            PF_B8G8R8A8 false;
                          UpdateResourceImmediate rt;
                          Resize w New ] ++
                        draw_call (set_CurrentWidgetDrawSize New this)
                          DeltaSeconds)
              end
            else
              Some (hidden this, path_taken_off env this e,
                    hide_calls env this e)
          else
            match WidgetRenderer this, SlateWindow this with
            | Some r, None => None
            | _, _ => Some (this, e, draw_call this DeltaSeconds)
            end
      end
  end.
Proof.
  unfold TickRenderer.
  destruct World as [W|]; [| reflexivity].
  unfold mbind at 1, M_bind at 1, bind at 1. cbn [deref].
  unfold ret at 1.
  destruct (WidgetRenderTarget this) as [rt|] eqn:Hrt; [| reflexivity].
  cbv zeta. unfold mbind at 1, M_bind at 1, bind at 1.
  destruct (FIntPoint.neq _ _).
  - destruct (IsTextureSizeValid env _).
    + destruct (SlateWindow this) as [w|] eqn:Hw.
      * unfold resized, draw_call. destruct this; cbn in *. subst.
        destruct CustomHitTestPath0, WidgetRenderer0; reflexivity.
      * destruct this; cbn in *. subst. reflexivity.
    + rewrite PostProcess_Hide_run. cbv beta iota.
      change (WidgetRenderer (hidden this)) with (@None ObjectPtr).
      cbv beta iota delta [mret M_ret ret]. rewrite app_nil_r. reflexivity.
  - unfold draw_call. rewrite Hrt.
    cbv beta iota delta [mret M_ret ret].
    destruct (WidgetRenderer this), (SlateWindow this); run_M; rewrite ?Hrt;
      reflexivity.
Qed.


(** X5.  [Display] of the post-process path always returns and records
    [bInRenderToTextureOnly].  Its two halves are built independently and
    nothing is rolled back: the render target exists afterwards exactly when
    there were a world, a widget and a valid calculated size, and with it
    the renderer and the window; unless it renders to the texture only, the
    component exists exactly when there were a world and a material, and
    with it the material instance.  The result is true exactly when the
    render target exists and, unless it renders to the texture only, the
    component does too. *)
Theorem PostProcess_Display_result (env : Env) (this : t)
    (World : option UWorld) (Widget : option UUserWidget)
    (bInRenderToTextureOnly : bool) (InDPIScale : float) (e : Engine) :
  exists b this' e' tr,
    Display env this World Widget bInRenderToTextureOnly InDPIScale e
    = Some (b, this', e', tr) /\
    bRenderToTextureOnly this' = bInRenderToTextureOnly /\
    (WidgetRenderTarget this' <> None <->
     Widget <> None /\
     exists W, World = Some W /\
       IsTextureSizeValid env (CalculateWidgetDrawSize env this W) = true) /\
    (WidgetRenderTarget this' <> None ->
     WidgetRenderer this' <> None /\ SlateWindow this' <> None) /\
    (bInRenderToTextureOnly = false ->
     (PostProcessComponent this' <> None <->
      World <> None /\ PostProcessMaterial this <> None) /\
     (PostProcessComponent this' <> None ->
      PostProcessMaterialInstance this' <> None)) /\
    (b = true <->
     WidgetRenderTarget this' <> None /\
     (bInRenderToTextureOnly = true \/ PostProcessComponent this' <> None)).
Proof.
  destruct (PostProcess_Display_split env this World Widget
              bInRenderToTextureOnly InDPIScale e)
    as (bOk & this1 & e1 & t1 & Hrun1 & Hb & Hcase).
  apply CreateRenderer_result in Hrun1
    as (HbOk & Hiff & Hyes & _ & Hm & _ & _).
  change (CalculateWidgetDrawSize env
            (set_bRenderToTextureOnly bInRenderToTextureOnly this))
    with (CalculateWidgetDrawSize env this) in Hiff.
  change (PostProcessMaterial
            (set_bRenderToTextureOnly bInRenderToTextureOnly this))
    with (PostProcessMaterial this) in Hm.
  assert (forall T (o : option T), o <> None <-> isSome o = true) as Hsome
    by (intros T [x|]; simpl; split; congruence).
  destruct bInRenderToTextureOnly.
  - exists bOk, this1, e1, t1. split; [exact Hcase |].
    split; [exact Hb |].
    rewrite Hsome, <- HbOk.
    split; [exact Hiff |].
    split; [rewrite !Hsome; exact Hyes |].
    split; [discriminate |]. tauto.
  - destruct Hcase as (b2 & this2 & e2 & t2 & Hrun2 & Hrun).
    pose proof Hrun2 as Hframe.
    eapply wp_Some in Hframe; [| apply wp_CreatePostProcessComponent_frame].
    destruct Hframe as ((_ & _ & _ & _ & Hb2) & Hrt & Hsw & Hr & _).
    simpl in *.
    apply CreatePostProcessComponent_result in Hrun2 as (Hb2' & Hiff2 & Hyes2).
    exists (bOk && b2), this2, e2, (t1 ++ t2). split; [exact Hrun |].
    split; [congruence |].
    rewrite !Hsome in *. rewrite Hrt, Hsw, Hr, <- HbOk, <- Hb2', Hm in *.
    split; [exact Hiff |]. split; [exact Hyes |].
    split; [intros _; split; [exact Hiff2 | exact Hyes2] |].
    rewrite andb_true_iff. split; [tauto |].
    intros [H1 [H2 | H2]]; [discriminate H2 | auto].
Qed.




(** X7.  Under the same conditions [CreateRenderer] makes a renderer with
    gamma correction and prepass, then a virtual window of the calculated
    size with [bWindowFocusable], the converted [WindowVisibility] and the
    widget under a DPI scaler as content, in this order.  The window gets
    the game viewport widget as parent exactly when the widget is not in
    design time, the world is a game world and its game instance has a
    viewport client.  The window is registered with Slate exactly when
    hardware input is off and Slate is initialised. *)
Theorem CreateRenderer_window (env : Env) (this : t) (W : UWorld)
    (wd : UUserWidget) (InDPIScale : float) (e : Engine) :
  let Calc := CalculateWidgetDrawSize env this W in
  IsTextureSizeValid env Calc = true ->
  exists this' e' tr r w before after,
    CreateRenderer env this (Some W) (Some wd) InDPIScale e
    = Some (true, this', e', tr) /\
    WidgetRenderer this' = Some r /\
    SlateWindow this' = Some w /\
    tr = before ++
         [ new_FWidgetRenderer r true;
           SetIsPrepassNeeded r true;
           SNew_SVirtualWindow w Calc;
           SetIsFocusable w (bWindowFocusable this);
           SetVisibility w
             match WindowVisibility this with
             | WV_Visible => Visible
             | WV_SelfHitTestInvisible => SelfHitTestInvisible
             end;
           SetContent w InDPIScale (UserWidgetId wd) ] ++ after /\
    (forall p,
       In (AssignParentWidget w p) tr <->
       IsDesignTime wd = false /\ IsGameWorld W = true /\
       exists GameInstance GameViewportClient,
         GetGameInstance W = Some GameInstance /\
         GetGameViewportClient GameInstance = Some GameViewportClient /\
         p = GetGameViewportWidget GameViewportClient) /\
    (In (RegisterVirtualWindow w) tr <->
     bReceiveHardwareInput this = false /\
     FSlateApplication_IsInitialized env = true).
Proof.
  intros Calc Hvalid.
  pose proof (CreateRenderer_run_Some env this W wd InDPIScale e Hvalid) as Hrun.
  cbv zeta in Hrun. fold Calc in Hrun.
  set (r := NextObject e) in *. set (w := S r) in *.
  assert (forall p,
            In (AssignParentWidget w p) (parent_calls W wd w) <->
            IsDesignTime wd = false /\ IsGameWorld W = true /\
            exists GameInstance GameViewportClient,
              GetGameInstance W = Some GameInstance /\
              GetGameViewportClient GameInstance = Some GameViewportClient /\
              p = GetGameViewportWidget GameViewportClient) as Hparent.
  { intros p. unfold parent_calls.
    destruct (IsDesignTime wd), (IsGameWorld W); cbn [negb andb];
      try (split; [intros [] | intros (H1 & H2 & _); discriminate]).
    destruct (GetGameInstance W) as [gi|];
      [| split; [intros [] | intros (_ & _ & ? & ? & [=] & _)]].
    destruct (GetGameViewportClient gi) as [gvc|] eqn:Hgvc;
      [| split; [intros [] | intros (_ & _ & ? & ? & [= <-] & H & _);
                             congruence]].
    split.
    - intros [[= <-] | []]. eauto 10.
    - intros (_ & _ & ? & ? & [= <-] & H & ->).
      rewrite Hgvc in H. injection H as <-. left; reflexivity. }
  assert (forall p, ~ In (AssignParentWidget w p) (renderer_release_calls env this e))
    as Hrel1.
  { intros p H. unfold renderer_release_calls, unregister_calls in H. in_inv H. }
  assert (~ In (RegisterVirtualWindow w) (renderer_release_calls env this e))
    as Hrel2.
  { intros H. unfold renderer_release_calls, unregister_calls in H. in_inv H. }
  assert (forall rt p, ~ In (AssignParentWidget w p) (target_calls this W Calc rt))
    as Htar1.
  { intros rt p H. unfold target_calls in H. in_inv H. }
  assert (forall rt, ~ In (RegisterVirtualWindow w) (target_calls this W Calc rt))
    as Htar2.
  { intros rt H. unfold target_calls in H. in_inv H. }
  assert (~ In (RegisterVirtualWindow w) (parent_calls W wd w)) as Hpar2.
  { intros H. unfold parent_calls in H. in_inv H. }
  assert (window_calls this wd InDPIScale Calc r w =
          [ new_FWidgetRenderer r true;
            SetIsPrepassNeeded r true;
            SNew_SVirtualWindow w Calc;
            SetIsFocusable w (bWindowFocusable this);
            SetVisibility w
              match WindowVisibility this with
              | WV_Visible => Visible
              | WV_SelfHitTestInvisible => SelfHitTestInvisible
              end;
            SetContent w InDPIScale (UserWidgetId wd) ]) as Hwin
    by (unfold window_calls; destruct (WindowVisibility this); reflexivity).
  rewrite Hwin in Hrun.
  destruct (hit_test_target env this W (path_taken_off env this e)) as [v|] eqn:Htarget.
  - eexists _, _, _, r, w, _, _. split; [exact Hrun |].
    split; [destruct this; reflexivity |].
    split; [destruct this; reflexivity |].
    split; [reflexivity |].
    assert (bReceiveHardwareInput this = true) as Hhw.
    { unfold hit_test_target in Htarget.
      destruct (engine_viewport_widget env this W); [| discriminate].
      destruct (bReceiveHardwareInput this); [reflexivity | discriminate]. }
    split.
    + intros p. rewrite <- Hparent. rewrite !in_app_iff. cbn [In].
      specialize (Hrel1 p). specialize (Htar1 (S (S w)) p).
      intuition discriminate.
    + rewrite !in_app_iff. cbn [In]. rewrite Hhw.
      specialize (Htar2 (S (S w))).
      intuition discriminate.
  - eexists _, _, _, r, w, _, _. split; [exact Hrun |].
    split; [destruct this; reflexivity |].
    split; [destruct this; reflexivity |].
    split; [reflexivity |].
    split.
    + intros p. rewrite <- Hparent. rewrite !in_app_iff. cbn [In].
      specialize (Hrel1 p). specialize (Htar1 (S w) p).
      assert (~ In (AssignParentWidget w p) (register_window_calls env this w))
        as Hreg by (intros H; unfold register_window_calls in H; in_inv H).
      intuition discriminate.
    + rewrite !in_app_iff. cbn [In].
      specialize (Htar2 (S w)).
      unfold register_window_calls.
      destruct (bReceiveHardwareInput this),
        (FSlateApplication_IsInitialized env); cbn [negb andb In];
        intuition discriminate.
Qed.


Lemma ViewportWidget_Pin_id env i v :
  ViewportWidget_Pin env (Some i) = Some v -> ViewportWidgetId v = i.
Proof.
  unfold ViewportWidget_Pin. intros H.
  apply List.find_some in H as [_ H]. apply Nat.eqb_eq in H. exact H.
Qed.

(** X8.  [RegisterHitTesterWithViewport], called with a window, registers
    the window with Slate exactly when hardware input is off and Slate is
    initialised.  It sets a hit-test path only with hardware input on, only
    on the engine viewport widget selected for the world, and only when that
    widget has none: the path is a new hit tester at the next free address,
    bound to the world and the window, with [CurrentWidgetDrawSize] and a
    zero last hit location, and the object remembers widget and path.  When
    no path is set, object and store are unchanged; a path that is already
    installed is never replaced; with hardware input on and a widget that
    carries no path, setting the path is the one call made. *)
Theorem RegisterHitTesterWithViewport_installs (env : Env) (this : t)
    (W : UWorld) (e : Engine) (w : ObjectPtr) (this' : t) (e' : Engine)
    (tr : list HostCall) :
  SlateWindow this = Some w ->
  RegisterHitTesterWithViewport env this W e = Some (this', e', tr) ->
  (In (RegisterVirtualWindow w) tr <->
   bReceiveHardwareInput this = false /\
   FSlateApplication_IsInitialized env = true) /\
  (forall v p,
     In (SetCustomHitTestPath v p) tr ->
     bReceiveHardwareInput this = true /\
     exists EngineViewportWidget,
       engine_viewport_widget env this W = Some EngineViewportWidget /\
       GetCustomHitTestPath EngineViewportWidget e = None /\
       v = ViewportWidgetId EngineViewportWidget /\
       p = Some (NextObject e) /\
       ViewportWidget this' = Some v /\
       CustomHitTestPath this' = p /\
       GetCustomHitTestPath EngineViewportWidget e' = p /\
       HitTesters e' !! NextObject e
       = Some {| FVRWidgetPostProcessHitTester.World := Some (WorldId W);
                 FVRWidgetPostProcessHitTester.SlateWindow := Some w;
                 FVRWidgetPostProcessHitTester.WidgetDrawSize :=
                   CurrentWidgetDrawSize this;
                 FVRWidgetPostProcessHitTester.LastLocalHitLocation :=
                   FVector2D.ZeroVector |}) /\
  ((forall v p, ~ In (SetCustomHitTestPath v p) tr) ->
   this' = this /\ e' = e) /\
  (forall EngineViewportWidget,
     engine_viewport_widget env this W = Some EngineViewportWidget ->
     GetCustomHitTestPath EngineViewportWidget e <> None ->
     this' = this /\ e' = e /\ forall v p, ~ In (SetCustomHitTestPath v p) tr) /\
  (bReceiveHardwareInput this = true ->
   forall EngineViewportWidget,
     engine_viewport_widget env this W = Some EngineViewportWidget ->
     GetCustomHitTestPath EngineViewportWidget e = None ->
     tr = [SetCustomHitTestPath (ViewportWidgetId EngineViewportWidget)
             (Some (NextObject e))]).
Proof.
  intros Hw Hrun.
  rewrite (RegisterHitTesterWithViewport_run env this W e w Hw) in Hrun.
  unfold hit_test_target in Hrun.
  destruct (engine_viewport_widget env this W) as [vw|] eqn:Hvw.
  - destruct (bReceiveHardwareInput this) eqn:Hhw.
    + destruct (GetCustomHitTestPath vw e) as [p0|] eqn:Hpath.
      * injection Hrun as <- <- <-. unfold register_window_calls.
        rewrite Hhw. cbn [negb andb].
        split; [split; [intros [] | intros [[=] _]] |].
        split; [intros v p [] |]. split; [auto |].
        split; [intros vw' _ _; repeat split; auto |].
        intros _ vw' [= <-] Hnone. congruence.
      * cbv zeta in Hrun. injection Hrun as <- <- <-.
        split; [split; [intros [[=] | []] | intros [[=] _]] |].
        split.
        { intros v p [[= <- <-] | []]. split; [reflexivity |].
          exists vw. repeat split; auto.
          - unfold GetCustomHitTestPath, path_installed. simpl.
            apply lookup_insert_eq.
          - unfold path_installed. simpl. rewrite lookup_insert_eq.
            reflexivity. }
        split.
        { intros Hno. destruct (Hno _ _ (or_introl eq_refl)). }
        split; [intros vw' [= <-] Hne; congruence |].
        intros _ vw' [= <-] _. reflexivity.
    + injection Hrun as <- <- <-. unfold register_window_calls.
      rewrite Hhw. cbn [negb andb].
      destruct (FSlateApplication_IsInitialized env).
      * split; [split; [auto | intros _; left; reflexivity] |].
        split; [intros v p [[=] | []] |]. split; [auto |].
        split; [| intros [=]].
        intros vw' _ _. repeat split; auto. intros v p [[=] | []].
      * split; [split; [intros [] | intros [_ [=]]] |].
        split; [intros v p [] |]. split; [auto |].
        split; [| intros [=]].
        intros vw' _ _. repeat split; auto.
  - injection Hrun as <- <- <-. unfold register_window_calls.
    split.
    { destruct (bReceiveHardwareInput this),
        (FSlateApplication_IsInitialized env); cbn [negb andb];
        (split; [intros H; in_inv H; auto | intros [H1 H2]; try discriminate]).
      left; reflexivity. }
    split; [intros v p H; in_inv H |]. split; [auto |].
    split; [intros vw' [=] | intros _ vw' [=]].
Qed.

(** Hardware input is on in [pp_hardware_built], and the game viewport
    widget 4 of [env_hit] carries no path: the hit tester 102 is made for
    the game world and the window 101, with the size 1920 x 1080, and is
    installed on the viewport widget 4. *)
Lemma RegisterHitTesterWithViewport_installs_witness :
  SlateWindow pp_hardware_built = Some 101%nat /\
  exists this' e' tr,
    RegisterHitTesterWithViewport env_hit pp_hardware_built world_game
      (set_NextObject 102%nat engine_0)
    = Some (this', e', tr) /\
    tr = [SetCustomHitTestPath 4%nat (Some 102%nat)] /\
    bReceiveHardwareInput pp_hardware_built = true /\
    ViewportWidget this' = Some 4%nat /\
    CustomHitTestPath this' = Some 102%nat /\
    GetCustomHitTestPath {| ViewportWidgetId := 4%nat |} e' = Some 102%nat /\
    HitTesters e' !! 102%nat
    = Some {| FVRWidgetPostProcessHitTester.World := Some 1%nat;
              FVRWidgetPostProcessHitTester.SlateWindow := Some 101%nat;
              FVRWidgetPostProcessHitTester.WidgetDrawSize :=
                FIntPoint.mk 1920 1080;
              FVRWidgetPostProcessHitTester.LastLocalHitLocation :=
                FVector2D.ZeroVector |}.
Proof.
  split; [reflexivity |].
  destruct (RegisterHitTesterWithViewport env_hit pp_hardware_built world_game
              (set_NextObject 102%nat engine_0))
    as [[[this' e'] tr]|] eqn:Hrun; [| vm_compute in Hrun; discriminate Hrun].
  exists this', e', tr. split; [reflexivity |].
  assert (tr = [SetCustomHitTestPath 4%nat (Some 102%nat)]) as Htr
    by (vm_compute in Hrun; injection Hrun as _ _ <-; reflexivity).
  split; [exact Htr |].
  destruct (RegisterHitTesterWithViewport_installs env_hit pp_hardware_built
              world_game (set_NextObject 102%nat engine_0) 101%nat this' e' tr
              eq_refl Hrun) as (_ & Hset & _).
  destruct (Hset 4%nat (Some 102%nat)) as (Hhw & vw & Hvw & _ & Hid & _ & H1 & H2 & H3 & H4).
  { rewrite Htr. left. reflexivity. }
  injection Hvw as <-.
  repeat split; assumption.
Defined.

(** X9.  After [RegisterHitTesterWithViewport],
    [UnRegisterHitTesterWithViewport] under any host, and whatever paths
    the host has meanwhile put on the viewport widgets, returns, leaves the
    objects of the store alone and clears the remembered viewport widget and
    path.  The path the registration installed is on the viewport widget
    when the registration returns.  The unregistration takes it off exactly
    when that widget is still alive and still carries it, and then the
    widget has no path; otherwise the paths stay as the host left them.  A
    window that was registered with Slate is unregistered when Slate is
    initialised. *)
Theorem UnRegister_clears_own_path (env env' : Env) (this : t) (W : UWorld)
    (e : Engine) (w : ObjectPtr) (this1 : t) (e1 : Engine)
    (tr1 : list HostCall) (paths : gmap ObjectPtr ObjectPtr) :
  SlateWindow this = Some w ->
  RegisterHitTesterWithViewport env this W e = Some (this1, e1, tr1) ->
  exists this2 e2 tr2,
    UnRegisterHitTesterWithViewport env' this1
      (set_CustomHitTestPaths paths e1) = Some (this2, e2, tr2) /\
    same_objects e1 e2 /\
    ViewportWidget this2 = None /\
    CustomHitTestPath this2 = None /\
    (forall v h,
       In (SetCustomHitTestPath v (Some h)) tr1 ->
       CustomHitTestPaths e1 !! v = Some h /\
       (In (SetCustomHitTestPath v None) tr2 <->
        exists vw, ViewportWidget_Pin env' (Some v) = Some vw /\
                   paths !! v = Some h) /\
       (In (SetCustomHitTestPath v None) tr2 ->
        CustomHitTestPaths e2 = delete v paths) /\
       (~ In (SetCustomHitTestPath v None) tr2 ->
        CustomHitTestPaths e2 = paths)) /\
    (In (RegisterVirtualWindow w) tr1 ->
     FSlateApplication_IsInitialized env' = true ->
     In (UnregisterVirtualWindow w) tr2).
Proof.
  intros Hw Hrun.
  rewrite (RegisterHitTesterWithViewport_run env this W e w Hw) in Hrun.
  rewrite UnRegisterHitTesterWithViewport_run.
  eexists _, _, _. split; [reflexivity |].
  split.
  { destruct (path_taken_off_frame env' this1 (set_CustomHitTestPaths paths e1))
      as (F1 & F2 & F3 & F4 & F5).
    repeat split; assumption. }
  split; [reflexivity |]. split; [reflexivity |].
  unfold unregister_calls, path_taken_off, own_path_on, GetCustomHitTestPath.
  destruct (hit_test_target env this W e) as [vw0|].
  - cbv zeta in Hrun. injection Hrun as <- <- <-.
    cbn [ViewportWidget CustomHitTestPath set_CustomHitTestPath
           set_ViewportWidget SlateWindow CustomHitTestPaths
           set_CustomHitTestPaths].
    split.
    + intros v h [[= <- <-] | []].
      split; [unfold path_installed; simpl; apply lookup_insert_eq |].
      rewrite in_app_iff.
      destruct (ViewportWidget_Pin env' (Some (ViewportWidgetId vw0)))
        as [vw|] eqn:Hpin.
      * pose proof (ViewportWidget_Pin_id _ _ _ Hpin) as Hid.
        destruct vw as [i]. cbn in Hid. subst i.
        cbn [ViewportWidgetId].
        case_bool_decide as Hpath.
        -- split; [split; [eauto | intros _; right; left; reflexivity] |].
           split; [reflexivity |].
           intros Hno. exfalso. apply Hno. right. left. reflexivity.
        -- split; [split |].
           ++ intros [H | []]. in_inv H.
           ++ intros (vw' & [= <-] & H). congruence.
           ++ split; [| reflexivity].
              intros [H | []]. in_inv H.
      * split; [split |].
        -- intros [H | []]. in_inv H.
        -- intros (vw' & [=] & _).
        -- split; [| reflexivity].
           intros [H | []]. in_inv H.
    + intros [[=] | []].
  - injection Hrun as <- <- <-. split.
    + intros v h H. unfold register_window_calls in H. in_inv H.
    + intros H Hinit. unfold register_window_calls in H.
      rewrite Hw, Hinit. left; reflexivity.
Qed.

(** The hit tester 102 that was installed on the viewport widget 4 is taken
    off again while the widget still carries it; and the window 101 that was
    registered with Slate, with hardware input off, is unregistered. *)
Lemma UnRegister_clears_own_path_witness :
  (exists this1 e1 tr1 this2 e2 tr2,
     RegisterHitTesterWithViewport env_hit pp_hardware_built world_game
       (set_NextObject 102%nat engine_0) = Some (this1, e1, tr1) /\
     In (SetCustomHitTestPath 4%nat (Some 102%nat)) tr1 /\
     CustomHitTestPaths e1 !! 4%nat = Some 102%nat /\
     UnRegisterHitTesterWithViewport env_hit this1
       (set_CustomHitTestPaths (CustomHitTestPaths e1) e1)
     = Some (this2, e2, tr2) /\
     In (SetCustomHitTestPath 4%nat None) tr2 /\
     CustomHitTestPaths e2 = delete 4%nat (CustomHitTestPaths e1)) /\
  (exists this1 e1 tr1 this2 e2 tr2,
     RegisterHitTesterWithViewport env_editor pp_live world_editor engine_0
     = Some (this1, e1, tr1) /\
     In (RegisterVirtualWindow 101%nat) tr1 /\
     UnRegisterHitTesterWithViewport env_editor this1
       (set_CustomHitTestPaths (CustomHitTestPaths e1) e1)
     = Some (this2, e2, tr2) /\
     In (UnregisterVirtualWindow 101%nat) tr2).
Proof.
  split.
  - destruct (RegisterHitTesterWithViewport env_hit pp_hardware_built
                world_game (set_NextObject 102%nat engine_0))
      as [[[this1 e1] tr1]|] eqn:Hrun1;
      [| vm_compute in Hrun1; discriminate Hrun1].
    assert (In (SetCustomHitTestPath 4%nat (Some 102%nat)) tr1) as Hin
      by (vm_compute in Hrun1; injection Hrun1 as _ _ <-; left; reflexivity).
    destruct (UnRegister_clears_own_path env_hit env_hit pp_hardware_built
                world_game (set_NextObject 102%nat engine_0) 101%nat
                this1 e1 tr1 (CustomHitTestPaths e1) eq_refl Hrun1)
      as (this2 & e2 & tr2 & Hrun2 & _ & _ & _ & Hpath & _).
    destruct (Hpath 4%nat 102%nat Hin) as (Hon & Hiff & Hoff & _).
    assert (In (SetCustomHitTestPath 4%nat None) tr2) as Hin2.
    { apply Hiff. exists {| ViewportWidgetId := 4%nat |}.
      split; [reflexivity | exact Hon]. }
    exists this1, e1, tr1, this2, e2, tr2.
    repeat split; auto.
  - destruct (RegisterHitTesterWithViewport env_editor pp_live world_editor
                engine_0) as [[[this1 e1] tr1]|] eqn:Hrun1;
      [| vm_compute in Hrun1; discriminate Hrun1].
    assert (In (RegisterVirtualWindow 101%nat) tr1) as Hin
      by (vm_compute in Hrun1; injection Hrun1 as _ _ <-; left; reflexivity).
    destruct (UnRegister_clears_own_path env_editor env_editor pp_live
                world_editor engine_0 101%nat this1 e1 tr1
                (CustomHitTestPaths e1) eq_refl Hrun1)
      as (this2 & e2 & tr2 & Hrun2 & _ & _ & _ & _ & Hwindow).
    exists this1, e1, tr1, this2, e2, tr2.
    repeat split; auto.
Defined.


Lemma hit_tester_in_step_None e pp :
  CustomHitTestPath pp = None -> hit_tester_in_step e pp.
Proof. intros H h Hh. congruence. Qed.

Lemma CreateRenderer_hit_tester_in_step env this World Widget InDPIScale e
    b this' e' tr :
  CreateRenderer env this World Widget InDPIScale e = Some (b, this', e', tr) ->
  hit_tester_in_step e' this'.
Proof.
  intros Hrun.
  assert ((forall W, World = Some W -> Widget <> None ->
             IsTextureSizeValid env (CalculateWidgetDrawSize env this W) = false)
          \/
          exists W wd, World = Some W /\ Widget = Some wd /\
            IsTextureSizeValid env (CalculateWidgetDrawSize env this W) = true)
    as [Hno | (W & wd & -> & -> & Hvalid)].
  { destruct World as [W|], Widget as [wd|];
      try (left; intros; congruence).
    destruct (IsTextureSizeValid env (CalculateWidgetDrawSize env this W))
      eqn:Hv; [eauto 10 |].
    left. intros W' [= <-] _. exact Hv. }
  - rewrite (CreateRenderer_run_None env this World Widget InDPIScale e Hno)
      in Hrun.
    injection Hrun as <- <- <- <-.
    apply hit_tester_in_step_None. destruct this; reflexivity.
  - pose proof (CreateRenderer_run_Some env this W wd InDPIScale e Hvalid) as H.
    cbv zeta in H. rewrite Hrun in H.
    destruct (hit_test_target env this W (path_taken_off env this e)) as [v|].
    + injection H as -> -> -> ->. intros h [= <-].
      eexists. split; [simpl; apply lookup_insert_eq |].
      split; [reflexivity | destruct this; reflexivity].
    + injection H as -> -> -> ->.
      apply hit_tester_in_step_None. destruct this; reflexivity.
Qed.

(** X10.  The hit tester follows the draw size.  A constructed display has
    no hit tester; after [Display], after [Hide], and after [Tick] when it
    held before, the hit tester of the display, if it has one, is stored, is
    bound to the display's window and has [CurrentWidgetDrawSize] as its
    size.  So [ArrangeCustomHitTestChildren] of that hit tester, with the
    window alive, adds exactly the window at the current draw size. *)
Theorem hit_tester_follows_draw_size (env : Env) :
  (forall indeterminate e, hit_tester_in_step e (ctor indeterminate)) /\
  (forall this World Widget bInRenderToTextureOnly InDPIScale e b this' e' tr,
     Display env this World Widget bInRenderToTextureOnly InDPIScale e
     = Some (b, this', e', tr) ->
     hit_tester_in_step e' this') /\
  (forall this World DeltaSeconds e this' e' tr,
     hit_tester_in_step e this ->
     Tick env this World DeltaSeconds e = Some (this', e', tr) ->
     hit_tester_in_step e' this') /\
  (forall this World e this' e' tr,
     Hide env this World e = Some (this', e', tr) ->
     hit_tester_in_step e' this') /\
  (forall this e h ht SlateWindowPin,
     hit_tester_in_step e this ->
     CustomHitTestPath this = Some h ->
     HitTesters e !! h = Some ht ->
     VirtualWindow_Pin env (SlateWindow this) = Some SlateWindowPin ->
     FVRWidgetPostProcessHitTester.ArrangeCustomHitTestChildren env ht
     = [ {| ArrangedWidget_Widget := VirtualWindowId SlateWindowPin;
            ArrangedWidget_LocalSize := CurrentWidgetDrawSize this |} ]).
Proof.
  split; [| split; [| split; [| split]]].
  - intros indeterminate e. apply hit_tester_in_step_None. reflexivity.
  - intros this World Widget bIn InDPIScale e b this' e' tr Hrun.
    destruct (PostProcess_Display_split env this World Widget bIn InDPIScale e)
      as (bOk & this1 & e1 & t1 & Hrun1 & _ & Hcase).
    apply CreateRenderer_hit_tester_in_step in Hrun1.
    destruct bIn.
    + rewrite Hrun in Hcase. injection Hcase as <- <- <- <-. exact Hrun1.
    + destruct Hcase as (b2 & this2 & e2 & t2 & Hrun2 & Hrun').
      rewrite Hrun in Hrun'. injection Hrun' as -> <- <- ->.
      destruct World as [W|];
        [destruct (PostProcessMaterial this1) as [m|] eqn:Hm |].
      * eapply wp_Some in Hrun2;
          [| apply (wp_CreatePostProcessComponent_Some env this1 W m e1 Hm)].
        destruct Hrun2 as ([= _ ->] & _ & _ & _ & _ & _ & HH & _).
        intros h Hh. destruct (Hrun1 h) as (ht & H1 & H2 & H3);
          [destruct this1; exact Hh |].
        exists ht. rewrite HH. destruct this1; auto.
      * eapply wp_Some in Hrun2;
          [| apply wp_CreatePostProcessComponent_None; auto].
        destruct Hrun2 as ([= _ ->] & -> & _).
        intros h Hh. destruct (Hrun1 h) as (ht & H1 & H2 & H3);
          [destruct this1; exact Hh |].
        exists ht. destruct this1; auto.
      * eapply wp_Some in Hrun2;
          [| apply wp_CreatePostProcessComponent_None; auto].
        destruct Hrun2 as ([= _ ->] & -> & _).
        intros h Hh. destruct (Hrun1 h) as (ht & H1 & H2 & H3);
          [destruct this1; exact Hh |].
        exists ht. destruct this1; auto.
  - intros this World dt e this' e' tr Hstep. unfold Tick.
    rewrite TickRenderer_run.
    destruct World as [W|]; [| discriminate].
    destruct (WidgetRenderTarget this) as [rt|];
      [| intros [= <- <- <-]; exact Hstep].
    cbv zeta. destruct (FIntPoint.neq _ _).
    + destruct (IsTextureSizeValid env _).
      * destruct (SlateWindow this) as [w|] eqn:Hw; [| discriminate].
        intros [= <- <- <-]. intros h Hh.
        assert (CustomHitTestPath this = Some h) as Hh'
          by (destruct this; exact Hh).
        destruct (Hstep h Hh') as (ht & H1 & H2 & H3).
        exists (FVRWidgetPostProcessHitTester.SetWidgetDrawSize
                  (CalculateWidgetDrawSize env this W) ht).
        unfold resized. rewrite Hh'. simpl.
        rewrite lookup_alter_eq, H1. simpl.
        split; [reflexivity |]. split; [| destruct this; reflexivity].
        rewrite H2. destruct this; reflexivity.
      * intros [= <- <- <-]. apply hit_tester_in_step_None.
        destruct this; reflexivity.
    + destruct (WidgetRenderer this), (SlateWindow this);
        try discriminate; intros [= <- <- <-]; exact Hstep.
  - intros this World e this' e' tr. rewrite PostProcess_Hide_run.
    intros [= <- <- <-]. apply hit_tester_in_step_None.
    destruct this; reflexivity.
  - intros this e h ht win Hstep Hh Hht Hpin.
    destruct (Hstep h Hh) as (ht' & H1 & H2 & H3).
    rewrite Hht in H1. injection H1 as <-.
    unfold FVRWidgetPostProcessHitTester.ArrangeCustomHitTestChildren. rewrite H2, Hpin, H3. reflexivity.
Qed.

(** X11.  [TickRenderer] aborts in exactly these cases: the world is null;
    or there is a render target but no window, and either the newly
    calculated size differs from the current one and is valid (the window is
    resized), or it does not differ and there is a renderer (the window is
    drawn). *)
Theorem TickRenderer_aborts_iff (env : Env) (this : t)
    (World : option UWorld) (DeltaSeconds : float) (e : Engine) :
  TickRenderer env this World DeltaSeconds e = None <->
  World = None \/
  exists W,
    World = Some W /\
    WidgetRenderTarget this <> None /\
    SlateWindow this = None /\
    let New := CalculateWidgetDrawSize env this W in
    (New <> CurrentWidgetDrawSize this /\ IsTextureSizeValid env New = true \/
     New = CurrentWidgetDrawSize this /\ WidgetRenderer this <> None).
Proof.
  rewrite TickRenderer_run.
  destruct World as [W|]; [| split; auto].
  destruct (WidgetRenderTarget this) as [rt|].
  2:{ split; [discriminate |].
      intros [[=] | (W' & _ & H & _)]. congruence. }
  cbv zeta.
  destruct (FIntPoint.neq _ _) eqn:Hneq.
  - apply FIntPoint_neq_true in Hneq.
    destruct (IsTextureSizeValid env _) eqn:Hvalid.
    + destruct (SlateWindow this) as [w|].
      * split; [discriminate |].
        intros [[=] | (W' & _ & _ & [=] & _)].
      * split; [| reflexivity]. intros _. right. exists W.
        repeat split; try discriminate. left. auto.
    + split; [discriminate |].
      intros [[=] | (W' & [= <-] & _ & _ & [[_ H] | [H _]])]; congruence.
  - apply FIntPoint_neq_false in Hneq.
    destruct (WidgetRenderer this) as [r|], (SlateWindow this) as [w|].
    + split; [discriminate |].
      intros [[=] | (W' & _ & _ & [=] & _)].
    + split; [| reflexivity]. intros _. right. exists W.
      repeat split; try discriminate. right. split; [exact Hneq | discriminate].
    + split; [discriminate |].
      intros [[=] | (W' & _ & _ & [=] & _)].
    + split; [discriminate |].
      intros [[=] | (W' & [= <-] & _ & _ & [[H _] | [_ H]])]; congruence.
Qed.


Lemma own_path_on_Some env this e v :
  own_path_on env this e = Some v <->
  ViewportWidget_Pin env (ViewportWidget this) = Some v /\
  GetCustomHitTestPath v e = CustomHitTestPath this.
Proof.
  unfold own_path_on.
  destruct (ViewportWidget_Pin env (ViewportWidget this)) as [vw|].
  - case_bool_decide as Hpath; split.
    + intros [= <-]. auto.
    + intros [[= <-] _]. reflexivity.
    + discriminate.
    + intros [[= <-] H]. congruence.
  - split; [discriminate | intros [[=] _]].
Qed.

Lemma hide_calls_spec env this e :
  (forall r, In (BeginCleanup r) (hide_calls env this e) <->
             WidgetRenderer this = Some r) /\
  (forall c, In (UnregisterComponent c) (hide_calls env this e) <->
             bRenderToTextureOnly this = false /\
             PostProcessComponent this = Some c) /\
  (forall w, In (UnregisterVirtualWindow w) (hide_calls env this e) <->
             SlateWindow this = Some w /\
             FSlateApplication_IsInitialized env = true) /\
  (forall v p, In (SetCustomHitTestPath v p) (hide_calls env this e) <->
               p = None /\
               exists vw,
                 ViewportWidget_Pin env (ViewportWidget this) = Some vw /\
                 ViewportWidgetId vw = v /\
                 GetCustomHitTestPath vw e = CustomHitTestPath this).
Proof.
  unfold hide_calls, renderer_release_calls, unregister_calls,
    release_component_calls.
  split; [| split; [| split]].
  - intros r. split.
    + intros H. in_inv H; congruence.
    + intros ->. rewrite !in_app_iff. cbn [In]. auto.
  - intros c. split.
    + intros H. in_inv H. split; [| congruence].
      destruct (bRenderToTextureOnly this); [discriminate | reflexivity].
    + intros [-> ->]. rewrite !in_app_iff. cbn [negb In]. auto.
  - intros w. split.
    + intros H. in_inv H. split; congruence.
    + intros [-> ->]. rewrite !in_app_iff. cbn [In]. auto.
  - intros v p. split.
    + intros H. in_inv H. injection H as <- <-. split; [reflexivity |].
      match goal with Hd : own_path_on _ _ _ = Some _ |- _ =>
        apply own_path_on_Some in Hd as [Hpin Hpath] end.
      eauto.
    + intros [-> (vw & Hpin & <- & Hpath)]. rewrite !in_app_iff.
      rewrite (proj2 (own_path_on_Some env this e vw) (conj Hpin Hpath)).
      cbn [In]. auto.
Qed.


Lemma CreateRenderer_records env this World Widget InDPIScale e b this1 e1 t1 :
  CreateRenderer env this World Widget InDPIScale e = Some (b, this1, e1, t1) ->
  (forall r g, In (new_FWidgetRenderer r g) t1 -> WidgetRenderer this1 = Some r) /\
  (forall w, In (RegisterVirtualWindow w) t1 -> SlateWindow this1 = Some w) /\
  (forall v h, In (SetCustomHitTestPath v (Some h)) t1 ->
     ViewportWidget this1 = Some v /\ CustomHitTestPath this1 = Some h) /\
  (forall c, ~ In (RegisterComponent c) t1).
Proof.
  intros Hrun.
  assert ((forall W, World = Some W -> Widget <> None ->
             IsTextureSizeValid env (CalculateWidgetDrawSize env this W) = false)
          \/
          exists W wd, World = Some W /\ Widget = Some wd /\
            IsTextureSizeValid env (CalculateWidgetDrawSize env this W) = true)
    as [Hno | (W & wd & -> & -> & Hvalid)].
  { destruct World as [W|], Widget as [wd|];
      try (left; intros; congruence).
    destruct (IsTextureSizeValid env (CalculateWidgetDrawSize env this W))
      eqn:Hv; [eauto 10 |].
    left. intros W' [= <-] _. exact Hv. }
  - rewrite (CreateRenderer_run_None env this World Widget InDPIScale e Hno)
      in Hrun.
    injection Hrun as <- <- <- <-.
    unfold renderer_release_calls, unregister_calls.
    repeat split; unfold not; intros;
      match goal with H : In _ _ |- _ => in_inv H end.
  - pose proof (CreateRenderer_run_Some env this W wd InDPIScale e Hvalid) as H.
    cbv zeta in H. rewrite Hrun in H.
    unfold renderer_release_calls, unregister_calls, window_calls, parent_calls,
      target_calls, register_window_calls in H.
    destruct (hit_test_target env this W (path_taken_off env this e)) as [v|];
      injection H as -> -> -> ->.
    all: repeat split; unfold not; intros;
      match goal with H : In _ _ |- _ => in_inv H end;
      try (injection H as <-; destruct this; reflexivity);
      try (injection H as <- <-; destruct this; reflexivity).
Qed.

Lemma CreatePostProcessComponent_records env this World e b this2 e2 t2 :
  CreatePostProcessComponent env this World e = Some (b, this2, e2, t2) ->
  (forall c, In (RegisterComponent c) t2 -> PostProcessComponent this2 = Some c) /\
  (forall r g, ~ In (new_FWidgetRenderer r g) t2) /\
  (forall w, ~ In (RegisterVirtualWindow w) t2) /\
  (forall v p, ~ In (SetCustomHitTestPath v p) t2) /\
  same_runtime (component_released this) (component_released this2).
Proof.
  intros Hrun.
  destruct World as [W|];
    [destruct (PostProcessMaterial this) as [m|] eqn:Hm |].
  - eapply wp_Some in Hrun;
      [| apply (wp_CreatePostProcessComponent_Some env this W m e Hm)].
    destruct Hrun as ([= -> ->] & _ & _ & _ & _ & _ & _ & ->).
    unfold release_component_calls, component_calls, same_runtime.
    repeat split; try (destruct this; reflexivity); unfold not; intros;
      match goal with H : In _ _ |- _ => in_inv H end.
    injection H as <-. reflexivity.
  - eapply wp_Some in Hrun;
      [| apply wp_CreatePostProcessComponent_None; auto].
    destruct Hrun as ([= -> ->] & -> & ->).
    unfold release_component_calls, same_runtime.
    repeat split; try (destruct this; reflexivity); unfold not; intros;
      match goal with H : In _ _ |- _ => in_inv H end.
  - eapply wp_Some in Hrun;
      [| apply wp_CreatePostProcessComponent_None; auto].
    destruct Hrun as ([= -> ->] & -> & ->).
    unfold release_component_calls, same_runtime.
    repeat split; try (destruct this; reflexivity); unfold not; intros;
      match goal with H : In _ _ |- _ => in_inv H end.
Qed.


Lemma PostProcess_Display_only_renders env this World Widget b0 InDPIScale e
    b this' e' tr :
  Display env this World Widget b0 InDPIScale e = Some (b, this', e', tr) ->
  forall c, In c tr ->
    (exists cl cv, c = AddViewportWidgetContent cl cv) \/
    (exists lv cv, c = AddOverlayWidget lv cv) -> False.
Proof.
  intros Hrun c Hin Hkind.
  destruct (PostProcess_Display_split env this World Widget b0 InDPIScale e)
    as (bOk & this1 & e1 & t1 & Hrun1 & _ & Hcase).
  assert (In c t1 -> False) as H1.
  { clear Hcase. intros H.
    set (this0 := set_bRenderToTextureOnly b0 this) in *.
    assert ((forall W, World = Some W -> Widget <> None ->
               IsTextureSizeValid env (CalculateWidgetDrawSize env this0 W)
               = false)
            \/
            exists W wd, World = Some W /\ Widget = Some wd /\
              IsTextureSizeValid env (CalculateWidgetDrawSize env this0 W)
              = true)
      as [Hno | (W & wd & -> & -> & Hvalid)].
    { destruct World as [W|], Widget as [wd|];
        try (left; intros; congruence).
      destruct (IsTextureSizeValid env (CalculateWidgetDrawSize env this0 W))
        eqn:Hv; [eauto 10 |].
      left. intros W' [= <-] _. exact Hv. }
    - rewrite (CreateRenderer_run_None env this0 World Widget InDPIScale e Hno)
        in Hrun1.
      injection Hrun1 as <- <- <- <-.
      unfold renderer_release_calls, unregister_calls in H.
      in_inv H; subst c; destruct Hkind as [(? & ? & [=]) | (? & ? & [=])].
    - pose proof (CreateRenderer_run_Some env this0 W wd InDPIScale e Hvalid)
        as H0.
      cbv zeta in H0. rewrite Hrun1 in H0.
      unfold renderer_release_calls, unregister_calls, window_calls,
        parent_calls, target_calls, register_window_calls in H0.
      destruct (hit_test_target env this0 W (path_taken_off env this0 e)) as [v|];
        injection H0 as -> -> -> ->; in_inv H; subst c;
        destruct Hkind as [(? & ? & [=]) | (? & ? & [=])]. }
  destruct b0.
  - rewrite Hrun in Hcase. injection Hcase as <- <- <- <-. auto.
  - destruct Hcase as (b2 & this2 & e2 & t2 & Hrun2 & Hrun').
    rewrite Hrun in Hrun'. injection Hrun' as -> -> -> ->.
    apply in_app_iff in Hin as [Hin | Hin]; [auto |].
    clear H1.
    destruct World as [W|];
      [destruct (PostProcessMaterial this1) as [m|] eqn:Hm |].
    + eapply wp_Some in Hrun2;
        [| apply (wp_CreatePostProcessComponent_Some env this1 W m e1 Hm)].
      destruct Hrun2 as (_ & _ & _ & _ & _ & _ & _ & ->).
      unfold release_component_calls, component_calls in Hin.
      in_inv Hin; subst c; destruct Hkind as [(? & ? & [=]) | (? & ? & [=])].
    + eapply wp_Some in Hrun2;
        [| apply wp_CreatePostProcessComponent_None; auto].
      destruct Hrun2 as (_ & _ & ->).
      unfold release_component_calls in Hin.
      in_inv Hin; subst c; destruct Hkind as [(? & ? & [=]) | (? & ? & [=])].
    + eapply wp_Some in Hrun2;
        [| apply wp_CreatePostProcessComponent_None; auto].
      destruct Hrun2 as (_ & _ & ->).
      unfold release_component_calls in Hin.
      in_inv Hin; subst c; destruct Hkind as [(? & ? & [=]) | (? & ? & [=])].
Qed.

(** What [Display] created is what its result holds. *)
Lemma PostProcess_Display_records env this World Widget b0 InDPIScale e b
    this1 e1 tr1 :
  Display env this World Widget b0 InDPIScale e = Some (b, this1, e1, tr1) ->
  bRenderToTextureOnly this1 = b0 /\
  (forall r g, In (new_FWidgetRenderer r g) tr1 -> WidgetRenderer this1 = Some r) /\
  (forall c, In (RegisterComponent c) tr1 ->
     b0 = false /\ PostProcessComponent this1 = Some c) /\
  (forall w, In (RegisterVirtualWindow w) tr1 ->
     SlateWindow this1 = Some w /\ FSlateApplication_IsInitialized env = true) /\
  (forall v h, In (SetCustomHitTestPath v (Some h)) tr1 ->
     ViewportWidget this1 = Some v /\ CustomHitTestPath this1 = Some h).
Proof.
  intros Hrun.
  destruct (PostProcess_Display_split env this World Widget b0 InDPIScale e)
    as (bOk & this0 & e0 & t0 & Hrun0 & Hb & Hcase).
  pose proof Hrun0 as Hinit.
  apply CreateRenderer_records in Hrun0 as (R1 & R2 & R3 & R4).
  assert (forall w, In (RegisterVirtualWindow w) t0 ->
            FSlateApplication_IsInitialized env = true) as R5.
  { clear Hcase. intros w H.
    set (this' := set_bRenderToTextureOnly b0 this) in *.
    assert ((forall W, World = Some W -> Widget <> None ->
               IsTextureSizeValid env (CalculateWidgetDrawSize env this' W)
               = false)
            \/
            exists W wd, World = Some W /\ Widget = Some wd /\
              IsTextureSizeValid env (CalculateWidgetDrawSize env this' W)
              = true)
      as [Hno | (W & wd & -> & -> & Hvalid)].
    { destruct World as [W|], Widget as [wd|];
        try (left; intros; congruence).
      destruct (IsTextureSizeValid env (CalculateWidgetDrawSize env this' W))
        eqn:Hv; [eauto 10 |].
      left. intros W' [= <-] _. exact Hv. }
    - rewrite (CreateRenderer_run_None env this' World Widget InDPIScale e Hno)
        in Hinit.
      injection Hinit as _ _ _ <-.
      unfold renderer_release_calls, unregister_calls in H. in_inv H.
    - pose proof (CreateRenderer_run_Some env this' W wd InDPIScale e Hvalid)
        as H0.
      cbv zeta in H0. rewrite Hinit in H0.
      unfold renderer_release_calls, unregister_calls, window_calls,
        parent_calls, target_calls, register_window_calls in H0.
      destruct (hit_test_target env this' W (path_taken_off env this' e)) as [v|];
        injection H0 as -> -> -> ->; in_inv H.
      match goal with
      | Hc : negb _ && FSlateApplication_IsInitialized env = true |- _ =>
          apply andb_true_iff in Hc as [_ Hc]; exact Hc
      end. }
  destruct b0.
  - rewrite Hrun in Hcase. injection Hcase as <- <- <- <-.
    split; [exact Hb |]. split; [exact R1 |].
    split; [intros c H; destruct (R4 c H) |].
    split; [intros w H; split; [apply R2; exact H | eapply R5; exact H] |].
    exact R3.
  - destruct Hcase as (b2 & this2 & e2 & t2 & Hrun2 & Hrun').
    rewrite Hrun in Hrun'. injection Hrun' as -> -> -> ->.
    pose proof Hrun2 as Hframe.
    eapply wp_Some in Hframe; [| apply wp_CreatePostProcessComponent_frame].
    destruct Hframe as ((_ & _ & _ & _ & Hb2) & _). simpl in Hb2.
    apply CreatePostProcessComponent_records in Hrun2
      as (C1 & C2 & C3 & C4 & (_ & _ & _ & S4 & _ & S6 & S7 & S8 & _)).
    simpl in S4, S6, S7, S8.
    split; [congruence |].
    split; [| split; [| split]].
    + intros r g H. apply in_app_iff in H as [H | H].
      * rewrite S4. eauto.
      * destruct (C2 r g H).
    + intros c H. apply in_app_iff in H as [H | H].
      * destruct (R4 c H).
      * split; [reflexivity | eauto].
    + intros w H. apply in_app_iff in H as [H | H].
      * rewrite S6. split; [eauto | eapply R5; exact H].
      * destruct (C3 w H).
    + intros v h H. apply in_app_iff in H as [H | H]; [| destruct (C4 _ _ H)].
      rewrite S7, S8. eauto.
Qed.

(** The path [CreateRenderer] installs is on the viewport widget when it
    returns. *)
Lemma CreateRenderer_path_installed env this World Widget InDPIScale e b
    this1 e1 t1 :
  CreateRenderer env this World Widget InDPIScale e = Some (b, this1, e1, t1) ->
  forall v h, In (SetCustomHitTestPath v (Some h)) t1 ->
    CustomHitTestPaths e1 !! v = Some h.
Proof.
  intros Hrun v0 h0 Hin.
  assert ((forall W, World = Some W -> Widget <> None ->
             IsTextureSizeValid env (CalculateWidgetDrawSize env this W) = false)
          \/
          exists W wd, World = Some W /\ Widget = Some wd /\
            IsTextureSizeValid env (CalculateWidgetDrawSize env this W) = true)
    as [Hno | (W & wd & -> & -> & Hvalid)].
  { destruct World as [W|], Widget as [wd|];
      try (left; intros; congruence).
    destruct (IsTextureSizeValid env (CalculateWidgetDrawSize env this W))
      eqn:Hv; [eauto 10 |].
    left. intros W' [= <-] _. exact Hv. }
  - rewrite (CreateRenderer_run_None env this World Widget InDPIScale e Hno)
      in Hrun.
    injection Hrun as <- <- <- <-.
    unfold renderer_release_calls, unregister_calls in Hin. in_inv Hin.
  - pose proof (CreateRenderer_run_Some env this W wd InDPIScale e Hvalid) as H.
    cbv zeta in H. rewrite Hrun in H.
    unfold renderer_release_calls, unregister_calls, window_calls, parent_calls,
      target_calls, register_window_calls in H.
    destruct (hit_test_target env this W (path_taken_off env this e)) as [v|];
      injection H as -> -> -> ->; in_inv Hin.
    injection Hin as <- <-. simpl. apply lookup_insert_eq.
Qed.

Lemma CreatePostProcessComponent_paths env this World e b this2 e2 t2 :
  CreatePostProcessComponent env this World e = Some (b, this2, e2, t2) ->
  CustomHitTestPaths e2 = CustomHitTestPaths e.
Proof.
  intros Hrun.
  assert (wp (CreatePostProcessComponent env this World) e
            (fun _ e' _ => CustomHitTestPaths e' = CustomHitTestPaths e)) as H.
  { unfold CreatePostProcessComponent. wp_step.
    eapply wp_mono; [apply wp_ReleasePostProcessComponent |].
    intros this1 e1 t1 (-> & -> & ->). wp_step.
    destruct World as [W|];
      [destruct (PostProcessMaterial (component_released this)) |];
      wp_run; reflexivity. }
  exact (wp_Some _ _ _ _ _ _ H Hrun).
Qed.

Lemma PostProcess_Display_path_installed env this World Widget b0 InDPIScale e
    b this1 e1 tr1 :
  Display env this World Widget b0 InDPIScale e = Some (b, this1, e1, tr1) ->
  forall v h, In (SetCustomHitTestPath v (Some h)) tr1 ->
    CustomHitTestPaths e1 !! v = Some h.
Proof.
  intros Hrun v h Hin.
  destruct (PostProcess_Display_split env this World Widget b0 InDPIScale e)
    as (bOk & this0 & e0 & t0 & Hrun0 & _ & Hcase).
  pose proof (CreateRenderer_path_installed _ _ _ _ _ _ _ _ _ _ Hrun0) as Hon.
  destruct b0.
  - rewrite Hrun in Hcase. injection Hcase as <- <- <- <-. auto.
  - destruct Hcase as (b2 & this2 & e2 & t2 & Hrun2 & Hrun').
    rewrite Hrun in Hrun'. injection Hrun' as -> -> -> ->.
    rewrite (CreatePostProcessComponent_paths _ _ _ _ _ _ _ _ Hrun2).
    apply CreatePostProcessComponent_records in Hrun2 as (_ & _ & _ & C4 & _).
    apply in_app_iff in Hin as [Hin | Hin]; [auto | destruct (C4 _ _ Hin)].
Qed.

(** X13.  What [Display] of the post-process path created, the [Hide] that
    follows releases, under any host and world and whatever paths the host
    has meanwhile put on the viewport widgets: the renderer it made is
    handed to [BeginCleanup], the component it registered is unregistered,
    the window it registered with Slate is unregistered when Slate is
    initialised, and the hit-test path it installed, which is on the
    viewport widget when [Display] returns, is taken off the viewport widget
    when that widget is alive and still carries it.  [Hide] leaves the
    objects of the store alone.  Unless the display renders to the texture
    only, nothing of it exists afterwards. *)
Theorem Hide_releases_what_Display_created (env env' : Env) (this : t)
    (World World' : option UWorld) (Widget : option UUserWidget)
    (bInRenderToTextureOnly : bool) (InDPIScale : float) (e : Engine)
    (b : bool) (this1 : t) (e1 : Engine) (tr1 : list HostCall)
    (paths : gmap ObjectPtr ObjectPtr) :
  Display env this World Widget bInRenderToTextureOnly InDPIScale e
  = Some (b, this1, e1, tr1) ->
  exists this2 e2 tr2,
    Hide env' this1 World' (set_CustomHitTestPaths paths e1)
    = Some (this2, e2, tr2) /\
    same_objects e1 e2 /\
    (forall r g, In (new_FWidgetRenderer r g) tr1 -> In (BeginCleanup r) tr2) /\
    (forall c, In (RegisterComponent c) tr1 -> In (UnregisterComponent c) tr2) /\
    (forall w,
       In (RegisterVirtualWindow w) tr1 ->
       FSlateApplication_IsInitialized env' = true ->
       In (UnregisterVirtualWindow w) tr2) /\
    (forall v h,
       In (SetCustomHitTestPath v (Some h)) tr1 ->
       CustomHitTestPaths e1 !! v = Some h) /\
    (forall v h vw,
       In (SetCustomHitTestPath v (Some h)) tr1 ->
       ViewportWidget_Pin env' (Some v) = Some vw ->
       paths !! v = Some h ->
       In (SetCustomHitTestPath v None) tr2 /\
       CustomHitTestPaths e2 = delete v paths) /\
    (bInRenderToTextureOnly = false -> pp_idle this2).
Proof.
  intros Hrun.
  rewrite PostProcess_Hide_run.
  eexists _, _, _. split; [reflexivity |].
  split.
  { destruct (path_taken_off_frame env' this1 (set_CustomHitTestPaths paths e1))
      as (F1 & F2 & F3 & F4 & F5).
    repeat split; assumption. }
  destruct (hide_calls_spec env' this1 (set_CustomHitTestPaths paths e1))
    as (Hr & Hc & Hw & Hp).
  pose proof (PostProcess_Display_path_installed _ _ _ _ _ _ _ _ _ _ _ Hrun)
    as Hon.
  apply PostProcess_Display_records in Hrun as (Hb & R1 & R2 & R3 & R4).
  split; [intros r g H; apply Hr; eauto |].
  split; [intros c H; apply Hc; destruct (R2 c H); split; congruence |].
  split; [intros w H Hinit; apply Hw; destruct (R3 w H); auto |].
  split; [exact Hon |].
  split.
  - intros v h vw H Hpin Hpath.
    destruct (R4 v h H) as [Hv Hh].
    pose proof (ViewportWidget_Pin_id _ _ _ Hpin) as Hid.
    assert (own_path_on env' this1 (set_CustomHitTestPaths paths e1) = Some vw)
      as Hown.
    { apply own_path_on_Some. rewrite Hv, Hh. split; [exact Hpin |].
      unfold GetCustomHitTestPath. simpl. rewrite Hid. exact Hpath. }
    split.
    + apply Hp. split; [reflexivity |].
      apply own_path_on_Some in Hown as [Hpin' Hpath']. eauto.
    + unfold path_taken_off. rewrite Hown. simpl. rewrite Hid. reflexivity.
  - intros ->. apply pp_idle_hidden. exact Hb.
Qed.

(** The component 103 registered for the Editor world is unregistered by
    [Hide]; and the hit tester 102 installed on the game viewport widget 4,
    with hardware input on, is taken off it. *)
Lemma Hide_releases_what_Display_created_witness :
  (exists this1 e1 tr1 this2 e2 tr2,
     Display env_editor pp_material (Some world_editor) (Some widget_30) false
       1%Q engine_0 = Some (true, this1, e1, tr1) /\
     Hide env_editor this1 None
       (set_CustomHitTestPaths (CustomHitTestPaths e1) e1)
     = Some (this2, e2, tr2) /\
     In (RegisterComponent 103%nat) tr1 /\
     In (UnregisterComponent 103%nat) tr2 /\
     pp_idle this2) /\
  (exists this1 e1 tr1 this2 e2 tr2,
     Display env_hit pp_hardware (Some world_game) (Some widget_30) false
       1%Q engine_0 = Some (true, this1, e1, tr1) /\
     Hide env_hit this1 (Some world_game)
       (set_CustomHitTestPaths (CustomHitTestPaths e1) e1)
     = Some (this2, e2, tr2) /\
     In (SetCustomHitTestPath 4%nat (Some 102%nat)) tr1 /\
     CustomHitTestPaths e1 !! 4%nat = Some 102%nat /\
     In (SetCustomHitTestPath 4%nat None) tr2 /\
     CustomHitTestPaths e2 !! 4%nat = None).
Proof.
  split.
  - destruct pp_live_displayed as (e1 & tr1 & Hrun).
    destruct (Hide_releases_what_Display_created env_editor env_editor
                pp_material (Some world_editor) None (Some widget_30) false 1%Q
                engine_0 true pp_live e1 tr1 (CustomHitTestPaths e1) Hrun)
      as (this2 & e2 & tr2 & Hhide & _ & _ & Hc & _ & _ & _ & Hidle).
    exists pp_live, e1, tr1, this2, e2, tr2.
    assert (In (RegisterComponent 103%nat) tr1) as Hin.
    { vm_compute in Hrun. injection Hrun as _ <-. simpl. auto 20. }
    split; [exact Hrun |]. split; [exact Hhide |]. split; [exact Hin |].
    split; [exact (Hc _ Hin) | exact (Hidle eq_refl)].
  - destruct (Display env_hit pp_hardware (Some world_game) (Some widget_30)
                false 1%Q engine_0) as [[[[b this1] e1] tr1]|] eqn:Hrun;
      [| vm_compute in Hrun; discriminate Hrun].
    assert (b = true) as -> by (vm_compute in Hrun; injection Hrun as <- _ _ _; reflexivity).
    assert (In (SetCustomHitTestPath 4%nat (Some 102%nat)) tr1) as Hin.
    { vm_compute in Hrun. injection Hrun as _ _ <-. simpl. auto 20. }
    destruct (Hide_releases_what_Display_created env_hit env_hit
                pp_hardware (Some world_game) (Some world_game)
                (Some widget_30) false 1%Q engine_0 true this1 e1 tr1
                (CustomHitTestPaths e1) Hrun)
      as (this2 & e2 & tr2 & Hhide & _ & _ & _ & _ & Hon & Hoff & _).
    pose proof (Hon _ _ Hin) as Hpath.
    destruct (Hoff 4%nat 102%nat {| ViewportWidgetId := 4%nat |} Hin eq_refl
                Hpath) as (Hin2 & He2).
    exists this1, e1, tr1, this2, e2, tr2.
    repeat split; auto.
    rewrite He2. apply lookup_delete_eq.
Defined.

(** X14.  [Hide] of the post-process path always returns and leaves the
    objects of the store alone.  Render target, renderer, window, viewport
    widget and hit-test path are cleared and the current size is (0,0);
    component and material instance are cleared too, unless the display
    renders to the texture only, when they are kept.  [BeginCleanup] is
    called exactly for the renderer there was, [UnregisterComponent] exactly
    for the component there was unless the display renders to the texture
    only, [UnregisterVirtualWindow] exactly for the window there was when
    Slate is initialised, [SetCustomHitTestPath] exactly to take the
    display's own path off the remembered viewport widget while that is
    alive, which then carries none, and [Hide] creates nothing.  A second
    [Hide], under any host and from any store, changes nothing and calls
    nothing. *)
Theorem PostProcess_Hide_releases (env : Env) (this : t)
    (World : option UWorld) (e : Engine) :
  exists this' e' tr,
    Hide env this World e = Some (this', e', tr) /\
    same_objects e e' /\
    WidgetRenderTarget this' = None /\
    WidgetRenderer this' = None /\
    SlateWindow this' = None /\
    ViewportWidget this' = None /\
    CustomHitTestPath this' = None /\
    CurrentWidgetDrawSize this' = FIntPoint.ZeroValue /\
    (if bRenderToTextureOnly this
     then PostProcessComponent this' = PostProcessComponent this /\
          PostProcessMaterialInstance this' = PostProcessMaterialInstance this
     else PostProcessComponent this' = None /\
          PostProcessMaterialInstance this' = None) /\
    (forall r, In (BeginCleanup r) tr <-> WidgetRenderer this = Some r) /\
    (forall c, In (UnregisterComponent c) tr <->
               bRenderToTextureOnly this = false /\
               PostProcessComponent this = Some c) /\
    (forall w, In (UnregisterVirtualWindow w) tr <->
               SlateWindow this = Some w /\
               FSlateApplication_IsInitialized env = true) /\
    (forall v p,
       In (SetCustomHitTestPath v p) tr <->
       p = None /\
       exists vw,
         ViewportWidget_Pin env (ViewportWidget this) = Some vw /\
         ViewportWidgetId vw = v /\
         GetCustomHitTestPath vw e = CustomHitTestPath this) /\
    (forall v,
       In (SetCustomHitTestPath v None) tr ->
       CustomHitTestPaths e' = delete v (CustomHitTestPaths e)) /\
    ((forall v, ~ In (SetCustomHitTestPath v None) tr) -> e' = e) /\
    (forall c, In c tr ->
       (exists r, c = BeginCleanup r) \/
       (exists p, c = UnregisterComponent p) \/
       (exists w, c = UnregisterVirtualWindow w) \/
       (exists v, c = SetCustomHitTestPath v None)) /\
    (forall env' World', Hide env' this' World' e' = Some (this', e', [])) /\
    (forall env' World' e2, Hide env' this' World' e2 = Some (this', e2, [])).
Proof.
  rewrite PostProcess_Hide_run.
  exists (hidden this), (path_taken_off env this e), (hide_calls env this e).
  split; [reflexivity |].
  split; [apply path_taken_off_frame |].
  destruct (hide_calls_spec env this e) as (Hr & Hc & Hw & Hp).
  repeat (split; [destruct this; reflexivity |]).
  split; [destruct this as [? ? ? ? ? ? ? ? ? ? ? ? ? ? ? ? ? ? [] ?];
          split; reflexivity |].
  split; [exact Hr |]. split; [exact Hc |]. split; [exact Hw |].
  split; [exact Hp |].
  assert (forall env' World' e2,
            Hide env' (hidden this) World' e2 = Some (hidden this, e2, []))
    as Hagain.
  { intros env' World' e2. rewrite PostProcess_Hide_run.
    replace (hidden (hidden this)) with (hidden this)
      by (destruct this as [? ? ? ? ? ? ? ? ? ? ? ? ? ? ? ? ? ? [] ?];
          reflexivity).
    rewrite path_taken_off_None
      by (destruct this as [? ? ? ? ? ? ? ? ? ? ? ? ? ? ? ? ? ? [] ?];
          reflexivity).
    replace (hide_calls env' (hidden this) e2) with (@nil HostCall);
      [reflexivity |].
    unfold hide_calls, renderer_release_calls.
    rewrite unregister_calls_None
      by (destruct this as [? ? ? ? ? ? ? ? ? ? ? ? ? ? ? ? ? ? [] ?];
          reflexivity).
    destruct this as [? ? ? ? ? ? ? ? ? ? ? ? ? ? ? ? ? ? [] ?]; reflexivity. }
  split; [| split; [| split; [| split; [intros; apply Hagain | exact Hagain]]]].
  - intros v Hin.
    apply (proj1 (Hp _ _)) in Hin as (_ & vw & Hpin & <- & Hpath).
    unfold path_taken_off.
    rewrite (proj2 (own_path_on_Some env this e vw) (conj Hpin Hpath)).
    reflexivity.
  - intros Hno. unfold path_taken_off.
    destruct (own_path_on env this e) as [vw|] eqn:Hown; [| reflexivity].
    exfalso. apply (Hno (ViewportWidgetId vw)), (proj2 (Hp _ _)).
    apply own_path_on_Some in Hown as [Hpin Hpath]. eauto.
  - intros c H.
    unfold hide_calls, renderer_release_calls, unregister_calls,
      release_component_calls in H.
    in_inv H; subst c; eauto 10.
Qed.

(** In the game world of [env_hit] the window 101 is parented to the game
    viewport widget 4. *)
Lemma CreateRenderer_window_witness :
  exists this' e' tr,
    CreateRenderer env_hit (ctor false) (Some world_game) (Some widget_30) 1%Q
      engine_0 = Some (true, this', e', tr) /\
    SlateWindow this' = Some 101%nat /\
    In (AssignParentWidget 101%nat (Some 4%nat)) tr.
Proof.
  destruct (CreateRenderer_window env_hit (ctor false) world_game widget_30 1%Q
              engine_0 eq_refl)
    as (this' & e' & tr & r & w & before & after & Hrun & _ & Hw & _ & Hparent
        & _).
  exists this', e', tr. split; [exact Hrun |].
  assert (w = 101%nat) as ->.
  { vm_compute in Hrun. injection Hrun as <- _ _. injection Hw as <-.
    reflexivity. }
  split; [exact Hw |].
  apply Hparent. split; [reflexivity |]. split; [reflexivity |].
  exists {| GetGameViewportClient := Some client_1920x1080 |}, client_1920x1080.
  repeat split.
Defined.

(** X12.  A tick that finds a render target and a new size that differs
    from the current one and is invalid is [Hide]: it leaves the objects of
    the store alone and the render target is gone.  From then on every tick
    with a world, under any host and from any store, changes nothing and
    calls nothing: the display does not come back by itself when the size
    becomes valid again. *)
Theorem TickRenderer_hides_for_good (env : Env) (this : t) (W : UWorld)
    (DeltaSeconds : float) (e : Engine) :
  let New := CalculateWidgetDrawSize env this W in
  WidgetRenderTarget this <> None ->
  New <> CurrentWidgetDrawSize this ->
  IsTextureSizeValid env New = false ->
  exists this' e' tr,
    TickRenderer env this (Some W) DeltaSeconds e = Some (this', e', tr) /\
    Hide env this (Some W) e = Some (this', e', tr) /\
    same_objects e e' /\
    WidgetRenderTarget this' = None /\
    forall env' World' DeltaSeconds' e2,
      World' <> None ->
      TickRenderer env' this' World' DeltaSeconds' e2 = Some (this', e2, []).
Proof.
  intros New Hrt Hneq Hvalid.
  rewrite TickRenderer_run, PostProcess_Hide_run.
  destruct (WidgetRenderTarget this) as [rt|]; [| congruence].
  cbv zeta. fold New.
  apply FIntPoint_neq_true in Hneq. rewrite Hneq, Hvalid.
  eexists _, _, _. split; [reflexivity |]. split; [reflexivity |].
  split; [apply path_taken_off_frame |].
  split; [destruct this; reflexivity |].
  intros env' World' dt' e' HW. rewrite TickRenderer_run.
  destruct World' as [W'|]; [| congruence].
  replace (WidgetRenderTarget (hidden this)) with (@None ObjectPtr)
    by (destruct this; reflexivity).
  reflexivity.
Qed.


Lemma PostProcess_Display_no_subscription env this World Widget b0 InDPIScale
    e b this' e' tr :
  Display env this World Widget b0 InDPIScale e = Some (b, this', e', tr) ->
  ~ In LevelRemovedFromWorld_AddUObject tr.
Proof.
  intros Hrun Hin.
  destruct (PostProcess_Display_split env this World Widget b0 InDPIScale e)
    as (bOk & this1 & e1 & t1 & Hrun1 & _ & Hcase).
  assert (~ In LevelRemovedFromWorld_AddUObject t1) as H1.
  { clear Hcase. intros H.
    set (this0 := set_bRenderToTextureOnly b0 this) in *.
    assert ((forall W, World = Some W -> Widget <> None ->
               IsTextureSizeValid env (CalculateWidgetDrawSize env this0 W)
               = false)
            \/
            exists W wd, World = Some W /\ Widget = Some wd /\
              IsTextureSizeValid env (CalculateWidgetDrawSize env this0 W)
              = true)
      as [Hno | (W & wd & -> & -> & Hvalid)].
    { destruct World as [W|], Widget as [wd|];
        try (left; intros; congruence).
      destruct (IsTextureSizeValid env (CalculateWidgetDrawSize env this0 W))
        eqn:Hv; [eauto 10 |].
      left. intros W' [= <-] _. exact Hv. }
    - rewrite (CreateRenderer_run_None env this0 World Widget InDPIScale e Hno)
        in Hrun1.
      injection Hrun1 as <- <- <- <-.
      unfold renderer_release_calls, unregister_calls in H. in_inv H.
    - pose proof (CreateRenderer_run_Some env this0 W wd InDPIScale e Hvalid)
        as H0.
      cbv zeta in H0. rewrite Hrun1 in H0.
      unfold renderer_release_calls, unregister_calls, window_calls,
        parent_calls, target_calls, register_window_calls in H0.
      destruct (hit_test_target env this0 W (path_taken_off env this0 e)) as [v|];
        injection H0 as -> -> -> ->; in_inv H. }
  destruct b0.
  - rewrite Hrun in Hcase. injection Hcase as <- <- <- <-. auto.
  - destruct Hcase as (b2 & this2 & e2 & t2 & Hrun2 & Hrun').
    rewrite Hrun in Hrun'. injection Hrun' as -> -> -> ->.
    apply in_app_iff in Hin as [Hin | Hin]; [auto |].
    clear H1.
    destruct World as [W|];
      [destruct (PostProcessMaterial this1) as [m|] eqn:Hm |].
    + eapply wp_Some in Hrun2;
        [| apply (wp_CreatePostProcessComponent_Some env this1 W m e1 Hm)].
      destruct Hrun2 as (_ & _ & _ & _ & _ & _ & _ & ->).
      unfold release_component_calls, component_calls in Hin. in_inv Hin.
    + eapply wp_Some in Hrun2;
        [| apply wp_CreatePostProcessComponent_None; auto].
      destruct Hrun2 as (_ & _ & ->).
      unfold release_component_calls in Hin. in_inv Hin.
    + eapply wp_Some in Hrun2;
        [| apply wp_CreatePostProcessComponent_None; auto].
      destruct Hrun2 as (_ & _ & ->).
      unfold release_component_calls in Hin. in_inv Hin.
Qed.


Lemma PostProcess_Display_true env this World Widget InDPIScale e this' e' tr :
  Display env this World Widget false InDPIScale e = Some (true, this', e', tr) ->
  Widget <> None /\
  isSome (WidgetRenderTarget this') = true /\
  isSome (WidgetRenderer this') = true /\
  isSome (SlateWindow this') = true /\
  isSome (PostProcessComponent this') = true /\
  isSome (PostProcessMaterialInstance this') = true.
Proof.
  intros Hrun.
  destruct (PostProcess_Display_split env this World Widget false InDPIScale e)
    as (bOk & this1 & e1 & t1 & Hrun1 & _ & b2 & this2 & e2 & t2 & Hrun2 & Hrun').
  rewrite Hrun in Hrun'. injection Hrun' as Hb -> -> ->.
  symmetry in Hb. apply andb_true_iff in Hb as [-> ->].
  apply CreateRenderer_result in Hrun1 as (HbOk & Hiff & Hyes & _).
  pose proof Hrun2 as Hframe.
  eapply wp_Some in Hframe; [| apply wp_CreatePostProcessComponent_frame].
  destruct Hframe as (_ & Hrt & Hsw & Hr & _). simpl in *.
  apply CreatePostProcessComponent_result in Hrun2 as (Hb2 & _ & Hyes2).
  destruct (Hyes eq_refl) as [H1 H2].
  rewrite Hrt, Hsw, Hr, <- HbOk, <- Hb2.
  repeat split; auto. apply Hiff. reflexivity.
Qed.


(** The level viewport is closed, the tick hides the display; it is opened
    again, and the next tick does nothing. *)
Lemma TickRenderer_hides_for_good_witness :
  exists this' e' tr,
    TickRenderer env_editor_closed pp_live (Some world_editor) (1 # 60)%Q
      engine_0 = Some (this', e', tr) /\
    WidgetRenderTarget this' = None /\
    TickRenderer env_editor this' (Some world_editor) (1 # 60)%Q e'
    = Some (this', e', []).
Proof.
  destruct (TickRenderer_hides_for_good env_editor_closed pp_live world_editor
              (1 # 60)%Q engine_0)
    as (this' & e' & tr & Hrun & _ & _ & Hrt & Hlater);
    [discriminate | discriminate | reflexivity |].
  exists this', e', tr. split; [exact Hrun |]. split; [exact Hrt |].
  apply Hlater. discriminate.
Defined.

End PostProcessExtras.

(** ** The widget, run to its end *)

Section WidgetExtras.
Import EVRWidgetDisplayType.
Import UVRFullScreenUserWidget.

Lemma World_Get_id env i W : World_Get env (Some i) = Some W -> WorldId W = i.
Proof.
  unfold World_Get. intros H.
  apply List.find_some in H as [_ H]. apply Nat.eqb_eq in H. exact H.
Qed.

(** The state [Display] works on once its guard has passed. *)
Lemma Display_guarded env s InWorld e :
  display_condition env s InWorld = true ->
  Display env s InWorld e =
  (this ← InitWidget env
            (set_CurrentDisplayType (GetDisplayType env s InWorld)
               (display_requested InWorld s));
   let DPIScale := GetViewportDPIScale env this in
   '(bWasAdded, this) ←
     (if eqb (CurrentDisplayType this) Viewport then
        '(b, v) ←
          FVRFullScreenUserWidget_Viewport.Display env
            (ViewportDisplayType this) InWorld (Widget this) DPIScale;
        mret (b, set_ViewportDisplayType v this)
      else if eqb (CurrentDisplayType this) PostProcess then
        '(b, pp) ←
          FVRFullScreenUserWidget_PostProcess.Display env
            (PostProcessDisplayType this) InWorld (Widget this) false DPIScale;
        mret (b, set_PostProcessDisplayType pp this)
      else mret (false, this));
   when bWasAdded (emit LevelRemovedFromWorld_AddUObject);;
   mret (bWasAdded, this)) e.
Proof.
  intros Hcond. unfold Display. cbv zeta.
  fold (display_requested InWorld s).
  rewrite display_condition_requested, Hcond.
  replace (GetDisplayType env (display_requested InWorld s) InWorld)
    with (GetDisplayType env s InWorld) by (destruct s; reflexivity).
  reflexivity.
Qed.

Lemma InitWidget_run env s e :
  InitWidget env s e =
  if FSlateApplication_IsInitialized env then
    match WidgetClass s, Widget s with
    | Some c, None =>
        match World_Get env (World s) with
        | Some W =>
            match CreateWidget env W c with
            | Some wd =>
                Some (set_Widget (Some wd) s, e,
                      [SetFlags_RF_Transient (UserWidgetId wd)])
            | None => None
            end
        | None => None
        end
    | _, _ => Some (s, e, [])
    end
  else Some (s, e, []).
Proof.
  unfold InitWidget.
  destruct (FSlateApplication_IsInitialized env); [| reflexivity].
  destruct (WidgetClass s) as [c|]; [| reflexivity].
  destruct (Widget s) as [wd0|]; [reflexivity |].
  run_M. destruct (World_Get env (World s)) as [W|]; [| reflexivity].
  cbn. destruct (CreateWidget env W c); reflexivity.
Qed.


Lemma Viewport_Display_total env this World Widget InDPIScale e :
  exists b this' e' tr,
    FVRFullScreenUserWidget_Viewport.Display env this World Widget InDPIScale e
    = Some (b, this', e', tr).
Proof.
  pose proof (wp_Viewport_Display env this World Widget InDPIScale e) as H.
  apply wp_run in H as ([b this'] & e' & tr & Hrun & _). eauto.
Qed.

Lemma PostProcess_Display_total env this World Widget b0 InDPIScale e :
  exists b this' e' tr,
    FVRFullScreenUserWidget_PostProcess.Display env this World Widget b0
      InDPIScale e = Some (b, this', e', tr).
Proof.
  pose proof (wp_Display env this World Widget b0 InDPIScale e) as H.
  apply wp_run in H as ([b this'] & e' & tr & Hrun & _). eauto.
Qed.

(** [Display] past its guard: [InitWidget], then the display of the type,
    then the subscription. *)
Lemma Display_split env s InWorld e s1 e1 t1 :
  display_condition env s InWorld = true ->
  InitWidget env
    (set_CurrentDisplayType (GetDisplayType env s InWorld)
       (display_requested InWorld s)) e = Some (s1, e1, t1) ->
  exists (b : bool) s' e' t2,
    Display env s InWorld e
    = Some (b, s', e',
            t1 ++ t2 ++ (if b then [LevelRemovedFromWorld_AddUObject] else [])) /\
    match GetDisplayType env s InWorld with
    | Inactive => False
    | Viewport =>
        exists v,
          FVRFullScreenUserWidget_Viewport.Display env (ViewportDisplayType s1)
            InWorld (Widget s1) (GetViewportDPIScale env s1) e1
          = Some (b, v, e', t2) /\
          s' = set_ViewportDisplayType v s1
    | PostProcess =>
        exists pp,
          FVRFullScreenUserWidget_PostProcess.Display env
            (PostProcessDisplayType s1) InWorld (Widget s1) false
            (GetViewportDPIScale env s1) e1
          = Some (b, pp, e', t2) /\
          s' = set_PostProcessDisplayType pp s1
    end.
Proof.
  intros Hcond Hinit.
  rewrite (Display_guarded env s InWorld e Hcond).
  pose proof Hinit as Hinit'.
  apply InitWidget_Some in Hinit' as ((wd & ->) & -> & _).
  apply display_condition_true in Hcond as (_ & _ & _ & _ & Hd).
  unfold mbind at 1, M_bind at 1, bind at 1. rewrite Hinit. cbv zeta.
  set (s1 := set_Widget wd _) in *.
  assert (CurrentDisplayType s1 = GetDisplayType env s InWorld) as Hcur
    by (destruct s; reflexivity).
  rewrite Hcur.
  destruct (GetDisplayType env s InWorld); [congruence | |]; cbn [eqb].
  - destruct (Viewport_Display_total env (ViewportDisplayType s1) InWorld
                (Widget s1) (GetViewportDPIScale env s1) e)
      as (b & v & e' & t2 & Hrun).
    exists b, (set_ViewportDisplayType v s1), e', t2.
    split; [| eauto].
    run_M. rewrite Hrun. destruct b; rewrite ?app_nil_r; reflexivity.
  - destruct (PostProcess_Display_total env (PostProcessDisplayType s1) InWorld
                (Widget s1) false (GetViewportDPIScale env s1) e)
      as (b & pp & e' & t2 & Hrun).
    exists b, (set_PostProcessDisplayType pp s1), e', t2.
    split; [| eauto].
    run_M. rewrite Hrun. destruct b; rewrite ?app_nil_r; reflexivity.
Qed.

Lemma Viewport_Display_true env this World Widget InDPIScale e
    this' e' tr :
  FVRFullScreenUserWidget_Viewport.Display env this World Widget InDPIScale e
  = Some (true, this', e', tr) ->
  Widget <> None /\
  FVRFullScreenUserWidget_Viewport.FullScreenCanvasWidget_Pin e' this' <> None.
Proof.
  rewrite Viewport_Display_run. cbv zeta.
  assert (forall t0,
            FVRFullScreenUserWidget_Viewport.FullScreenCanvasWidget t0
            = Some (NextObject e) ->
            FVRFullScreenUserWidget_Viewport.FullScreenCanvasWidget_Pin
              (set_LiveCanvases ({[NextObject e]} ∪ LiveCanvases e)
                 (set_NextObject (S (NextObject e)) e)) t0 <> None) as Hlive.
  { intros t0 H0.
    unfold FVRFullScreenUserWidget_Viewport.FullScreenCanvasWidget_Pin.
    rewrite H0. simpl.
    rewrite bool_decide_eq_true_2; [discriminate | set_solver]. }
  intros Hrun.
  repeat match type of Hrun with
         | (if ?x then _ else _) = _ => destruct x
         | match ?x with _ => _ end = _ => destruct x
         end; try discriminate Hrun; injection Hrun as <- <- <-.
  all: split; [discriminate | apply Hlive; reflexivity].
Qed.

(** X15.  [Display] aborts exactly when its guard passes ([ShouldDisplay]
    holds, a widget class is set, the world is not null, nothing is
    displayed), Slate is initialised, no widget exists yet, and [InitWidget]
    cannot make one: the world handed in does not resolve, which fails
    [check(World.Get())], or [CreateWidget] returns null, on which
    [SetFlags] is called. *)
Theorem Display_aborts_iff (env : Env) (s : t) (InWorld : option UWorld)
    (e : Engine) :
  Display env s InWorld e = None <->
  ShouldDisplay env s InWorld = true /\
  CurrentDisplayType s = Inactive /\
  FSlateApplication_IsInitialized env = true /\
  Widget s = None /\
  exists W c,
    InWorld = Some W /\ WidgetClass s = Some c /\
    match World_Get env (Some (WorldId W)) with
    | Some W' => CreateWidget env W' c = None
    | None => True
    end.
Proof.
  destruct (display_condition env s InWorld) eqn:Hcond.
  - pose proof (display_condition_true _ _ _ Hcond) as (HW & Hc & Hsd & Hcur & _).
    destruct InWorld as [W|]; [| congruence].
    destruct (WidgetClass s) as [c|] eqn:Hclass; [| congruence].
    destruct (InitWidget env
                (set_CurrentDisplayType (GetDisplayType env s (Some W))
                   (display_requested (Some W) s)) e)
      as [[[s1 e1] t1]|] eqn:Hinit.
    + destruct (Display_split env s (Some W) e s1 e1 t1 Hcond Hinit)
        as (b & s' & e' & t2 & Hrun & _).
      rewrite Hrun. split; [discriminate |].
      intros (_ & _ & Hslate & Hwd & W' & c' & [= <-] & [= <-] & Hget).
      rewrite InitWidget_run, Hslate in Hinit.
      replace (WidgetClass (set_CurrentDisplayType _ _)) with (Some c) in Hinit
        by (destruct s; simpl in *; congruence).
      replace (Widget (set_CurrentDisplayType _ _)) with (@None UUserWidget)
        in Hinit by (destruct s; simpl in *; congruence).
      replace (World (set_CurrentDisplayType _ _)) with (Some (WorldId W))
        in Hinit by (destruct s; reflexivity).
      destruct (World_Get env (Some (WorldId W))); [| discriminate].
      rewrite Hget in Hinit. discriminate.
    + rewrite (Display_guarded env s (Some W) e Hcond).
      unfold mbind at 1, M_bind at 1, bind at 1. rewrite Hinit.
      split; [| reflexivity]. intros _.
      rewrite InitWidget_run in Hinit.
      replace (WidgetClass (set_CurrentDisplayType _ _)) with (Some c) in Hinit
        by (destruct s; simpl in *; congruence).
      replace (World (set_CurrentDisplayType _ _)) with (Some (WorldId W))
        in Hinit by (destruct s; reflexivity).
      replace (Widget (set_CurrentDisplayType _ _)) with (Widget s) in Hinit
        by (destruct s; reflexivity).
      destruct (FSlateApplication_IsInitialized env); [| discriminate].
      destruct (Widget s); [discriminate |].
      repeat split; auto. exists W, c. repeat split.
      destruct (World_Get env (Some (WorldId W))) as [W'|]; [| exact I].
      destruct (CreateWidget env W' c); [discriminate | reflexivity].
  - unfold Display. cbv zeta. fold (display_requested InWorld s).
    rewrite display_condition_requested, Hcond.
    split; [discriminate |].
    intros (Hsd & Hcur & _ & _ & W & c & -> & Hc & _).
    unfold display_condition in Hcond.
    rewrite Hc, Hsd, Hcur in Hcond. discriminate.
Qed.


(** X16.  Once the guard of [Display] has passed, the widget counts as
    displayed whatever the result: [CurrentDisplayType] is the display type
    of the world and [IsDisplayed] is true, also when [Display] returns
    false.  [LevelRemovedFromWorld] is subscribed to exactly when the result
    is true.  Every further [Display], under any host, is refused, calls
    nothing and leaves widget and display paths alone. *)
Theorem Display_marks_displayed (env : Env) (s : t) (InWorld : option UWorld)
    (e : Engine) (b : bool) (s' : t) (e' : Engine) (tr : list HostCall) :
  WidgetClass s <> None ->
  ShouldDisplay env s InWorld = true ->
  CurrentDisplayType s = Inactive ->
  Display env s InWorld e = Some (b, s', e', tr) ->
  IsDisplayed s' = true /\
  CurrentDisplayType s' = GetDisplayType env s InWorld /\
  (In LevelRemovedFromWorld_AddUObject tr <-> b = true) /\
  forall env2 InWorld2 e2,
    exists s2,
      Display env2 s' InWorld2 e2 = Some (false, s2, e2, []) /\
      CurrentDisplayType s2 = CurrentDisplayType s' /\
      Widget s2 = Widget s' /\
      ViewportDisplayType s2 = ViewportDisplayType s' /\
      PostProcessDisplayType s2 = PostProcessDisplayType s'.
Proof.
  intros Hclass Hsd Hcur Hrun.
  assert (display_condition env s InWorld = true) as Hcond.
  { unfold display_condition. rewrite Hsd, Hcur.
    destruct (WidgetClass s); [| congruence].
    destruct InWorld; [reflexivity |].
    unfold ShouldDisplay in Hsd. simpl in Hsd.
    destruct (UE_SERVER env); [discriminate |].
    destruct (_ || _); discriminate. }
  pose proof (display_condition_true _ _ _ Hcond) as (_ & _ & _ & _ & Hd).
  destruct (InitWidget env
              (set_CurrentDisplayType (GetDisplayType env s InWorld)
                 (display_requested InWorld s)) e)
    as [[[s1 e1] t1]|] eqn:Hinit.
  2:{ rewrite (Display_guarded env s InWorld e Hcond) in Hrun.
      unfold mbind at 1, M_bind at 1, bind at 1 in Hrun.
      rewrite Hinit in Hrun. discriminate. }
  destruct (Display_split env s InWorld e s1 e1 t1 Hcond Hinit)
    as (b0 & s0 & e0 & t2 & Hrun0 & Hcase).
  rewrite Hrun in Hrun0. injection Hrun0 as -> -> -> ->.
  pose proof Hinit as Hinit'.
  apply InitWidget_Some in Hinit' as ((wd & ->) & -> & Hq1).
  assert (forall c, In c t1 -> c <> LevelRemovedFromWorld_AddUObject) as Ht1.
  { rewrite InitWidget_run in Hinit. intros c Hc.
    repeat match type of Hinit with
           | (if ?x then _ else _) = _ => destruct x
           | match ?x with _ => _ end = _ => destruct x
           end; try discriminate Hinit; injection Hinit as _ <-;
      in_inv Hc; subst c; discriminate. }
  assert (CurrentDisplayType s0 = GetDisplayType env s InWorld /\
          ~ In LevelRemovedFromWorld_AddUObject t2) as (Hcur' & Ht2).
  { destruct (GetDisplayType env s InWorld); [destruct Hcase | |].
    - destruct Hcase as (v & Hv & ->).
      split; [destruct s; reflexivity |].
      rewrite Viewport_Display_run in Hv. cbv zeta in Hv.
      intros Hc.
      repeat match type of Hv with
             | (if ?x then _ else _) = _ => destruct x
             | match ?x with _ => _ end = _ => destruct x
             end; try discriminate Hv; injection Hv as _ _ _ <-; in_inv Hc.
    - destruct Hcase as (pp & Hpp & ->).
      split; [destruct s; reflexivity |].
      eapply PostProcess_Display_no_subscription; exact Hpp. }
  split; [unfold IsDisplayed; rewrite Hcur';
          destruct (GetDisplayType env s InWorld) eqn:Hg;
          [congruence | reflexivity | reflexivity] |].
  split; [exact Hcur' |].
  split.
  { rewrite !in_app_iff. split.
    - intros [H | [H | H]].
      + destruct (Ht1 _ H eq_refl).
      + destruct (Ht2 H).
      + destruct b0; [reflexivity | destruct H].
    - intros ->. right. right. left. reflexivity. }
  intros env2 InWorld2 e2.
  exists (display_requested InWorld2 s0).
  unfold Display. cbv zeta. fold (display_requested InWorld2 s0).
  rewrite display_condition_requested.
  replace (display_condition env2 s0 InWorld2) with false.
  - destruct s0; repeat split.
  - unfold display_condition. rewrite Hcur'.
    destruct (GetDisplayType env s InWorld) eqn:Hg; [congruence | |];
      cbn [eqb]; rewrite andb_false_r; reflexivity.
Qed.

(** A PIE world without a game viewport: [Display] returns false, and the
    widget is displayed. *)
Lemma Display_marks_displayed_witness :
  exists s' e' tr,
    Display env_editor
      (ctor Inactive Inactive Viewport (Some 40%nat) false false (Some 41%nat)
         false)
      (Some world_pie_headless) engine_0 = Some (false, s', e', tr) /\
    IsDisplayed s' = true.
Proof.
  destruct (Display env_editor
              (ctor Inactive Inactive Viewport (Some 40%nat) false false
                 (Some 41%nat) false)
              (Some world_pie_headless) engine_0)
    as [[[[b s'] e'] tr]|] eqn:Hrun; [| vm_compute in Hrun; discriminate Hrun].
  assert (b = false) as ->
    by (vm_compute in Hrun; injection Hrun as <- _ _ _; reflexivity).
  exists s', e', tr. split; [reflexivity |].
  apply (Display_marks_displayed env_editor
           (ctor Inactive Inactive Viewport (Some 40%nat) false false
              (Some 41%nat) false)
           (Some world_pie_headless) engine_0 false s' e' tr);
    [discriminate | reflexivity | reflexivity | exact Hrun].
Defined.

(** X17.  A [Display] that returns true has presented the widget: the
    widget was not displayed before and [ShouldDisplay] held; afterwards the
    user widget exists, [LevelRemovedFromWorld] is subscribed to, and, by
    [CurrentDisplayType], either a full-screen canvas is alive, or render
    target, renderer, window, component and material instance all exist.  In
    a build without the editor the world is a Game world. *)
Theorem Display_true_means_presented (env : Env) (s : t)
    (InWorld : option UWorld) (e : Engine) (s' : t) (e' : Engine)
    (tr : list HostCall) :
  Display env s InWorld e = Some (true, s', e', tr) ->
  CurrentDisplayType s = Inactive /\
  ShouldDisplay env s InWorld = true /\
  Widget s' <> None /\
  In LevelRemovedFromWorld_AddUObject tr /\
  match CurrentDisplayType s' with
  | Inactive => False
  | Viewport => viewport_presented e' s'
  | PostProcess =>
      let pp := PostProcessDisplayType s' in
      FVRFullScreenUserWidget_PostProcess.WidgetRenderTarget pp <> None /\
      FVRFullScreenUserWidget_PostProcess.WidgetRenderer pp <> None /\
      FVRFullScreenUserWidget_PostProcess.SlateWindow pp <> None /\
      FVRFullScreenUserWidget_PostProcess.PostProcessComponent pp <> None /\
      FVRFullScreenUserWidget_PostProcess.PostProcessMaterialInstance pp <> None
  end /\
  (WITH_EDITOR env = false ->
   exists W, InWorld = Some W /\ WorldType W = EWorldType.Game).
Proof.
  intros Hrun.
  destruct (display_condition env s InWorld) eqn:Hcond.
  2:{ unfold Display in Hrun. cbv zeta in Hrun.
      fold (display_requested InWorld s) in Hrun.
      rewrite display_condition_requested, Hcond in Hrun. discriminate. }
  pose proof (display_condition_true _ _ _ Hcond) as (HW & _ & Hsd & Hcur & Hd).
  destruct (InitWidget env
              (set_CurrentDisplayType (GetDisplayType env s InWorld)
                 (display_requested InWorld s)) e)
    as [[[s1 e1] t1]|] eqn:Hinit.
  2:{ rewrite (Display_guarded env s InWorld e Hcond) in Hrun.
      unfold mbind at 1, M_bind at 1, bind at 1 in Hrun.
      rewrite Hinit in Hrun. discriminate. }
  destruct (Display_split env s InWorld e s1 e1 t1 Hcond Hinit)
    as (b0 & s0 & e0 & t2 & Hrun0 & Hcase).
  rewrite Hrun in Hrun0. injection Hrun0 as <- -> -> ->.
  split; [exact Hcur |]. split; [exact Hsd |].
  assert (forall T (o : option T), isSome o = true -> o <> None) as Hsome
    by (intros T [x|]; simpl; congruence).
  assert (Widget s0 <> None /\
          match CurrentDisplayType s0 with
          | Inactive => False
          | Viewport => viewport_presented e0 s0
          | PostProcess =>
              let pp := PostProcessDisplayType s0 in
              FVRFullScreenUserWidget_PostProcess.WidgetRenderTarget pp <> None /\
              FVRFullScreenUserWidget_PostProcess.WidgetRenderer pp <> None /\
              FVRFullScreenUserWidget_PostProcess.SlateWindow pp <> None /\
              FVRFullScreenUserWidget_PostProcess.PostProcessComponent pp <> None /\
              FVRFullScreenUserWidget_PostProcess.PostProcessMaterialInstance pp
              <> None
          end) as [Hwd Hpres].
  { pose proof Hinit as Hinit'.
    apply InitWidget_Some in Hinit' as ((wd & ->) & -> & _).
    destruct (GetDisplayType env s InWorld) eqn:Hg; [destruct Hcase | |].
    - destruct Hcase as (v & Hv & ->).
      replace (CurrentDisplayType (set_ViewportDisplayType v _)) with Viewport
        by (destruct s; simpl; congruence).
      destruct (Viewport_Display_true _ _ _ _ _ _ _ _ _ Hv)
        as (H1 & H2).
      split; [destruct s; exact H1 |].
      unfold viewport_presented, canvas_pinned. destruct s; exact H2.
    - destruct Hcase as (pp & Hpp & ->).
      replace (CurrentDisplayType (set_PostProcessDisplayType pp _))
        with PostProcess by (destruct s; simpl; congruence).
      apply PostProcess_Display_true in Hpp as (H1 & H2 & H3 & H4 & H5 & H6).
      split; [destruct s; exact H1 |].
      cbv zeta.
      replace (PostProcessDisplayType (set_PostProcessDisplayType pp _)) with pp
        by (destruct s; reflexivity).
      repeat split; apply Hsome; assumption. }
  split; [exact Hwd |].
  split; [rewrite !in_app_iff; right; right; left; reflexivity |].
  split; [exact Hpres |].
  intros HE. destruct InWorld as [W|]; [| congruence].
  exists W. split; [reflexivity |].
  unfold GetDisplayType in Hd. rewrite HE in Hd. simpl in Hd.
  destruct (WorldType W); simpl in Hd; congruence.
Qed.


(** The game world of [env_hit]. *)
Lemma Display_true_means_presented_witness :
  exists s' e' tr,
    Display env_hit widget_0 (Some world_game) engine_0 = Some (true, s', e', tr) /\
    Widget s' <> None /\
    In LevelRemovedFromWorld_AddUObject tr.
Proof.
  destruct (Display env_hit widget_0 (Some world_game) engine_0)
    as [[[[b s'] e'] tr]|] eqn:Hrun; [| vm_compute in Hrun; discriminate Hrun].
  assert (b = true) as ->
    by (vm_compute in Hrun; injection Hrun as <- _ _ _; reflexivity).
  exists s', e', tr. split; [reflexivity |].
  destruct (Display_true_means_presented env_hit widget_0 (Some world_game)
              engine_0 s' e' tr Hrun) as (_ & _ & Hwd & Hin & _).
  split; [exact Hwd | exact Hin].
Defined.

(** X18.  The viewport display of a Game or PIE world, from a state that is
    not displayed.  With the guard passed, Slate initialised, the world
    alive and a widget created, [Display] returns true after exactly these
    calls: the widget is flagged transient, the canvas is made with the
    platform DPI scale at (10,10) over the widget, the canvas is added to
    the game viewport client, and [LevelRemovedFromWorld] is subscribed to.
    The post-process path is not touched. *)
Theorem Display_viewport_in_game (env : Env) (s : t) (W : UWorld) (e : Engine)
    (WidgetClass_ : ObjectPtr) (Widget_ : UUserWidget)
    (ViewportClient : UGameViewportClient) :
  WidgetClass s = Some WidgetClass_ ->
  Widget s = None ->
  CurrentDisplayType s = Inactive ->
  ShouldDisplay env s (Some W) = true ->
  GetDisplayType env s (Some W) = Viewport ->
  FSlateApplication_IsInitialized env = true ->
  World_Get env (Some (WorldId W)) = Some W ->
  CreateWidget env W WidgetClass_ = Some Widget_ ->
  is_Game_or_PIE W = true ->
  GetGameViewport W = Some ViewportClient ->
  canvas_pinned e s = None ->
  exists s' e',
    Display env s (Some W) e
    = Some (true, s', e',
            [ SetFlags_RF_Transient (UserWidgetId Widget_);
              SNew_SConstraintCanvas (NextObject e)
                (GetDPIScaleFactorAtPoint env 10%Q 10%Q) (UserWidgetId Widget_);
              AddViewportWidgetContent (GameViewportClientId ViewportClient)
                (NextObject e);
              LevelRemovedFromWorld_AddUObject ]) /\
    CurrentDisplayType s' = Viewport /\
    Widget s' = Some Widget_ /\
    World s' = Some (WorldId W) /\
    bDisplayRequested s' = true /\
    canvas_pinned e' s' = Some (NextObject e) /\
    PostProcessDisplayType s' = PostProcessDisplayType s.
Proof.
  intros Hclass Hwd Hcur Hsd Hd Hslate Hget Hcw Hgame Hvc Hpin.
  assert (display_condition env s (Some W) = true) as Hcond
    by (unfold display_condition; rewrite Hclass, Hsd, Hcur; reflexivity).
  set (s0 := set_CurrentDisplayType (GetDisplayType env s (Some W))
               (display_requested (Some W) s)).
  assert (InitWidget env s0 e
          = Some (set_Widget (Some Widget_) s0, e,
                  [SetFlags_RF_Transient (UserWidgetId Widget_)])) as Hinit.
  { rewrite InitWidget_run, Hslate.
    replace (WidgetClass s0) with (Some WidgetClass_)
      by (destruct s; simpl in *; congruence).
    replace (Widget s0) with (@None UUserWidget)
      by (destruct s; simpl in *; congruence).
    replace (World s0) with (Some (WorldId W)) by (destruct s; reflexivity).
    rewrite Hget, Hcw. reflexivity. }
  destruct (Display_split env s (Some W) e _ _ _ Hcond Hinit)
    as (b & s' & e' & t2 & Hrun & Hcase).
  rewrite Hd in Hcase. destruct Hcase as (v & Hv & ->).
  set (s1 := set_Widget (Some Widget_) s0) in *.
  assert (GetViewportDPIScale env s1 = GetDPIScaleFactorAtPoint env 10%Q 10%Q)
    as Hdpi.
  { unfold GetViewportDPIScale. cbv zeta.
    replace (CurrentDisplayType s1) with Viewport
      by (destruct s; simpl in *; congruence).
    replace (World s1) with (Some (WorldId W)) by (destruct s; reflexivity).
    rewrite Hget, Hgame. reflexivity. }
  rewrite Hdpi in Hv.
  rewrite Viewport_Display_run in Hv. cbv zeta in Hv.
  replace (Widget s1) with (Some Widget_) in Hv by (destruct s; reflexivity).
  replace (FVRFullScreenUserWidget_Viewport.FullScreenCanvasWidget_Pin e
             (ViewportDisplayType s1)) with (@None ObjectPtr) in Hv
    by (rewrite <- Hpin; destruct s; reflexivity).
  rewrite Hgame, Hvc in Hv. injection Hv as <- <- <- <-.
  eexists _, _. split; [exact Hrun |].
  split; [destruct s; simpl in *; congruence |].
  split; [destruct s; reflexivity |].
  split; [destruct s; reflexivity |].
  split; [destruct s; reflexivity |].
  split; [| destruct s; reflexivity].
  unfold canvas_pinned, FVRFullScreenUserWidget_Viewport.FullScreenCanvasWidget_Pin.
  destruct s; simpl.
  rewrite bool_decide_eq_true_2; [reflexivity | set_solver].
Qed.

(** The game world of [env_hit], where the platform scale is 1. *)
Lemma Display_viewport_in_game_witness :
  exists s' e',
    Display env_hit widget_0 (Some world_game) engine_0
    = Some (true, s', e',
            [ SetFlags_RF_Transient 30%nat;
              SNew_SConstraintCanvas 100%nat 1%Q 30%nat;
              AddViewportWidgetContent 3%nat 100%nat;
              LevelRemovedFromWorld_AddUObject ]) /\
    CurrentDisplayType s' = Viewport.
Proof.
  destruct (Display_viewport_in_game env_hit widget_0 world_game engine_0
              40%nat {| UserWidgetId := 30%nat; IsDesignTime := false |}
              client_1920x1080
              eq_refl eq_refl eq_refl eq_refl eq_refl eq_refl eq_refl eq_refl
              eq_refl eq_refl eq_refl)
    as (s' & e' & Hrun & Hcur & _).
  exists s', e'. split; [exact Hrun | exact Hcur].
Defined.


Lemma Widget_Hide_run env s e :
  Hide env s e =
  match CurrentDisplayType s with
  | Inactive => Some (hide_requested s, e, [])
  | Viewport =>
      match FVRFullScreenUserWidget_Viewport.Hide env (ViewportDisplayType s)
              (World_Get env (World s)) e with
      | Some (v, e1, t) =>
          Some (hide_requested
                  (set_CurrentDisplayType Inactive
                     (set_ViewportDisplayType v (set_Widget None s))),
                e1, LevelRemovedFromWorld_RemoveAll :: t)
      | None => None
      end
  | PostProcess =>
      Some (hide_requested
              (set_CurrentDisplayType Inactive
                 (set_PostProcessDisplayType
                    (hidden (PostProcessDisplayType s)) (set_Widget None s))),
            path_taken_off env (PostProcessDisplayType s) e,
            LevelRemovedFromWorld_RemoveAll ::
            hide_calls env (PostProcessDisplayType s) e)
  end.
Proof.
  unfold Hide, hide_requested. cbv zeta.
  destruct s as [cur ? ? ? ? ? ? ? ? ? ? ? ?]; destruct cur; cbn.
  - reflexivity.
  - run_M.
    destruct (FVRFullScreenUserWidget_Viewport.Hide env _ _ e)
      as [[[v e1] t]|]; [| reflexivity].
    cbn. rewrite !app_nil_r. reflexivity.
  - run_M. rewrite PostProcess_Hide_run. cbn. rewrite !app_nil_r. reflexivity.
Qed.

(** [Hide] of the widget takes a hit-test path off exactly when the
    post-process path is the current one and its own path is on the viewport
    widget it remembers; that widget then carries none. *)
Lemma Widget_Hide_paths env s e s1 e1 t1 :
  Hide env s e = Some (s1, e1, t1) ->
  (forall v p,
     In (SetCustomHitTestPath v p) t1 <->
     CurrentDisplayType s = PostProcess /\
     p = None /\
     exists vw,
       ViewportWidget_Pin env
         (FVRFullScreenUserWidget_PostProcess.ViewportWidget
            (PostProcessDisplayType s)) = Some vw /\
       ViewportWidgetId vw = v /\
       GetCustomHitTestPath vw e
       = FVRFullScreenUserWidget_PostProcess.CustomHitTestPath
           (PostProcessDisplayType s)) /\
  (forall v, In (SetCustomHitTestPath v None) t1 ->
             e1 = set_CustomHitTestPaths
                    (delete v (CustomHitTestPaths e)) e).
Proof.
  rewrite Widget_Hide_run. intros Hrun.
  destruct (CurrentDisplayType s) eqn:Hcur.
  - injection Hrun as <- <- <-. split.
    + intros v p. split; [intros [] | intros [[=] _]].
    + intros v [].
  - rewrite Viewport_Hide_run in Hrun.
    assert (forall v p, ~ In (SetCustomHitTestPath v p) t1) as Hno.
    { intros v p Hin.
      destruct (FVRFullScreenUserWidget_Viewport.FullScreenCanvasWidget_Pin
                  e (ViewportDisplayType s));
        injection Hrun as <- <- <-; in_inv Hin. }
    split.
    + intros v p. split; [intros H; destruct (Hno _ _ H) | intros [[=] _]].
    + intros v H. destruct (Hno _ _ H).
  - injection Hrun as <- <- <-.
    destruct (hide_calls_spec env (PostProcessDisplayType s) e)
      as (_ & _ & _ & Hp).
    split.
    + intros v p. split.
      * intros [[=] | Hin]. apply (proj1 (Hp _ _)) in Hin. tauto.
      * intros (_ & H). right. apply (proj2 (Hp _ _)). exact H.
    + intros v [[=] | Hin].
      apply (proj1 (Hp _ _)) in Hin as (_ & vw & Hpin & <- & Hpath).
      unfold path_taken_off.
      rewrite (proj2 (own_path_on_Some env _ e vw) (conj Hpin Hpath)).
      reflexivity.
Qed.

Lemma Display_target_viewports env s InWorld e b s' e' tr :
  Display env s InWorld e = Some (b, s', e', tr) ->
  target_viewports s' = target_viewports s.
Proof.
  intros Hrun.
  destruct (display_condition env s InWorld) eqn:Hcond.
  2:{ apply Display_Some in Hrun as (_ & _ & _ & _ & _ & Hcase).
      rewrite Hcond in Hcase. destruct Hcase as (_ & -> & _).
      destruct s; reflexivity. }
  destruct (InitWidget env
              (set_CurrentDisplayType (GetDisplayType env s InWorld)
                 (display_requested InWorld s)) e)
    as [[[s1 e1] t1]|] eqn:Hinit.
  2:{ rewrite (Display_guarded env s InWorld e Hcond) in Hrun.
      unfold mbind at 1, M_bind at 1, bind at 1 in Hrun.
      rewrite Hinit in Hrun. discriminate. }
  destruct (Display_split env s InWorld e s1 e1 t1 Hcond Hinit)
    as (b0 & s0 & e0 & t2 & Hrun0 & Hcase).
  rewrite Hrun in Hrun0. injection Hrun0 as -> -> -> ->.
  apply InitWidget_Some in Hinit as ((wd & ->) & -> & _).
  destruct (GetDisplayType env s InWorld); [destruct Hcase | |].
  - destruct Hcase as (v & Hv & ->).
    eapply wp_Some in Hv; [| apply wp_Viewport_Display].
    destruct Hv as (Htv & _). unfold target_viewports.
    destruct s; simpl in *. rewrite Htv. reflexivity.
  - destruct Hcase as (pp & Hpp & ->).
    eapply wp_Some in Hpp; [| apply wp_Display].
    destruct Hpp as (_ & _ & _ & _ & Htv & _). unfold target_viewports.
    destruct s; simpl in *. rewrite Htv. reflexivity.
Qed.

Lemma Hide_target_viewports env s e s' e' tr :
  Hide env s e = Some (s', e', tr) ->
  target_viewports s' = target_viewports s.
Proof.
  rewrite Widget_Hide_run. unfold target_viewports.
  destruct (CurrentDisplayType s).
  - intros [= <- <- <-]. destruct s; reflexivity.
  - destruct (FVRFullScreenUserWidget_Viewport.Hide env _ _ e)
      as [[[v e1] t]|] eqn:Hv; [| discriminate].
    intros [= <- <- <-].
    eapply wp_Some in Hv; [| apply wp_Viewport_Hide].
    destruct Hv as (_ & _ & Htv & _).
    destruct s; simpl in *. rewrite Htv. reflexivity.
  - intros [= <- <- <-].
    destruct s
      as [? ? ? ? ? ? ? ? ? [? ? ? ? ? ? ? ? ? ? ? ? ? ? ? ? ? ? [] ?] ? ? ?];
      reflexivity.
Qed.

Lemma Tick_target_viewports env s DeltaSeconds e s' e' tr :
  Tick env s DeltaSeconds e = Some (s', e', tr) ->
  target_viewports s' = target_viewports s.
Proof.
  unfold Tick.
  destruct (CurrentDisplayType s); cbn [eqb negb].
  - intros [= <- <- <-]. reflexivity.
  - destruct (World_Get env (World s)); [| apply Hide_target_viewports].
    unfold FVRFullScreenUserWidget_Viewport.Tick. run_M.
    intros [= <- <- <-]. destruct s; reflexivity.
  - destruct (World_Get env (World s)) as [W|]; [| apply Hide_target_viewports].
    intros H.
    apply bind_Some in H
      as (pp & e1 & t1 & ? & ? & ? & Hpp & [= <- <- <-] & [= -> -> ->]).
    unfold FVRFullScreenUserWidget_PostProcess.Tick in Hpp.
    rewrite TickRenderer_run in Hpp. unfold target_viewports.
    repeat match type of Hpp with
           | (if ?x then _ else _) = _ => destruct x
           | match ?x with _ => _ end = _ => destruct x
           | (let _ := _ in _) = _ => cbv zeta in Hpp
           end; try discriminate Hpp; injection Hpp as <- _ _.
    all: destruct s
      as [? ? ? ? ? ? ? ? ? [? ? ? ? ? ? ? ? ? ? ? ? ? ? ? ? ? ? [] ?] ? ? ?];
      reflexivity.
Qed.

(** X19.  In every reachable state the three copies of the target level
    viewport agree: the one of the viewport path and the one of the
    post-process path are the widget's own.  The overlay, the draw size and
    the DPI scale are therefore computed from the same level viewport. *)
Theorem target_viewports_stay_in_agreement (e : Engine) (s : t) :
  reachable e s ->
  FVRFullScreenUserWidget_Viewport.TargetViewport (ViewportDisplayType s)
  = TargetViewport s /\
  FVRFullScreenUserWidget_PostProcess.TargetViewport (PostProcessDisplayType s)
  = TargetViewport s /\
  forall env,
    ActiveLevelViewport env
      (FVRFullScreenUserWidget_Viewport.TargetViewport (ViewportDisplayType s))
    = ActiveLevelViewport env (TargetViewport s) /\
    ActiveLevelViewport env
      (FVRFullScreenUserWidget_PostProcess.TargetViewport
         (PostProcessDisplayType s))
    = ActiveLevelViewport env (TargetViewport s).
Proof.
  intros Hreach.
  assert (FVRFullScreenUserWidget_Viewport.TargetViewport (ViewportDisplayType s)
          = TargetViewport s /\
          FVRFullScreenUserWidget_PostProcess.TargetViewport
            (PostProcessDisplayType s) = TargetViewport s) as [H1 H2];
    [| rewrite H1, H2; auto].
  revert Hreach.
  assert (forall s s', target_viewports s' = target_viewports s ->
            FVRFullScreenUserWidget_Viewport.TargetViewport (ViewportDisplayType s)
            = TargetViewport s /\
            FVRFullScreenUserWidget_PostProcess.TargetViewport
              (PostProcessDisplayType s) = TargetViewport s ->
            FVRFullScreenUserWidget_Viewport.TargetViewport
              (ViewportDisplayType s') = TargetViewport s' /\
            FVRFullScreenUserWidget_PostProcess.TargetViewport
              (PostProcessDisplayType s') = TargetViewport s') as Hkept.
  { unfold target_viewports. intros s0 s1 [= -> -> ->]. auto. }
  induction 1 as
    [ e ed gd pd wc archetype cdo material indeterminate
    | e e' s _ IH Hsub
    | e s s' _ IH Hed
    | env InWorld e s b s' e' tr _ IH Hrun
    | env e s s' e' tr _ IH Hrun
    | env e s s' e' tr _ IH Hrun
    | env dt e s s' e' tr _ IH Hrun
    | env InLevel InWorld e s s' e' tr _ IH Hrun
    | env Property bInteractive e s s' e' tr _ IH Hrun
    | e s ed gd pd _ IH
    | e s v _ IH
    | e s _ IH ].
  - split; reflexivity.
  - exact IH.
  - destruct Hed as (_ & _ & _ & _ & E5 & E6 & (_ & _ & _ & _ & _ & _ & _ & _ & _ & E)).
    rewrite E5, E6, E. exact IH.
  - eapply Hkept; [eapply Display_target_viewports; eauto | exact IH].
  - eapply Hkept; [eapply Hide_target_viewports; eauto | exact IH].
  - eapply Hkept; [eapply Hide_target_viewports; eauto | exact IH].
  - eapply Hkept; [eapply Tick_target_viewports; eauto | exact IH].
  - unfold OnLevelRemovedFromWorld in Hrun.
    destruct (_ && _);
      [eapply Hkept; [eapply Hide_target_viewports; eauto | exact IH] |].
    injection Hrun as <- <- <-. exact IH.
  - rewrite PostEditChangeProperty_acts in Hrun.
    destruct (edit_acts _ _); [| injection Hrun as <- <- <-; exact IH].
    apply bind_Some in Hrun
      as (s1 & e1 & t1 & r & e2 & t2 & H1 & H2 & [= <- -> ->]).
    apply Hide_target_viewports in H1.
    destruct (_ && _).
    + apply bind_Some in H2
        as ([b s2] & e3 & t3 & r & e4 & t4 & H3 & H4 & [= <- -> ->]).
      injection H4 as <- <- _.
      apply Display_target_viewports in H3.
      eapply Hkept; [| exact IH]. congruence.
    + injection H2 as <- <- <-. eapply Hkept; eauto.
  - destruct s; exact IH.
  - destruct s; split; reflexivity.
  - destruct s; split; reflexivity.
Qed.

(** A widget targeted at level viewport 7 and displayed in the editor. *)
Lemma target_viewports_stay_in_agreement_witness :
  exists b s e tr,
    Display env_editor
      (SetAllTargetViewports
         (ctor Viewport Inactive Inactive (Some 40%nat) false false
            (Some 41%nat) false) (Some 7%nat))
      (Some world_editor) engine_0 = Some (b, s, e, tr) /\
    TargetViewport s = Some 7%nat /\
    FVRFullScreenUserWidget_Viewport.TargetViewport (ViewportDisplayType s)
    = TargetViewport s.
Proof.
  destruct (Display env_editor
              (SetAllTargetViewports
                 (ctor Viewport Inactive Inactive (Some 40%nat) false false
                    (Some 41%nat) false) (Some 7%nat))
              (Some world_editor) engine_0)
    as [[[[b s] e] tr]|] eqn:Hrun; [| vm_compute in Hrun; discriminate Hrun].
  exists b, s, e, tr. split; [reflexivity |].
  assert (reachable e s) as Hreach.
  { eapply reachable_Display; [| exact Hrun].
    apply reachable_SetAllTargetViewports.
    apply (reachable_ctor engine_0 Viewport Inactive Inactive (Some 40%nat)
             false false (Some 41%nat) false). }
  split.
  - vm_compute in Hrun. injection Hrun as _ <- _ _. reflexivity.
  - exact (proj1 (target_viewports_stay_in_agreement e s Hreach)).
Defined.


(** X20.  From every reachable state [Tick] returns: no tick dereferences a
    missing window.  It never changes the live canvases.  With the world
    gone the widget ends [Inactive]; with the world alive the display type,
    the request, the world, the user widget and the viewport path are as
    before, also when the post-process path hid itself.  A widget that is
    not displayed, or is displayed in a viewport of a live world, is left
    unchanged and nothing is called. *)
Theorem Tick_returns_when_reachable (e : Engine) (s : t) (env : Env)
    (DeltaSeconds : float) :
  reachable e s ->
  exists s' e' tr,
    Tick env s DeltaSeconds e = Some (s', e', tr) /\
    LiveCanvases e' = LiveCanvases e /\
    (World_Get env (World s) = None -> CurrentDisplayType s' = Inactive) /\
    (World_Get env (World s) <> None ->
     CurrentDisplayType s' = CurrentDisplayType s /\
     bDisplayRequested s' = bDisplayRequested s /\
     World s' = World s /\
     Widget s' = Widget s /\
     ViewportDisplayType s' = ViewportDisplayType s) /\
    (CurrentDisplayType s = Inactive \/
     CurrentDisplayType s = Viewport /\ World_Get env (World s) <> None ->
     s' = s /\ e' = e /\ tr = []).
Proof.
  intros Hreach.
  apply consistent_reachable in Hreach as (_ & _ & _ & _ & Htied).
  pose proof (wp_Widget_Tick env s DeltaSeconds e Htied) as H.
  apply wp_run in H as (s' & e' & tr & Hrun & H).
  exists s', e', tr. split; [exact Hrun |].
  assert (Hide env s e = Some (s', e', tr) ->
          LiveCanvases e' = LiveCanvases e /\ CurrentDisplayType s' = Inactive)
    as Hhide.
  { intros Hh. eapply wp_Some in Hh; [| apply wp_Widget_Hide].
    destruct Hh as (-> & _ & Hc & _).
    split; [apply hidden_store_frame | exact Hc]. }
  destruct (CurrentDisplayType s) eqn:Hcur.
  - destruct H as (-> & -> & ->). repeat split; auto.
  - destruct (World_Get env (World s)) as [W|].
    + destruct H as (-> & -> & ->). repeat split; auto; congruence.
    + destruct (Hhide H) as [HL Hc].
      split; [exact HL |]. split; [auto |]. split; [congruence |].
      intros [[=] | [_ Hn]]; congruence.
  - destruct (World_Get env (World s)) as [W|].
    + destruct H as (pp' & Hpp & ->).
      eapply wp_Some in Hpp; [| apply wp_PostProcess_Tick_wf; exact Htied].
      destruct Hpp as (_ & _ & HL & _).
      split; [exact HL |]. split; [congruence |].
      split; [intros _; destruct s; simpl in *; auto |].
      intros [[=] | [[=] _]].
    + destruct (Hhide H) as [HL Hc].
      split; [exact HL |]. split; [auto |]. split; [congruence |].
      intros [[=] | [[=] _]].
Qed.

(** A tick of the widget displayed in the game world of [env_hit]. *)
Lemma Tick_returns_when_reachable_witness :
  exists b s e tr s' e' tr',
    Display env_hit widget_0 (Some world_game) engine_0 = Some (b, s, e, tr) /\
    reachable e s /\
    Tick env_hit s (1 # 60)%Q e = Some (s', e', tr') /\
    LiveCanvases e' = LiveCanvases e.
Proof.
  destruct (Display env_hit widget_0 (Some world_game) engine_0)
    as [[[[b s] e] tr]|] eqn:Hrun; [| vm_compute in Hrun; discriminate Hrun].
  assert (reachable e s) as Hreach.
  { eapply reachable_Display; [| exact Hrun].
    apply (reachable_ctor engine_0 Inactive Viewport Inactive (Some 40%nat)
             false false (Some 41%nat) false). }
  destruct (Tick_returns_when_reachable e s env_hit (1 # 60)%Q Hreach)
    as (s' & e' & tr' & Htick & HL & _).
  exists b, s, e, tr, s', e', tr'. auto.
Defined.

(** X21.  [PostEditChangeProperty] acts on a change that is not
    interactive of one of the eleven members [WidgetClass],
    [EditorDisplayType], [PostProcessMaterial], [WidgetDrawSize],
    [bWindowFocusable], [WindowVisibility], [bReceiveHardwareInput],
    [RenderTargetBackgroundColor], [RenderTargetBlendMode],
    [PostProcessTintColorAndOpacity] and [PostProcessOpacityFromTexture];
    for a null property, an interactive change or any other member it does
    nothing.  When it acts it hides the widget, and displays it again in the
    same world, from the store [Hide] left, exactly when display had been
    requested and the world is still alive; then [bDisplayRequested] and the
    world reference are as before.  A hit-test path [Hide] took off a
    viewport widget is no longer on it when the display starts.  When
    display had not been requested or the world is gone, it is [Hide], and
    the request is dropped. *)
Theorem PostEditChangeProperty_redisplays (env : Env) (s : t)
    (MemberProperty : option FName) (bInteractive : bool) (e : Engine)
    (s' : t) (e' : Engine) (tr : list HostCall) :
  PostEditChangeProperty env s MemberProperty bInteractive e
  = Some (s', e', tr) ->
  let acts :=
    exists Property,
      MemberProperty = Some Property /\ bInteractive = false /\
      In Property
        [ "WidgetClass"; "EditorDisplayType"; "PostProcessMaterial";
          "WidgetDrawSize"; "bWindowFocusable"; "WindowVisibility";
          "bReceiveHardwareInput"; "RenderTargetBackgroundColor";
          "RenderTargetBlendMode"; "PostProcessTintColorAndOpacity";
          "PostProcessOpacityFromTexture" ]%string in
  (~ acts -> s' = s /\ e' = e /\ tr = []) /\
  (acts ->
   (bDisplayRequested s = false \/ World_Get env (World s) = None ->
    Hide env s e = Some (s', e', tr) /\
    CurrentDisplayType s' = Inactive /\
    bDisplayRequested s' = false /\
    World s' = None) /\
   (bDisplayRequested s = true -> World_Get env (World s) <> None ->
    bDisplayRequested s' = true /\
    World s' = World s /\
    exists s1 e1 t1 b t2,
      Hide env s e = Some (s1, e1, t1) /\
      e1 = hidden_store env s e /\
      (forall v, In (SetCustomHitTestPath v None) t1 ->
                 CustomHitTestPaths e1 !! v = None) /\
      Display env s1 (World_Get env (World s)) e1 = Some (b, s', e', t2) /\
      tr = t1 ++ t2)).
Proof.
  intros Hrun acts.
  assert (edit_acts MemberProperty bInteractive = true <-> acts) as Hacts.
  { unfold edit_acts, acts. destruct MemberProperty as [Property|].
    - rewrite andb_true_iff, negb_true_iff, bool_decide_eq_true.
      unfold watched_members. rewrite list_elem_of_In. split.
      + intros [-> Hin]. exists Property. auto.
      + intros (p & [= <-] & -> & Hin). auto.
    - split; [discriminate | intros (p & [=] & _)]. }
  clearbody acts.
  rewrite PostEditChangeProperty_acts in Hrun.
  destruct (edit_acts MemberProperty bInteractive).
  2:{ injection Hrun as <- <- <-.
      split; [auto | intros H; apply Hacts in H; discriminate H]. }
  split; [intros H; destruct H; apply Hacts; reflexivity |].
  intros _.
  apply bind_Some in Hrun
    as (s1 & e1 & t1 & r & e2 & t2 & H1 & H2 & [= <- -> ->]).
  pose proof H1 as H1'.
  eapply wp_Some in H1'; [| apply wp_Widget_Hide].
  destruct H1' as (-> & _ & Hcur & Hreq & Hw & _).
  destruct (bDisplayRequested s) eqn:Hwas; cbn [andb] in H2.
  - destruct (World_Get env (World s)) as [W|] eqn:Hget; cbn [isSome] in H2.
    + apply bind_Some in H2
        as ([b s2] & e3 & t3 & r & e4 & t4 & H3 & H4 & [= <- -> ->]).
      injection H4 as <- <- <-.
      split; [intros [[=] | [=]] |]. intros _ _.
      pose proof H3 as H3'.
      apply Display_Some in H3' as (Hreq' & Hw' & _).
      split; [exact Hreq' |]. split.
      * rewrite Hw'. simpl.
        destruct (World s) as [i|]; [| discriminate Hget].
        apply World_Get_id in Hget. congruence.
      * exists s1, (hidden_store env s e), t1, b, t3. rewrite app_nil_r.
        split; [exact H1 |]. split; [reflexivity |].
        split; [| auto].
        intros v Hin.
        destruct (Widget_Hide_paths env s e s1 _ t1 H1) as (Hp & Hoff).
        rewrite (Hoff v Hin). apply lookup_delete_eq.
    + injection H2 as <- <- <-. rewrite app_nil_r.
      split; [auto | congruence].
  - injection H2 as <- <- <-. rewrite app_nil_r.
    split; [auto | congruence].
Qed.

(** An edit of [bReceiveHardwareInput] while the widget is displayed on the
    post-process path with hardware input: [Hide] takes the hit tester 102
    off the game viewport widget 4, and the display that follows installs the
    new hit tester 108 there.  An edit of [GameDisplayType] does nothing. *)
Lemma PostEditChangeProperty_redisplays_witness :
  exists b s e tr s' e' tr',
    Display env_editor_game widget_hardware (Some world_game) engine_0
    = Some (b, s, e, tr) /\
    CustomHitTestPaths e !! 4%nat = Some 102%nat /\
    PostEditChangeProperty env_editor_game s
      (Some "bReceiveHardwareInput"%string) false e
    = Some (s', e', tr') /\
    bDisplayRequested s' = true /\
    World s' = World s /\
    In (SetCustomHitTestPath 4%nat None) tr' /\
    In (SetCustomHitTestPath 4%nat (Some 108%nat)) tr' /\
    CustomHitTestPaths e' !! 4%nat = Some 108%nat /\
    PostEditChangeProperty env_editor_game s
      (Some "GameDisplayType"%string) false e
    = Some (s, e, []).
Proof.
  destruct (Display env_editor_game widget_hardware (Some world_game)
              engine_0)
    as [[[[b s] e] tr]|] eqn:Hrun; [| vm_compute in Hrun; discriminate Hrun].
  destruct (PostEditChangeProperty env_editor_game s
              (Some "bReceiveHardwareInput"%string) false e)
    as [[[s' e'] tr']|] eqn:Hedit.
  2:{ vm_compute in Hrun. injection Hrun as _ <- <- _.
      vm_compute in Hedit. discriminate Hedit. }
  exists b, s, e, tr, s', e', tr'. split; [reflexivity |].
  split; [vm_compute in Hrun; injection Hrun as _ _ <- _; reflexivity |].
  split; [exact Hedit |].
  destruct (PostEditChangeProperty_redisplays env_editor_game s
              (Some "bReceiveHardwareInput"%string) false e s' e' tr' Hedit)
    as (_ & Hwatched).
  destruct Hwatched as (_ & Hre).
  { exists "bReceiveHardwareInput"%string.
    split; [reflexivity |]. split; [reflexivity |]. cbn. tauto. }
  assert (bDisplayRequested s = true /\
          World_Get env_editor_game (World s) <> None)
    as [Hreq Hget].
  { vm_compute in Hrun. injection Hrun as _ <- _ _.
    split; [reflexivity | discriminate]. }
  destruct (Hre Hreq Hget) as (H1 & H2 & _).
  split; [exact H1 |]. split; [exact H2 |].
  vm_compute in Hrun. injection Hrun as _ <- <- _.
  vm_compute in Hedit. injection Hedit as _ <- <-.
  split; [do 4 right; left; reflexivity |].
  split; [do 12 right; left; reflexivity |].
  split; reflexivity.
Defined.

(** X23.  What [Display] of the widget registers with the engine, the
    [Hide] that follows undoes, while the world is alive: it returns with
    the objects of the store as they were and the widget [Inactive]; the
    subscription to [LevelRemovedFromWorld] is removed, the canvas is
    removed from the game viewport client, or from the level viewport while
    that is alive, the renderer is handed to [BeginCleanup], the component
    is unregistered, the window is unregistered from Slate, and the hit-test
    path [Display] put on a viewport widget is taken off it with
    [SetCustomHitTestPath] while that widget is alive, after which it
    carries none.  When [Hide] takes no path off, the store is as it was. *)
Theorem Hide_undoes_Display (env : Env) (s : t) (W : UWorld) (e : Engine)
    (b : bool) (s1 : t) (e1 : Engine) (tr1 : list HostCall) :
  World_Get env (Some (WorldId W)) = Some W ->
  Display env s (Some W) e = Some (b, s1, e1, tr1) ->
  exists s2 e2 tr2,
    Hide env s1 e1 = Some (s2, e2, tr2) /\
    same_objects e1 e2 /\
    CurrentDisplayType s2 = Inactive /\
    (In LevelRemovedFromWorld_AddUObject tr1 ->
     In LevelRemovedFromWorld_RemoveAll tr2) /\
    (forall client canvas,
       In (AddViewportWidgetContent client canvas) tr1 ->
       In (RemoveViewportWidgetContent client canvas) tr2) /\
    (forall levelViewport canvas,
       In (AddOverlayWidget levelViewport canvas) tr1 ->
       LevelViewport_Pin env (Some levelViewport) <> None ->
       In (RemoveOverlayWidget levelViewport canvas) tr2) /\
    (forall r g, In (new_FWidgetRenderer r g) tr1 -> In (BeginCleanup r) tr2) /\
    (forall c, In (RegisterComponent c) tr1 -> In (UnregisterComponent c) tr2) /\
    (forall w,
       In (RegisterVirtualWindow w) tr1 -> In (UnregisterVirtualWindow w) tr2) /\
    (forall v h,
       In (SetCustomHitTestPath v (Some h)) tr1 ->
       ViewportWidget_Pin env (Some v) <> None ->
       CustomHitTestPaths e1 !! v = Some h /\
       In (SetCustomHitTestPath v None) tr2 /\
       e2 = set_CustomHitTestPaths (delete v (CustomHitTestPaths e1)) e1 /\
       CustomHitTestPaths e2 !! v = None) /\
    ((forall v, ~ In (SetCustomHitTestPath v None) tr2) -> e2 = e1).
Proof.
  intros Hget Hrun.
  pose proof (wp_Widget_Hide env s1 e1) as Hh.
  apply wp_run in Hh as (s2 & e2 & tr2 & Hhide & -> & _ & Hcur2 & _).
  exists s2, (hidden_store env s1 e1), tr2.
  split; [exact Hhide |]. split; [apply hidden_store_frame |].
  split; [exact Hcur2 |].
  pose proof (Widget_Hide_paths env s1 e1 s2 _ tr2 Hhide) as [Hpaths Hoff].
  assert ((forall v, ~ In (SetCustomHitTestPath v None) tr2) ->
          hidden_store env s1 e1 = e1) as Hstill.
  { intros Hnone. unfold hidden_store.
    destruct (CurrentDisplayType s1) eqn:Hcur1; try reflexivity.
    unfold path_taken_off.
    destruct (own_path_on env (PostProcessDisplayType s1) e1) as [vw|] eqn:Hown;
      [| reflexivity].
    apply own_path_on_Some in Hown as [Hpin Hpath].
    destruct (Hnone (ViewportWidgetId vw)).
    apply (proj2 (Hpaths _ _)). split; [reflexivity |].
    split; [reflexivity |]. eauto. }
  cut ((In LevelRemovedFromWorld_AddUObject tr1 ->
        In LevelRemovedFromWorld_RemoveAll tr2) /\
       (forall client canvas,
          In (AddViewportWidgetContent client canvas) tr1 ->
          In (RemoveViewportWidgetContent client canvas) tr2) /\
       (forall levelViewport canvas,
          In (AddOverlayWidget levelViewport canvas) tr1 ->
          LevelViewport_Pin env (Some levelViewport) <> None ->
          In (RemoveOverlayWidget levelViewport canvas) tr2) /\
       (forall r g,
          In (new_FWidgetRenderer r g) tr1 -> In (BeginCleanup r) tr2) /\
       (forall c,
          In (RegisterComponent c) tr1 -> In (UnregisterComponent c) tr2) /\
       (forall w,
          In (RegisterVirtualWindow w) tr1 ->
          In (UnregisterVirtualWindow w) tr2) /\
       (forall v h,
          In (SetCustomHitTestPath v (Some h)) tr1 ->
          ViewportWidget_Pin env (Some v) <> None ->
          CustomHitTestPaths e1 !! v = Some h /\
          In (SetCustomHitTestPath v None) tr2)).
  { intros (C1 & C2 & C3 & C4 & C5 & C6 & C7).
    repeat (split; [assumption |]).
    split; [| exact Hstill].
    intros v h Hin Hpin. destruct (C7 v h Hin Hpin) as [Hon Hcall].
    split; [exact Hon |]. split; [exact Hcall |].
    rewrite (Hoff v Hcall). split; [reflexivity |]. apply lookup_delete_eq. }
  clear Hstill Hoff.
  destruct (display_condition env s (Some W)) eqn:Hcond.
  2:{ apply Display_Some in Hrun as (_ & _ & _ & _ & _ & Hcase).
      rewrite Hcond in Hcase. destruct Hcase as (_ & _ & _ & ->).
      split; [intros [] |]. split; [intros ? ? [] |].
      split; [intros ? ? [] |]. split; [intros ? ? [] |].
      split; [intros ? [] |]. split; [intros ? [] | intros ? ? []]. }
  destruct (InitWidget env
              (set_CurrentDisplayType (GetDisplayType env s (Some W))
                 (display_requested (Some W) s)) e)
    as [[[s0 e0] t1]|] eqn:Hinit.
  2:{ rewrite (Display_guarded env s (Some W) e Hcond) in Hrun.
      unfold mbind at 1, M_bind at 1, bind at 1 in Hrun.
      rewrite Hinit in Hrun. discriminate. }
  destruct (Display_split env s (Some W) e s0 e0 t1 Hcond Hinit)
    as (b' & s' & e' & t2 & Hrun' & Hcase).
  rewrite Hrun in Hrun'. injection Hrun' as -> -> -> ->.
  assert (forall c, In c t1 -> exists o, c = SetFlags_RF_Transient o) as Ht1.
  { rewrite InitWidget_run in Hinit. intros c Hc.
    repeat match type of Hinit with
           | (if ?x then _ else _) = _ => destruct x
           | match ?x with _ => _ end = _ => destruct x
           end; try discriminate Hinit; injection Hinit as _ _ <-;
      in_inv Hc; subst c; eauto. }
  apply InitWidget_Some in Hinit as ((wd & ->) & -> & _).
  rewrite Widget_Hide_run in Hhide.
  assert (forall c, (forall o, c <> SetFlags_RF_Transient o) ->
            c <> LevelRemovedFromWorld_AddUObject ->
            In c (t1 ++ t2 ++
                  (if b' then [LevelRemovedFromWorld_AddUObject] else [])) ->
            In c t2) as Hmid.
  { intros c Hc1 Hc2 H. apply in_app_iff in H as [H | H].
    - destruct (Ht1 c H) as (o & ->). destruct (Hc1 o eq_refl).
    - apply in_app_iff in H as [H | H]; [exact H |].
      destruct b'; in_inv H. congruence. }
  destruct (GetDisplayType env s (Some W)) eqn:Hg; [destruct Hcase | |].
  - destruct Hcase as (v & Hv & ->).
    replace (CurrentDisplayType (set_ViewportDisplayType v _)) with Viewport
      in Hhide by (destruct s; simpl in *; congruence).
    replace (World (set_ViewportDisplayType v _)) with (Some (WorldId W))
      in Hhide by (destruct s; reflexivity).
    replace (ViewportDisplayType (set_ViewportDisplayType v _)) with v
      in Hhide by (destruct s; reflexivity).
    rewrite Hget in Hhide.
    destruct (FVRFullScreenUserWidget_Viewport.Hide env v (Some W) e')
      as [[[v2 e3] t3]|] eqn:Hvh; [| discriminate].
    injection Hhide as _ _ <-.
    split; [intros _; left; reflexivity |].
    assert (forall c, In c t2 ->
              (exists r g, c = new_FWidgetRenderer r g) \/
              (exists p, c = RegisterComponent p) \/
              (exists w, c = RegisterVirtualWindow w) \/
              (exists w p, c = SetCustomHitTestPath w p) -> False) as Hno.
    { intros c Hc Hkind.
      rewrite Viewport_Display_run in Hv. cbv zeta in Hv.
      repeat match type of Hv with
             | (if ?x then _ else _) = _ => destruct x
             | match ?x with _ => _ end = _ => destruct x
             end; try discriminate Hv; injection Hv as _ _ _ <-;
        in_inv Hc; subst c;
        destruct Hkind
          as [(? & ? & [=]) | [(? & [=]) | [(? & [=]) | (? & ? & [=])]]]. }
    destruct b'.
    + destruct (Viewport_Display_records _ _ _ _ _ _ _ _ _ Hv)
        as (canvas & Hpin & Hadd & Hover).
      destruct (Viewport_Hide_removal _ _ _ _ _ _ _ _ Hpin Hvh) as [Hrem Hrov].
      split; [| split; [| split; [| split; [| split]]]].
      * intros client c H. apply Hmid in H; [| discriminate | discriminate].
        destruct (Hadd _ _ H) as (-> & W' & vc & [= <-] & Hvc & ->).
        right. eapply Hrem; eauto.
      * intros lv c H Hlv. apply Hmid in H; [| discriminate | discriminate].
        destruct (Hover _ _ H) as (-> & HE & Hov).
        right. eapply Hrov; eauto.
      * intros r g H. apply Hmid in H; [| discriminate | discriminate].
        destruct (Hno _ H). eauto.
      * intros c H. apply Hmid in H; [| discriminate | discriminate].
        destruct (Hno _ H). eauto.
      * intros w H. apply Hmid in H; [| discriminate | discriminate].
        destruct (Hno _ H). eauto 10.
      * intros w h H. apply Hmid in H; [| discriminate | discriminate].
        destruct (Hno _ H). eauto 10.
    + eapply wp_Some in Hv;
        [| apply (proj2 (wp_eq _ _)), (wp_total _ _ _ (wp_Viewport_Display _ _ _ _ _ _))].
      assert (t2 = []) as ->.
      { rewrite Viewport_Display_run in Hv. cbv zeta in Hv.
        repeat match type of Hv with
               | (if ?x then _ else _) = _ => destruct x
               | match ?x with _ => _ end = _ => destruct x
               end; try discriminate Hv; injection Hv as _ _ <-; reflexivity. }
      split; [| split; [| split; [| split; [| split]]]]; intros;
        match goal with
        | H : In _ (t1 ++ [] ++ []) |- _ =>
            apply Hmid in H; [destruct H | discriminate | discriminate]
        end.
  - destruct Hcase as (pp & Hpp & ->).
    replace (CurrentDisplayType (set_PostProcessDisplayType pp _))
      with PostProcess in Hhide by (destruct s; simpl in *; congruence).
    replace (PostProcessDisplayType (set_PostProcessDisplayType pp _)) with pp
      in Hhide by (destruct s; reflexivity).
    injection Hhide as _ <-.
    destruct (hide_calls_spec env pp e') as (Hr & Hc & Hw & Hp).
    pose proof (PostProcess_Display_no_subscription _ _ _ _ _ _ _ _ _ _ _ Hpp)
      as Hnosub.
    assert (forall c, In c t2 ->
              (exists cl cv, c = AddViewportWidgetContent cl cv) \/
              (exists lv cv, c = AddOverlayWidget lv cv) -> False) as Hno.
    { intros c Hin Hkind.
      exact (PostProcess_Display_only_renders _ _ _ _ _ _ _ _ _ _ _ Hpp c Hin
               Hkind). }
    pose proof (PostProcess_Display_path_installed _ _ _ _ _ _ _ _ _ _ _ Hpp)
      as Hon.
    apply PostProcess_Display_records in Hpp as (Hb & R1 & R2 & R3 & R4).
    split; [intros _; left; reflexivity |].
    split; [| split; [| split; [| split; [| split]]]].
    + intros client c H. apply Hmid in H; [| discriminate | discriminate].
      destruct (Hno _ H). eauto.
    + intros lv c H _. apply Hmid in H; [| discriminate | discriminate].
      destruct (Hno _ H). eauto.
    + intros r g H. apply Hmid in H; [| discriminate | discriminate].
      right. apply Hr. eauto.
    + intros c H. apply Hmid in H; [| discriminate | discriminate].
      right. apply Hc. destruct (R2 c H). split; congruence.
    + intros w H. apply Hmid in H; [| discriminate | discriminate].
      right. apply Hw. apply R3. exact H.
    + intros v h H Hlive. apply Hmid in H; [| discriminate | discriminate].
      pose proof (Hon v h H) as Hstore.
      destruct (R4 v h H) as [Hv Hh].
      split; [exact Hstore |].
      right. apply Hp. split; [reflexivity |].
      destruct (ViewportWidget_Pin env (Some v)) as [vw|] eqn:Hpin;
        [| congruence].
      pose proof (ViewportWidget_Pin_id _ _ _ Hpin) as Hid.
      exists vw. rewrite Hv, Hh. split; [exact Hpin |].
      split; [exact Hid |].
      unfold GetCustomHitTestPath. rewrite Hid. exact Hstore.
Qed.

(** With hardware input the display installs the hit tester 102 on the game
    viewport widget 4 and [Hide] takes it off; on the viewport path, the
    canvas 100 added to the viewport client 3 is removed by [Hide]. *)
Lemma Hide_undoes_Display_witness :
  (exists b s1 e1 tr1 s2 e2 tr2,
     Display env_hit widget_hardware (Some world_game) engine_0
     = Some (b, s1, e1, tr1) /\
     In (SetCustomHitTestPath 4%nat (Some 102%nat)) tr1 /\
     In (new_FWidgetRenderer 100%nat true) tr1 /\
     In (RegisterComponent 104%nat) tr1 /\
     Hide env_hit s1 e1 = Some (s2, e2, tr2) /\
     CustomHitTestPaths e1 !! 4%nat = Some 102%nat /\
     In (SetCustomHitTestPath 4%nat None) tr2 /\
     CustomHitTestPaths e2 !! 4%nat = None /\
     In (BeginCleanup 100%nat) tr2 /\
     In (UnregisterComponent 104%nat) tr2) /\
  (exists b s1 e1 tr1 s2 tr2,
     Display env_hit widget_0 (Some world_game) engine_0
     = Some (b, s1, e1, tr1) /\
     In (AddViewportWidgetContent 3%nat 100%nat) tr1 /\
     Hide env_hit s1 e1 = Some (s2, e1, tr2) /\
     In (RemoveViewportWidgetContent 3%nat 100%nat) tr2).
Proof.
  split.
  - destruct (Display env_hit widget_hardware (Some world_game) engine_0)
      as [[[[b s1] e1] tr1]|] eqn:Hrun;
      [| vm_compute in Hrun; discriminate Hrun].
    destruct (Hide_undoes_Display env_hit widget_hardware world_game engine_0
                b s1 e1 tr1 eq_refl Hrun)
      as (s2 & e2 & tr2 & Hhide & _ & _ & _ & _ & _ & Hr & Hc & _ & Hpath & _).
    exists b, s1, e1, tr1, s2, e2, tr2. split; [reflexivity |].
    assert (In (SetCustomHitTestPath 4%nat (Some 102%nat)) tr1 /\
            In (new_FWidgetRenderer 100%nat true) tr1 /\
            In (RegisterComponent 104%nat) tr1) as (Hin & Hinr & Hinc).
    { vm_compute in Hrun. injection Hrun as _ _ _ <-. simpl. auto 20. }
    destruct (Hpath 4%nat 102%nat Hin ltac:(discriminate))
      as (Hon & Hcall & _ & Hgone).
    pose proof (Hr _ _ Hinr). pose proof (Hc _ Hinc). auto 12.
  - destruct (Display env_hit widget_0 (Some world_game) engine_0)
      as [[[[b s1] e1] tr1]|] eqn:Hrun;
      [| vm_compute in Hrun; discriminate Hrun].
    destruct (Hide_undoes_Display env_hit widget_0 world_game engine_0 b s1 e1
                tr1 eq_refl Hrun)
      as (s2 & e2 & tr2 & Hhide & _ & _ & _ & Hcanvas & _ & _ & _ & _ & _
          & Hstill).
    assert (In (AddViewportWidgetContent 3%nat 100%nat) tr1) as Hin.
    { vm_compute in Hrun. injection Hrun as _ _ _ <-. simpl. auto. }
    assert (e2 = e1) as ->.
    { apply Hstill. intros v Hv.
      vm_compute in Hrun. injection Hrun as _ <- <- _.
      vm_compute in Hhide. injection Hhide as _ _ <-. in_inv Hv. }
    exists b, s1, e1, tr1, s2, tr2. auto.
Defined.




End WidgetExtras.
